(** * Negotiation agents of scml-agents: concession, price memory, reputation

    A shallow embedding of

    - [scml_agents/scml2021/oneshot/team_72/learning_agent.py]
      (classes [SimpleAgent], [BetterAgent], [AdaptiveAgent], [LearningAgent]);
    - [scml_agents/scml2021/standard/team_49/agent.py]
      (class [E3BIUagent], the reputation filter).

    Numbers.  Quantities, steps and round budgets are Python [int]s: [Z].
    Prices and thresholds are Python [float]s.  They are modelled by the type
    [fl]: a real number, one of the two infinities, or NaN, with the IEEE-754
    rules for the special values ([0 * inf = nan], [inf - inf = nan], every
    comparison with NaN false).  Finite results are exact real numbers: the
    rounding and overflow of binary64 are not part of this model.  The
    arithmetic of the price computations is given a second time on binary64
    floats (module [Binary64]), to evaluate it where rounding decides.

    Prices of offers and agreements are values of the unit-price issue of a
    negotiation: finite numbers.

    Methods are state transformers on the agent's attributes that return a
    value or raise.  [self._price_range], which the subclasses override, is
    passed to the methods of the parent classes that call it. *)

From Stdlib Require Import ZArith Reals Lra Lia List PrimFloat.
From Stdlib Require SpecFloat FloatAxioms Uint63.
From stdpp Require Import gmap strings.
Import ListNotations.
Local Open Scope Z_scope.

(** ** Python floats *)

Module PyFloat.

Inductive fl : Type :=
| Fin (r : R)
| PInf
| NInf
| NaN.

Definition fneg (x : fl) : fl :=
  match x with
  | Fin r => Fin (- r)
  | PInf => NInf
  | NInf => PInf
  | NaN => NaN
  end.

(** [inf * r] for a finite [r]: the sign of [r] decides, [inf * 0] is NaN. *)
Definition inf_times (r : R) (pos : bool) : fl :=
  if Rlt_dec 0 r then (if pos then PInf else NInf)
  else if Rlt_dec r 0 then (if pos then NInf else PInf)
  else NaN.

Definition fmul (x y : fl) : fl :=
  match x, y with
  | NaN, _ | _, NaN => NaN
  | Fin a, Fin b => Fin (a * b)
  | Fin a, PInf | PInf, Fin a => inf_times a true
  | Fin a, NInf | NInf, Fin a => inf_times a false
  | PInf, PInf | NInf, NInf => PInf
  | PInf, NInf | NInf, PInf => NInf
  end.

Definition fadd (x y : fl) : fl :=
  match x, y with
  | NaN, _ | _, NaN => NaN
  | Fin a, Fin b => Fin (a + b)
  | PInf, NInf | NInf, PInf => NaN
  | PInf, _ | _, PInf => PInf
  | NInf, _ | _, NInf => NInf
  end.

Definition fsub (x y : fl) : fl := fadd x (fneg y).

(** [x < y] on floats. *)
Definition fltb (x y : fl) : bool :=
  match x, y with
  | NaN, _ | _, NaN => false
  | Fin a, Fin b => if Rlt_dec a b then true else false
  | NInf, NInf | PInf, _ | _, NInf => false
  | NInf, _ | _, PInf => true
  end.

Definition fgtb (x y : fl) : bool := fltb y x.

(** [x <= y] on floats. *)
Definition fleb (x y : fl) : bool :=
  match x, y with
  | NaN, _ | _, NaN => false
  | Fin a, Fin b => if Rle_dec a b then true else false
  | NInf, _ | _, PInf => true
  | PInf, _ | _, NInf => false
  end.

Definition fgeb (x y : fl) : bool := fleb y x.

(** The builtin [max(a, b)]: the first argument stays unless the second is
    strictly greater. *)
Definition max2 (a b : fl) : fl := if fgtb b a then b else a.

(** The builtin [min(a, b)]. *)
Definition min2 (a b : fl) : fl := if fltb b a then b else a.

(** [max(l)] on a non-empty list [x :: l]: a left-to-right scan that replaces
    the running maximum only by a strictly greater item. *)
Definition max_list (x : fl) (l : list fl) : fl :=
  fold_left max2 l x.

Definition min_list (x : fl) (l : list fl) : fl :=
  fold_left min2 l x.

End PyFloat.
Export PyFloat.

(** ** Python values and exceptions *)

(** A number as [**] can return it: a float, or a complex number (the value of
    a complex result is not tracked, only that it is one). *)
Inductive pynum : Type :=
| Num (x : fl)
| Complex.

Definition pynum_map (f : fl -> fl) (t : pynum) : pynum :=
  match t with
  | Num x => Num (f x)
  | Complex => Complex
  end.

Inductive exn : Type :=
| ZeroDivisionError
| TypeError
| AttributeError
| KeyError
| IndexError.

Inductive outcome (A : Type) : Type :=
| Ok (a : A)
| Raise (e : exn).
Arguments Ok {A} a.
Arguments Raise {A} e.

(** [x ** e] for a float base and a float exponent, both finite.
    - [x ** 0.0] is [1.0] for every [x];
    - a positive base gives the real power;
    - [0.0 ** e] is [0.0] for [e > 0] and raises for [e < 0];
    - a negative base gives a float for an integral exponent and a complex
      number otherwise. *)
Definition py_pow (x e : R) : outcome pynum :=
  if Req_dec_T e 0 then Ok (Num (Fin 1))
  else if Rlt_dec 0 x then Ok (Num (Fin (Rpower x e)))
  else if Req_dec_T x 0 then
    (if Rlt_dec 0 e then Ok (Num (Fin 0)) else Raise ZeroDivisionError)
  else if Req_dec_T (IZR (Int_part e)) e then Ok (Num (Fin (powerRZ x (Int_part e))))
  else Ok Complex.

(** [a / b] on two [int]s: true division, a float. *)
Definition py_truediv (a b : Z) : outcome R :=
  if Z.eqb b 0 then Raise ZeroDivisionError else Ok (IZR a / IZR b)%R.

(** [defaultdict(factory)]: reading a missing key stores the default under it
    and returns it. *)
Definition dd_getitem (d : fl) (k : string) (m : gmap string fl)
  : fl * gmap string fl :=
  match m !! k with
  | Some v => (v, m)
  | None => (d, <[k := d]> m)
  end.

(** What a read of key [k] would return, without performing it. *)
Definition dd_value (d : fl) (m : gmap string fl) (k : string) : fl :=
  default d (m !! k).

(** ** The negotiation interface read by the agents *)

Record Issue (T : Type) : Type := mkIssue {
  min_value : T;
  max_value : T
}.
Arguments mkIssue {T}.
Arguments min_value {T}.
Arguments max_value {T}.

(** [ami]: [issues[QUANTITY]], [issues[UNIT_PRICE]], [annotation["product"]],
    [annotation["buyer"]], [annotation["seller"]] and [n_steps]. *)
Record AMI : Type := mkAMI {
  quantity_issue : Issue Z;
  unit_price_issue : Issue R;
  product : Z;
  buyer : string;
  seller : string;
  n_steps : Z
}.

Record AWI : Type := mkAWI {
  current_exogenous_input_quantity : Z;
  current_exogenous_output_quantity : Z;
  my_output_product : Z;
  current_step : Z
}.

(** What the agent reaches through [self]: [self.awi] and [self.get_ami]. *)
Record World : Type := mkWorld {
  awi : AWI;
  get_ami : string -> option AMI
}.

(** An outcome [(quantity, time, unit_price)]. *)
Record Outcome (P : Type) : Type := mkOutcome {
  quantity : Z;
  time : Z;
  unit_price : P
}.
Arguments mkOutcome {P}.
Arguments quantity {P}.
Arguments time {P}.
Arguments unit_price {P}.

Record Contract : Type := mkContract {
  agreement : Outcome R;
  contract_buyer : string;
  contract_seller : string
}.

Inductive ResponseType : Type :=
| ACCEPT_OFFER
| REJECT_OFFER
| END_NEGOTIATION.

Definition ResponseType_eqb (a b : ResponseType) : bool :=
  match a, b with
  | ACCEPT_OFFER, ACCEPT_OFFER
  | REJECT_OFFER, REJECT_OFFER
  | END_NEGOTIATION, END_NEGOTIATION => true
  | _, _ => false
  end.

(** ** Agent state *)

(** The constructor arguments of [BetterAgent] and [LearningAgent]. *)
Record Config : Type := mkConfig {
  _e : R;
  _acc_price_slack : fl;
  _step_price_slack : fl;
  _opp_price_slack : fl;
  _opp_acc_price_slack : fl;
  _range_slack : fl
}.

(** The defaults of the keyword arguments. *)
Definition default_config : Config :=
  {| _e := 0.2;
     _acc_price_slack := PInf;
     _step_price_slack := Fin 0;
     _opp_price_slack := Fin 0;
     _opp_acc_price_slack := Fin 0.2;
     _range_slack := Fin 0.03 |}.

(** The attributes assigned by [init] and mutated afterwards. *)
Record Agent : Type := mkAgent {
  secured : Z;
  _best_selling : fl;
  _best_buying : fl;
  _best_acc_selling : fl;
  _best_acc_buying : fl;
  _best_opp_selling : gmap string fl;
  _best_opp_buying : gmap string fl;
  _best_opp_acc_selling : gmap string fl;
  _best_opp_acc_buying : gmap string fl
}.

Definition set_secured (v : Z) (a : Agent) : Agent :=
  mkAgent v (_best_selling a) (_best_buying a) (_best_acc_selling a)
    (_best_acc_buying a) (_best_opp_selling a) (_best_opp_buying a)
    (_best_opp_acc_selling a) (_best_opp_acc_buying a).
Definition set_best_selling (v : fl) (a : Agent) : Agent :=
  mkAgent (secured a) v (_best_buying a) (_best_acc_selling a)
    (_best_acc_buying a) (_best_opp_selling a) (_best_opp_buying a)
    (_best_opp_acc_selling a) (_best_opp_acc_buying a).
Definition set_best_buying (v : fl) (a : Agent) : Agent :=
  mkAgent (secured a) (_best_selling a) v (_best_acc_selling a)
    (_best_acc_buying a) (_best_opp_selling a) (_best_opp_buying a)
    (_best_opp_acc_selling a) (_best_opp_acc_buying a).
Definition set_best_acc_selling (v : fl) (a : Agent) : Agent :=
  mkAgent (secured a) (_best_selling a) (_best_buying a) v
    (_best_acc_buying a) (_best_opp_selling a) (_best_opp_buying a)
    (_best_opp_acc_selling a) (_best_opp_acc_buying a).
Definition set_best_acc_buying (v : fl) (a : Agent) : Agent :=
  mkAgent (secured a) (_best_selling a) (_best_buying a) (_best_acc_selling a)
    v (_best_opp_selling a) (_best_opp_buying a)
    (_best_opp_acc_selling a) (_best_opp_acc_buying a).
Definition set_best_opp_selling (v : gmap string fl) (a : Agent) : Agent :=
  mkAgent (secured a) (_best_selling a) (_best_buying a) (_best_acc_selling a)
    (_best_acc_buying a) v (_best_opp_buying a)
    (_best_opp_acc_selling a) (_best_opp_acc_buying a).
Definition set_best_opp_buying (v : gmap string fl) (a : Agent) : Agent :=
  mkAgent (secured a) (_best_selling a) (_best_buying a) (_best_acc_selling a)
    (_best_acc_buying a) (_best_opp_selling a) v
    (_best_opp_acc_selling a) (_best_opp_acc_buying a).
Definition set_best_opp_acc_selling (v : gmap string fl) (a : Agent) : Agent :=
  mkAgent (secured a) (_best_selling a) (_best_buying a) (_best_acc_selling a)
    (_best_acc_buying a) (_best_opp_selling a) (_best_opp_buying a)
    v (_best_opp_acc_buying a).
Definition set_best_opp_acc_buying (v : gmap string fl) (a : Agent) : Agent :=
  mkAgent (secured a) (_best_selling a) (_best_buying a) (_best_acc_selling a)
    (_best_acc_buying a) (_best_opp_selling a) (_best_opp_buying a)
    (_best_opp_acc_selling a) v.

(** ** Methods as state transformers that may raise *)

(** A method body: it runs on the agent's attributes, returns a value or
    raises, and leaves the attributes as they were at that point. *)
Definition M (A : Type) : Type := Agent -> outcome A * Agent.

Definition ret {A} (x : A) : M A := fun a => (Ok x, a).
Definition raise {A} (e : exn) : M A := fun a => (Raise e, a).
Definition bind {A B} (c : M A) (k : A -> M B) : M B :=
  fun a =>
    match c a with
    | (Ok x, a') => k x a'
    | (Raise e, a') => (Raise e, a')
    end.
Definition read {A} (f : Agent -> A) : M A := fun a => (Ok (f a), a).
Definition modify (f : Agent -> Agent) : M unit := fun a => (Ok tt, f a).
Definition lift {A} (o : outcome A) : M A := fun a => (o, a).

Notation "x <- c ;; k" := (bind c (fun x => k))
  (at level 100, c at next level, right associativity).
Notation "c ;;; k" := (bind c (fun _ => k))
  (at level 100, right associativity).

(** [self._best_opp_selling[partner]] and its three siblings: a read of a
    [defaultdict], which stores the default on a miss. *)
Definition read_opp_selling (k : string) : M fl :=
  fun a => let (v, m) := dd_getitem (Fin 0) k (_best_opp_selling a) in
           (Ok v, set_best_opp_selling m a).
Definition read_opp_buying (k : string) : M fl :=
  fun a => let (v, m) := dd_getitem PInf k (_best_opp_buying a) in
           (Ok v, set_best_opp_buying m a).
Definition read_opp_acc_selling (k : string) : M fl :=
  fun a => let (v, m) := dd_getitem (Fin 0) k (_best_opp_acc_selling a) in
           (Ok v, set_best_opp_acc_selling m a).
Definition read_opp_acc_buying (k : string) : M fl :=
  fun a => let (v, m) := dd_getitem PInf k (_best_opp_acc_buying a) in
           (Ok v, set_best_opp_acc_buying m a).

(** An attribute access on the result of [self.get_ami(negotiator_id)]: on
    [None] it raises [AttributeError]. *)
Definition the_ami (w : World) (negotiator_id : string) : M AMI :=
  match get_ami w negotiator_id with
  | Some ami => ret ami
  | None => raise AttributeError
  end.

(** ** [class SimpleAgent(OneShotAgent)] *)

Module SimpleAgent.

Definition init : M unit := modify (set_secured 0).

Definition step : M unit := modify (set_secured 0).

Definition on_negotiation_success (contract : Contract) (mechanism : AMI)
  : M unit :=
  modify (fun a => set_secured (secured a + quantity (agreement contract)) a).

Definition _needed (w : World) (negotiator_id : option string) : M Z :=
  read (fun a =>
    current_exogenous_input_quantity (awi w)
    + current_exogenous_output_quantity (awi w)
    - secured a).

Definition _is_selling (w : World) (ami : AMI) : bool :=
  Z.eqb (product ami) (my_output_product (awi w)).

Definition respond (w : World) (negotiator_id : string) (state_step : Z)
    (offer : Outcome R) : M ResponseType :=
  my_needs <- _needed w (Some negotiator_id) ;;
  if Z.leb my_needs 0 then ret END_NEGOTIATION
  else ret (if Z.leb (quantity offer) my_needs
            then ACCEPT_OFFER else REJECT_OFFER).

Definition best_offer (w : World) (negotiator_id : string)
  : M (option (Outcome R)) :=
  my_needs <- _needed w (Some negotiator_id) ;;
  if Z.leb my_needs 0 then ret None
  else
    match get_ami w negotiator_id with
    | None => ret None
    | Some ami =>
        let quantity_issue := quantity_issue ami in
        let unit_price_issue := unit_price_issue ami in
        ret (Some
          {| quantity :=
               Z.max (Z.min my_needs (max_value quantity_issue))
                     (min_value quantity_issue);
             time := current_step (awi w);
             unit_price :=
               if _is_selling w ami then max_value unit_price_issue
               else min_value unit_price_issue |})
    end.

Definition propose (w : World) (negotiator_id : string) (state_step : Z)
  : M (option (Outcome R)) :=
  best_offer w negotiator_id.

End SimpleAgent.

(** ** [class BetterAgent(SimpleAgent)]

    [_is_good_price] and [_find_good_price] call [self._price_range], which
    the subclasses override: the methods that reach it take the override in
    force as their first argument. *)

Module BetterAgent.

Import SimpleAgent.

Definition price_range_method : Type := World -> AMI -> M (fl * fl).

Definition _price_range : price_range_method :=
  fun w ami =>
    let mn := min_value (unit_price_issue ami) in
    let mx := max_value (unit_price_issue ami) in
    ret (Fin mn, Fin mx).

(** [((n_steps - step - 1) / (n_steps - 1)) ** self._e]. *)
Definition _th (cfg : Config) (step n_steps : Z) : outcome pynum :=
  match py_truediv (n_steps - step - 1) (n_steps - 1) with
  | Ok x => py_pow x (_e cfg)
  | Raise e => Raise e
  end.

(** [>=] between a float and a complex number raises [TypeError]. *)
Definition _is_good_price (self_price_range : price_range_method)
    (cfg : Config) (w : World) (ami : AMI) (state_step : Z) (price : R)
  : M bool :=
  r <- self_price_range w ami ;;
  let (mn, mx) := r in
  th <- lift (_th cfg state_step (n_steps ami)) ;;
  match th with
  | Complex => raise TypeError
  | Num th =>
      if _is_selling w ami
      then ret (fgeb (fsub (Fin price) mn) (fmul th (fsub mx mn)))
      else ret (fgeb (fsub mx (Fin price)) (fmul th (fsub mx mn)))
  end.

Definition _find_good_price (self_price_range : price_range_method)
    (cfg : Config) (w : World) (ami : AMI) (state_step : Z) : M pynum :=
  r <- self_price_range w ami ;;
  let (mn, mx) := r in
  th <- lift (_th cfg state_step (n_steps ami)) ;;
  if _is_selling w ami
  then ret (pynum_map (fun th => fadd mn (fmul th (fsub mx mn))) th)
  else ret (pynum_map (fun th => fsub mx (fmul th (fsub mx mn))) th).

Definition propose (self_price_range : price_range_method)
    (cfg : Config) (w : World) (negotiator_id : string) (state_step : Z)
  : M (option (Outcome pynum)) :=
  offer <- SimpleAgent.propose w negotiator_id state_step ;;
  match offer with
  | None => ret None
  | Some offer =>
      ami <- the_ami w negotiator_id ;;
      p <- _find_good_price self_price_range cfg w ami state_step ;;
      ret (Some {| quantity := quantity offer;
                   time := time offer;
                   unit_price := p |})
  end.

Definition respond (self_price_range : price_range_method)
    (cfg : Config) (w : World) (negotiator_id : string) (state_step : Z)
    (offer : Outcome R) : M ResponseType :=
  response <- SimpleAgent.respond w negotiator_id state_step offer ;;
  if negb (ResponseType_eqb response ACCEPT_OFFER) then ret response
  else
    ami <- the_ami w negotiator_id ;;
    good <- _is_good_price self_price_range cfg w ami state_step
              (unit_price offer) ;;
    ret (if good then response else REJECT_OFFER).

End BetterAgent.

(** ** [class AdaptiveAgent(BetterAgent)] *)

Module AdaptiveAgent.

Import SimpleAgent.

Definition init : M unit :=
  SimpleAgent.init ;;;
  modify (set_best_selling (Fin 0)) ;;;
  modify (set_best_buying PInf).

Definition step : M unit :=
  SimpleAgent.step ;;;
  modify (set_best_selling (Fin 0)) ;;;
  modify (set_best_buying PInf).

Definition respond (self_price_range : BetterAgent.price_range_method)
    (cfg : Config) (w : World) (negotiator_id : string) (state_step : Z)
    (offer : Outcome R) : M ResponseType :=
  response <- BetterAgent.respond self_price_range cfg w negotiator_id
                state_step offer ;;
  ami <- the_ami w negotiator_id ;;
  (if _is_selling w ami
   then modify (fun a =>
          set_best_selling (max2 (Fin (unit_price offer)) (_best_selling a)) a)
   else modify (fun a =>
          set_best_buying (min2 (Fin (unit_price offer)) (_best_buying a)) a)) ;;;
  ret response.

Definition _price_range : BetterAgent.price_range_method :=
  fun w ami =>
    r <- BetterAgent._price_range w ami ;;
    let (mn, mx) := r in
    if _is_selling w ami
    then best <- read _best_selling ;; ret (max2 mn best, mx)
    else best <- read _best_buying ;; ret (mn, min2 mx best).

End AdaptiveAgent.

(** ** [class LearningAgent(AdaptiveAgent)] *)

Module LearningAgent.

Import SimpleAgent.

Definition init : M unit :=
  AdaptiveAgent.init ;;;
  modify (set_best_acc_selling (Fin 0)) ;;;
  modify (set_best_acc_buying PInf) ;;;
  modify (set_best_opp_selling ∅) ;;;
  modify (set_best_opp_buying ∅) ;;;
  modify (set_best_opp_acc_selling ∅) ;;;
  modify (set_best_opp_acc_buying ∅).

Definition step : M unit :=
  AdaptiveAgent.step ;;;
  modify (set_best_opp_selling ∅) ;;;
  modify (set_best_opp_buying ∅).

Definition on_negotiation_success (w : World) (contract : Contract)
    (mechanism : AMI) : M unit :=
  SimpleAgent.on_negotiation_success contract mechanism ;;;
  let up := Fin (unit_price (agreement contract)) in
  if _is_selling w mechanism
  then
    let partner := contract_buyer contract in
    modify (fun a => set_best_acc_selling (max2 up (_best_acc_selling a)) a) ;;;
    old <- read_opp_acc_selling partner ;;
    modify (fun a =>
      set_best_opp_acc_selling
        (<[partner := max2 up old]> (_best_opp_acc_selling a)) a)
  else
    let partner := contract_seller contract in
    modify (fun a => set_best_acc_buying (min2 up (_best_acc_buying a)) a) ;;;
    old <- read_opp_acc_buying partner ;;
    modify (fun a =>
      set_best_opp_acc_buying
        (<[partner := min2 up old]> (_best_opp_acc_buying a)) a).

Definition _price_range (cfg : Config) : BetterAgent.price_range_method :=
  fun w ami =>
    let mn := Fin (min_value (unit_price_issue ami)) in
    let mx := Fin (max_value (unit_price_issue ami)) in
    if _is_selling w ami
    then
      let partner := buyer ami in
      best_selling <- read _best_selling ;;
      best_acc_selling <- read _best_acc_selling ;;
      best_opp <- read_opp_selling partner ;;
      best_opp_acc <- read_opp_acc_selling partner ;;
      let scaled := fun (ps : fl * fl) =>
        let (p, slack) := ps in fmul p (fsub (Fin 1) slack) in
      ret (min2 (fmul mx (fsub (Fin 1) (_range_slack cfg)))
                (max_list mn
                   (map scaled
                      [(best_selling, _step_price_slack cfg);
                       (best_acc_selling, _acc_price_slack cfg);
                       (best_opp, _opp_price_slack cfg);
                       (best_opp_acc, _opp_acc_price_slack cfg)])),
           mx)
    else
      let partner := seller ami in
      best_buying <- read _best_buying ;;
      best_acc_buying <- read _best_acc_buying ;;
      best_opp <- read_opp_buying partner ;;
      best_opp_acc <- read_opp_acc_buying partner ;;
      let scaled := fun (ps : fl * fl) =>
        let (p, slack) := ps in fmul p (fadd (Fin 1) slack) in
      ret (mn,
           max2 (fmul mn (fadd (Fin 1) (_range_slack cfg)))
                (min_list mx
                   (map scaled
                      [(best_buying, _step_price_slack cfg);
                       (best_acc_buying, _acc_price_slack cfg);
                       (best_opp, _opp_price_slack cfg);
                       (best_opp_acc, _opp_acc_price_slack cfg)]))).

Definition respond (cfg : Config) (w : World) (negotiator_id : string)
    (state_step : Z) (offer : Outcome R) : M ResponseType :=
  response <- AdaptiveAgent.respond (_price_range cfg) cfg w negotiator_id
                state_step offer ;;
  ami <- the_ami w negotiator_id ;;
  let up := Fin (unit_price offer) in
  (if _is_selling w ami
   then
     let partner := buyer ami in
     modify (fun a =>
       set_best_opp_selling
         (<[partner := max2 up (_best_selling a)]> (_best_opp_selling a)) a)
   else
     let partner := seller ami in
     modify (fun a =>
       set_best_opp_buying
         (<[partner := min2 up (_best_buying a)]> (_best_opp_buying a)) a)) ;;;
  ret response.

(** [propose] is inherited from [BetterAgent]; [self._price_range] is the
    override above. *)
Definition propose (cfg : Config) (w : World) (negotiator_id : string)
    (state_step : Z) : M (option (Outcome pynum)) :=
  BetterAgent.propose (_price_range cfg) cfg w negotiator_id state_step.

End LearningAgent.

(** ** [class E3BIUagent] (team_49): the reputation filter *)

Module E3BIUagent.

(** Of a financial report only [breach_level] is read. *)
Record FinancialReport : Type := mkReport {
  breach_level : R
}.

(** [annotation["buyer"]], [annotation["seller"]], [annotation["is_buy"]]. *)
Record Annotation : Type := mkAnnotation {
  ann_buyer : string;
  ann_seller : string;
  is_buy : bool
}.

(** What the agent reads of its world: [awi.reports_of_agent] (a dict from
    step to report, in insertion order, or [None]), [awi.my_consumers],
    [awi.my_suppliers], [awi._world.agent_types], [awi._world.a2i] and
    [self.type_name]. *)
Record World : Type := mkWorld {
  reports_of_agent : string -> option (list (Z * FinancialReport));
  my_consumers : list string;
  my_suppliers : list string;
  agent_types : list string;
  a2i : gmap string nat;
  type_name : string
}.

(** [l[start:]]. *)
Definition py_slice_from {A} (start : Z) (l : list A) : list A :=
  let len := Z.of_nat (length l) in
  skipn (Z.to_nat (if Z.ltb start 0 then Z.max (len + start) 0 else start)) l.

(** [sum(l)]. *)
Definition py_sum (l : list R) : R := fold_left Rplus l 0%R.

Definition obind {A B} (o : outcome A) (k : A -> outcome B) : outcome B :=
  match o with
  | Ok x => k x
  | Raise e => Raise e
  end.

Definition is_breached_last_n_steps (w : World) (agent_id : string)
    (nsteps : Z) : bool :=
  match reports_of_agent w agent_id with
  | Some reports =>
      let breach_levels := map (fun kv => breach_level (snd kv)) reports in
      if Rlt_dec 0 (py_sum (py_slice_from (- nsteps) breach_levels))
      then true else false
  | None => false
  end.

Definition get_agent_type (w : World) (agent_name : string) : outcome string :=
  if existsb (String.eqb agent_name) ["BUYER"; "SELLER"]%string
  then Ok agent_name
  else
    match a2i w !! agent_name with
    | None => Raise KeyError
    | Some i =>
        match nth_error (agent_types w) i with
        | None => Raise IndexError
        | Some t => Ok t
        end
    end.

(** The loop [for name in names: if self.get_agent_type(name) ==
    self.type_name: return True]. *)
Fixpoint any_of_my_type (w : World) (names : list string) : outcome bool :=
  match names with
  | [] => Ok false
  | name :: rest =>
      obind (get_agent_type w name) (fun t =>
        if String.eqb t (type_name w) then Ok true
        else any_of_my_type w rest)
  end.

Definition is_agent_unique (w : World) (is_buy : bool) : outcome bool :=
  if is_buy then any_of_my_type w (my_consumers w)
  else any_of_my_type w (my_suppliers w).

Section Request.

(** The negotiator type, the issues and the mechanism are handed through to
    the parent class, whose [respond_to_negotiation_request]
    ([NegotiationManager], module [negotiation_manager]) is a parameter. *)
Variables Negotiator Issues Mechanism : Type.
Variable super_respond_to_negotiation_request :
  string -> Issues -> Annotation -> Mechanism -> outcome (option Negotiator).

Definition respond_to_negotiation_request (w : World) (initiator : string)
    (issues : Issues) (annotation : Annotation) (mechanism : Mechanism)
  : outcome (option Negotiator) :=
  let breached_agent_name :=
    if is_buy annotation then ann_buyer annotation
    else ann_seller annotation in
  if is_breached_last_n_steps w breached_agent_name 25 then Ok None
  else
    obind (is_agent_unique w (is_buy annotation)) (fun unique =>
      if unique then
        obind (get_agent_type w breached_agent_name) (fun t =>
          if negb (String.eqb t (type_name w)) then Ok None
          else super_respond_to_negotiation_request
                 initiator issues annotation mechanism)
      else super_respond_to_negotiation_request
             initiator issues annotation mechanism).

End Request.

(** *** [start_negotiations] and [target_quantities] *)

(** [l[start:stop]] on a list or a one-dimensional array: a negative index
    counts from the end, and both indices are cut to [[0, len(l)]]. *)
Definition py_index_clip (len i : Z) : Z :=
  if Z.ltb i 0 then Z.max (len + i) 0 else Z.min i len.

Definition py_slice {A} (start stop : Z) (l : list A) : list A :=
  let len := Z.of_nat (length l) in
  let lo := py_index_clip len start in
  let hi := py_index_clip len stop in
  firstn (Z.to_nat (hi - lo)) (skipn (Z.to_nat lo) l).

(** The result of an operation on arrays: an array, or the [ValueError] of
    shapes that cannot be broadcast together. *)
Inductive np_result : Type :=
| NpArray (values : list Z)
| NpValueError.

(** The items of the arrays are [int64]: a difference wraps around. *)
Definition wrap_int64 (z : Z) : Z :=
  (z + 2 ^ 63) mod 2 ^ 64 - 2 ^ 63.

(** [x - y] on two one-dimensional [int64] arrays: elementwise on equal
    lengths; an array of length one is broadcast along the other. *)
Definition np_subtract (x y : list Z) : np_result :=
  if Nat.eqb (length x) (length y)
  then NpArray (map (fun p => wrap_int64 (fst p - snd p)) (combine x y))
  else
    match x, y with
    | [a], _ => NpArray (map (fun b => wrap_int64 (a - b)) y)
    | _, [b] => NpArray (map (fun a => wrap_int64 (a - b)) x)
    | _, _ => NpValueError
    end.

(** The arrays of the trading strategy that [target_quantities] reads
    ([np.zeros(n_steps, dtype=int)] filled by the strategy). *)
Record Strategy : Type := mkStrategy {
  outputs_needed : list Z;
  outputs_secured : list Z;
  inputs_needed : list Z;
  inputs_secured : list Z
}.

Definition target_quantities (s : Strategy) (steps : Z * Z) (sell : bool)
  : np_result :=
  let (needed, secured) :=
    if sell then (outputs_needed s, outputs_secured s)
    else (inputs_needed s, inputs_secured s) in
  np_subtract (py_slice (fst steps) (snd steps) needed)
              (py_slice (fst steps) (snd steps) secured).

(** What [start_negotiations] reads of [awi] besides the partner lists. *)
Record Clock : Type := mkClock {
  my_output_product : Z;
  current_step : Z
}.

(** [[p for p in partners if not self.is_breached_last_n_steps(p, 20)]]. *)
Definition not_breached (w : World) (partners : list string) : list string :=
  List.filter (fun p => negb (is_breached_last_n_steps w p 20)) partners.

(** [[p for p in partners if self.get_agent_type(p) == self.type_name]]: the
    first lookup that raises ends the comprehension. *)
Fixpoint of_my_type (w : World) (partners : list string)
  : outcome (list string) :=
  match partners with
  | [] => Ok []
  | p :: rest =>
      obind (get_agent_type w p) (fun t =>
        obind (of_my_type w rest) (fun kept =>
          Ok (if String.eqb t (type_name w) then p :: kept else kept)))
  end.

Section Start.

(** [_trange], [_urange] and the parent's [_start_negotiations] belong to
    [NegotiationManager] (module [negotiation_manager]): parameters. *)
Variable Started : Type.
Variable _trange : Z -> bool -> outcome (Z * Z).
Variable _urange : Z -> bool -> Z * Z -> outcome (Z * Z).
Variable super_start_negotiations :
  Z -> bool -> Z -> Z * Z -> Z * Z -> Z * Z -> list string -> outcome Started.

(** A bare [return] gives [None]. *)
Definition start_negotiations (w : World) (c : Clock) (product quantity
    unit_price step : Z) (partners : option (list string))
  : outcome (option Started) :=
  let is_seller := Z.eqb product (my_output_product c) in
  if (Z.ltb quantity 1 || Z.ltb unit_price 1
      || Z.ltb step (current_step c + 1))%bool
  then Ok None
  else
    let q_val := (1, quantity) in
    obind (_trange step is_seller) (fun t_val =>
    obind (_urange step is_seller t_val) (fun u_val =>
      if Z.ltb (snd t_val) (fst t_val) then Ok None
      else
        let partners :=
          match partners with
          | Some partners => partners
          | None => if is_seller then my_consumers w else my_suppliers w
          end in
        let partners := not_breached w partners in
        obind (is_agent_unique w is_seller) (fun unique =>
        obind (if unique then of_my_type w partners else Ok partners)
          (fun partners =>
             obind (super_start_negotiations product is_seller step
                      q_val u_val t_val partners)
               (fun r => Ok (Some r)))))).

End Start.

End E3BIUagent.

(** ** The specification's formula for the threshold *)

(** The power of the formula in the specification, on a base in [[0, 1]] and
    a positive exponent: the real power, [0] at base [0]. *)
Definition real_power (x e : R) : R :=
  if Req_dec_T x 0 then 0%R else Rpower x e.

(** [threshold = ((total_rounds - round_index - 1) / (total_rounds - 1)) **
    exponent], as the specification writes it. *)
Definition threshold_formula (exponent : R) (round_index total_rounds : Z) : R :=
  real_power (IZR (total_rounds - round_index - 1) / IZR (total_rounds - 1))%R
             exponent.

(** ** The life of a [LearningAgent] *)

(** The attributes after [init()]: every one of them is assigned there. *)
Definition new_agent : Agent :=
  {| secured := 0;
     _best_selling := Fin 0;
     _best_buying := PInf;
     _best_acc_selling := Fin 0;
     _best_acc_buying := PInf;
     _best_opp_selling := ∅;
     _best_opp_buying := ∅;
     _best_opp_acc_selling := ∅;
     _best_opp_acc_buying := ∅ |}.

(** The calls the simulation makes on the agent after [init()]: the period
    boundary [step()], the success callback, [respond] and [propose]. *)
Inductive event : Type :=
| EvStep
| EvSuccess (w : World) (contract : Contract) (mechanism : AMI)
| EvRespond (w : World) (negotiator_id : string) (state_step : Z)
            (offer : Outcome R)
| EvPropose (w : World) (negotiator_id : string) (state_step : Z).

(** The attributes after one call; a call that raises leaves them as they
    were when it raised. *)
Definition after (cfg : Config) (ev : event) (a : Agent) : Agent :=
  match ev with
  | EvStep => snd (LearningAgent.step a)
  | EvSuccess w contract mechanism =>
      snd (LearningAgent.on_negotiation_success w contract mechanism a)
  | EvRespond w negotiator_id state_step offer =>
      snd (LearningAgent.respond cfg w negotiator_id state_step offer a)
  | EvPropose w negotiator_id state_step =>
      snd (LearningAgent.propose cfg w negotiator_id state_step a)
  end.

Definition run (cfg : Config) (evs : list event) (a : Agent) : Agent :=
  fold_left (fun a ev => after cfg ev a) evs a.

(** Two attribute states that the program cannot tell apart: the same secured
    quantity, the same four scalar memories, and per-partner memories in
    which a read returns the same value for every partner (the seed [0.0] or
    [inf] for a partner without an entry). *)
Record same_memory (a a' : Agent) : Prop := mkSame {
  same_secured : secured a = secured a';
  same_best_selling : _best_selling a = _best_selling a';
  same_best_buying : _best_buying a = _best_buying a';
  same_best_acc_selling : _best_acc_selling a = _best_acc_selling a';
  same_best_acc_buying : _best_acc_buying a = _best_acc_buying a';
  same_best_opp_selling : forall k,
    dd_value (Fin 0) (_best_opp_selling a) k
    = dd_value (Fin 0) (_best_opp_selling a') k;
  same_best_opp_buying : forall k,
    dd_value PInf (_best_opp_buying a) k
    = dd_value PInf (_best_opp_buying a') k;
  same_best_opp_acc_selling : forall k,
    dd_value (Fin 0) (_best_opp_acc_selling a) k
    = dd_value (Fin 0) (_best_opp_acc_selling a') k;
  same_best_opp_acc_buying : forall k,
    dd_value PInf (_best_opp_acc_buying a) k
    = dd_value PInf (_best_opp_acc_buying a') k
}.

(** The attributes after the two reads of [_price_range] on a sale, and on a
    purchase. *)
Definition touched_selling (k : string) (a : Agent) : Agent :=
  snd (read_opp_acc_selling k (snd (read_opp_selling k a))).

Definition touched_buying (k : string) (a : Agent) : Agent :=
  snd (read_opp_acc_buying k (snd (read_opp_buying k a))).

(** The attributes after the assignment of [AdaptiveAgent.respond], and after
    the assignment of [LearningAgent.respond]. *)
Definition adaptive_assignment (w : World) (ami : AMI) (offer : Outcome R)
    (a : Agent) : Agent :=
  if SimpleAgent._is_selling w ami
  then set_best_selling (max2 (Fin (unit_price offer)) (_best_selling a)) a
  else set_best_buying (min2 (Fin (unit_price offer)) (_best_buying a)) a.

Definition learning_assignment (w : World) (ami : AMI) (offer : Outcome R)
    (a : Agent) : Agent :=
  if SimpleAgent._is_selling w ami
  then set_best_opp_selling
         (<[buyer ami := max2 (Fin (unit_price offer)) (_best_selling a)]>
            (_best_opp_selling a)) a
  else set_best_opp_buying
         (<[seller ami := min2 (Fin (unit_price offer)) (_best_buying a)]>
            (_best_opp_buying a)) a.

(** ** Concrete negotiations *)

(** Product [1] is the agent's output, product [0] its input. *)
Definition example_awi (input output : Z) : AWI :=
  {| current_exogenous_input_quantity := input;
     current_exogenous_output_quantity := output;
     my_output_product := 1;
     current_step := 0 |}.

(** A sale to [partner] and a purchase from [partner], with quantities in
    [[1, 10]]. *)
Definition sale_ami (partner : string) (mn mx : R) (rounds : Z) : AMI :=
  {| quantity_issue := mkIssue 1 10;
     unit_price_issue := mkIssue mn mx;
     product := 1;
     buyer := partner;
     seller := "me";
     n_steps := rounds |}.

Definition purchase_ami (partner : string) (mn mx : R) (rounds : Z) : AMI :=
  {| quantity_issue := mkIssue 1 10;
     unit_price_issue := mkIssue mn mx;
     product := 0;
     buyer := "me";
     seller := partner;
     n_steps := rounds |}.

(** A world with one negotiation, [n1]. *)
Definition one_negotiation (input output : Z) (ami : AMI) : World :=
  {| awi := example_awi input output;
     get_ami := fun id => if String.eqb id "n1" then Some ami else None |}.

(** A world with two sales, [n1] to partner [P1] and [n2] to partner [P2],
    at prices in [[10, 20]] over eleven rounds. *)
Definition two_sales (input output : Z) : World :=
  {| awi := example_awi input output;
     get_ami := fun id =>
       if String.eqb id "n1" then Some (sale_ami "P1" 10 20 11)
       else if String.eqb id "n2" then Some (sale_ami "P2" 10 20 11)
       else None |}.

(** ** The cross-period memory *)

(** The cross-period memory as the program observes it is the same in [a]
    and [a']. *)
Record same_accepted (a a' : Agent) : Prop := mkSameAccepted {
  same_acc_selling : _best_acc_selling a = _best_acc_selling a';
  same_acc_buying : _best_acc_buying a = _best_acc_buying a';
  same_opp_acc_selling : forall k,
    dd_value (Fin 0) (_best_opp_acc_selling a) k
    = dd_value (Fin 0) (_best_opp_acc_selling a') k;
  same_opp_acc_buying : forall k,
    dd_value PInf (_best_opp_acc_buying a) k
    = dd_value PInf (_best_opp_acc_buying a') k
}.

(** No NaN in the cross-period memory. *)
Record accepted_numbers (a : Agent) : Prop := mkAcceptedNumbers {
  acc_selling_number : _best_acc_selling a <> NaN;
  acc_buying_number : _best_acc_buying a <> NaN;
  opp_acc_selling_number : forall k,
    dd_value (Fin 0) (_best_opp_acc_selling a) k <> NaN;
  opp_acc_buying_number : forall k,
    dd_value PInf (_best_opp_acc_buying a) k <> NaN
}.

(** From [a] to [a'] the selling memories have not decreased and the buying
    memories have not increased. *)
Record tightened (a a' : Agent) : Prop := mkTightened {
  acc_selling_up :
    fleb (_best_acc_selling a) (_best_acc_selling a') = true;
  opp_acc_selling_up : forall k,
    fleb (dd_value (Fin 0) (_best_opp_acc_selling a) k)
         (dd_value (Fin 0) (_best_opp_acc_selling a') k) = true;
  acc_buying_down :
    fleb (_best_acc_buying a') (_best_acc_buying a) = true;
  opp_acc_buying_down : forall k,
    fleb (dd_value PInf (_best_opp_acc_buying a') k)
         (dd_value PInf (_best_opp_acc_buying a) k) = true
}.

(** A method body keeps the relation [R] between the attributes before and
    after it, whether it returns or raises. *)
Definition preserves (R : Agent -> Agent -> Prop) {A} (c : M A) : Prop :=
  forall a, R a (snd (c a)).

(** ** The reputation filter: the last reports and a concrete world *)

(** The last [n] items of a list (all of them if there are fewer). *)
Definition last_n {A} (n : nat) (l : list A) : list A :=
  skipn (length l - n) l.

(** The breach levels of the reports of an agent, oldest first. *)
Definition breach_levels_of (reports : list (Z * E3BIUagent.FinancialReport))
  : list R :=
  map (fun kv => E3BIUagent.breach_level (snd kv)) reports.

(** The agent the breach test is about: [annotation["buyer"]] if
    [annotation["is_buy"]], [annotation["seller"]] otherwise. *)
Definition counterpart (annotation : E3BIUagent.Annotation) : string :=
  if E3BIUagent.is_buy annotation then E3BIUagent.ann_buyer annotation
  else E3BIUagent.ann_seller annotation.

(** A world in which [B1] has two reports, the later with a breach level of
    [0.5], and nobody else has any. *)
Definition breach_world : E3BIUagent.World :=
  {| E3BIUagent.reports_of_agent := fun id =>
       if String.eqb id "B1"
       then Some [(0, E3BIUagent.mkReport 0); (1, E3BIUagent.mkReport 0.5)]
       else None;
     E3BIUagent.my_consumers := ["B1"; "B2"]%string;
     E3BIUagent.my_suppliers := [];
     E3BIUagent.agent_types := ["E3BIUagent"; "Other"]%string;
     E3BIUagent.a2i := {[ "B1"%string := 0%nat; "B2"%string := 1%nat ]};
     E3BIUagent.type_name := "E3BIUagent" |}.

(** ** The price computations on binary64 floats

    The model above computes with exact real numbers. Where the rounding of
    the machine's floats decides the outcome, the arithmetic of
    [LearningAgent._price_range] (source lines 260-305), of
    [_find_good_price] (lines 144-147) and of [_is_good_price] (lines
    134-137) is evaluated on binary64, for the values that the attribute
    reads and [self._th] have returned. *)

Module Binary64.

Import PrimFloat.
Local Open Scope float_scope.

(** The builtins [max(a, b)] and [min(a, b)], and the scans [max(l)] and
    [min(l)] over a list that starts with [x]. *)
Definition max2 (a b : float) : float := if a <? b then b else a.
Definition min2 (a b : float) : float := if b <? a then b else a.
Definition max_list (x : float) (l : list float) : float := fold_left max2 l x.
Definition min_list (x : float) (l : list float) : float := fold_left min2 l x.

(** The five slacks of the constructor. *)
Record Slacks : Type := mkSlacks {
  acc_price_slack : float;
  step_price_slack : float;
  opp_price_slack : float;
  opp_acc_price_slack : float;
  range_slack : float
}.

(** The defaults [inf], [0.0], [0.0], [0.2] and [0.03]. *)
Definition default_slacks : Slacks :=
  {| acc_price_slack := infinity;
     step_price_slack := 0;
     opp_price_slack := 0;
     opp_acc_price_slack := 0x1.999999999999ap-3;
     range_slack := 0x1.eb851eb851eb8p-6 |}.

(** The four memories [_price_range] reads for the direction and the partner
    of the negotiation. *)
Record Memories : Type := mkMemories {
  best : float;
  best_acc : float;
  best_opp : float;
  best_opp_acc : float
}.

(** After [init()]: [0.0] on a sale, [inf] on a purchase. *)
Definition fresh_memories (is_selling : bool) : Memories :=
  if is_selling then mkMemories 0 0 0 0
  else mkMemories infinity infinity infinity infinity.

Definition _price_range (s : Slacks) (is_selling : bool) (mn mx : float)
    (m : Memories) : float * float :=
  if is_selling
  then (min2 (mx * (1 - range_slack s))
          (max_list mn
             [best m * (1 - step_price_slack s);
              best_acc m * (1 - acc_price_slack s);
              best_opp m * (1 - opp_price_slack s);
              best_opp_acc m * (1 - opp_acc_price_slack s)]),
        mx)
  else (mn,
        max2 (mn * (1 + range_slack s))
          (min_list mx
             [best m * (1 + step_price_slack s);
              best_acc m * (1 + acc_price_slack s);
              best_opp m * (1 + opp_price_slack s);
              best_opp_acc m * (1 + opp_acc_price_slack s)])).

Definition _find_good_price (is_selling : bool) (range : float * float)
    (th : float) : float :=
  let (mn, mx) := range in
  if is_selling then mn + th * (mx - mn) else mx - th * (mx - mn).

Definition _is_good_price (is_selling : bool) (range : float * float)
    (th price : float) : bool :=
  let (mn, mx) := range in
  if is_selling then th * (mx - mn) <=? price - mn
  else th * (mx - mn) <=? mx - price.

(** [respond] once [SimpleAgent.respond] has accepted the quantity. *)
Definition respond_on_price (is_selling : bool) (range : float * float)
    (th price : float) : ResponseType :=
  if _is_good_price is_selling range th price then ACCEPT_OFFER
  else REJECT_OFFER.

(** [((6 - 4 - 1) / (6 - 1)) ** 0.2], the threshold of round [4] of [6] with
    the default exponent: the float [0.7247796636776955]. *)
Definition th_default_4_of_6 : float := 0x1.731651f09a68ep-1.

End Binary64.

(** ** Traces of calls *)

(** The secured quantity along a trace: [step()] sets it to zero, an
    agreement adds its quantity. *)
Definition secured_tally (evs : list event) (start : Z) : Z :=
  fold_left
    (fun s ev =>
       match ev with
       | EvStep => 0
       | EvSuccess _ contract _ => s + quantity (agreement contract)
       | _ => s
       end)
    evs start.

Definition is_step (ev : event) : bool :=
  match ev with EvStep => true | _ => false end.

(** An agreement on a sale to [partner], and on a purchase from [partner]. *)
Definition is_sale_to (partner : string) (ev : event) : bool :=
  match ev with
  | EvSuccess w contract mechanism =>
      SimpleAgent._is_selling w mechanism
      && String.eqb (contract_buyer contract) partner
  | _ => false
  end.

Definition is_purchase_from (partner : string) (ev : event) : bool :=
  match ev with
  | EvSuccess w contract mechanism =>
      negb (SimpleAgent._is_selling w mechanism)
      && String.eqb (contract_seller contract) partner
  | _ => false
  end.

(** What [respond] leaves alone on a negotiation with [partner]: the secured
    quantity, the cross-period memory, the within-period memory of the other
    direction and the entries of the other partners. *)
Record respond_frame (selling : bool) (partner : string) (a a' : Agent)
  : Prop := mkRespondFrame {
  rf_secured : secured a = secured a';
  rf_accepted : same_accepted a a';
  rf_other_scalar :
    if selling then _best_buying a = _best_buying a'
    else _best_selling a = _best_selling a';
  rf_other_map : forall k,
    if selling
    then dd_value PInf (_best_opp_buying a) k
         = dd_value PInf (_best_opp_buying a') k
    else dd_value (Fin 0) (_best_opp_selling a) k
         = dd_value (Fin 0) (_best_opp_selling a') k;
  rf_other_partners : forall k, k <> partner ->
    if selling
    then dd_value (Fin 0) (_best_opp_selling a) k
         = dd_value (Fin 0) (_best_opp_selling a') k
    else dd_value PInf (_best_opp_buying a) k
         = dd_value PInf (_best_opp_buying a') k
}.

(** A world without reports: consumer [C1] is of the agent's own type,
    consumer [C2] and supplier [S1] are of another type. *)
Definition type_world : E3BIUagent.World :=
  {| E3BIUagent.reports_of_agent := fun _ => None;
     E3BIUagent.my_consumers := ["C1"; "C2"]%string;
     E3BIUagent.my_suppliers := ["S1"]%string;
     E3BIUagent.agent_types := ["E3BIUagent"; "Other"; "Other"]%string;
     E3BIUagent.a2i :=
       {[ "C1"%string := 0%nat; "C2"%string := 1%nat; "S1"%string := 2%nat ]};
     E3BIUagent.type_name := "E3BIUagent" |}.

(** * Properties *)

(** ** The concession threshold *)

Section Threshold.

Local Open Scope R_scope.

Lemma real_power_nonneg x e : 0 <= real_power x e.
Proof.
  unfold real_power. destruct (Req_dec_T x 0); [lra |].
  left. apply exp_pos.
Qed.

Lemma real_power_one e : real_power 1 e = 1.
Proof.
  unfold real_power. destruct (Req_dec_T 1 0); [lra |].
  unfold Rpower. rewrite ln_1, Rmult_0_r. apply exp_0.
Qed.

Lemma real_power_zero e : real_power 0 e = 0.
Proof. unfold real_power. destruct (Req_dec_T 0 0); [reflexivity | lra]. Qed.

Lemma real_power_mono x y e :
  0 < e -> 0 <= x <= y -> real_power x e <= real_power y e.
Proof.
  intros He [Hx Hxy]. unfold real_power.
  destruct (Req_dec_T x 0) as [-> | Hx0].
  - destruct (Req_dec_T y 0); [lra | left; apply exp_pos].
  - destruct (Req_dec_T y 0); [lra |].
    apply Rle_Rpower_l; lra.
Qed.

(** On a non-negative base and a positive exponent [**] is the real power. *)
Lemma py_pow_real_power x e :
  0 < e -> 0 <= x -> py_pow x e = Ok (Num (Fin (real_power x e))).
Proof.
  intros He Hx. unfold py_pow, real_power.
  destruct (Req_dec_T e 0); [lra |].
  destruct (Rlt_dec 0 x).
  - destruct (Req_dec_T x 0); [lra | reflexivity].
  - destruct (Req_dec_T x 0); [| lra].
    destruct (Rlt_dec 0 e); [reflexivity | lra].
Qed.

(** The base of the power for a round inside the budget. *)
Lemma round_fraction_range (i n : Z) :
  (2 <= n)%Z -> (0 <= i <= n - 1)%Z ->
  0 <= IZR (n - i - 1) / IZR (n - 1) <= 1.
Proof.
  intros Hn Hi.
  assert (Hd : 0 < IZR (n - 1)) by (apply IZR_lt; lia).
  assert (Hnum : 0 <= IZR (n - i - 1)) by (apply IZR_le; lia).
  assert (Hle : IZR (n - i - 1) <= IZR (n - 1)) by (apply IZR_le; lia).
  split.
  - apply Rmult_le_pos; [assumption | left; apply Rinv_0_lt_compat; assumption].
  - apply (Rmult_le_reg_r (IZR (n - 1))); [assumption |].
    unfold Rdiv. rewrite Rmult_assoc, Rinv_l by lra. lra.
Qed.


Lemma th_inside_budget cfg (i n : Z) :
  0 < _e cfg -> (2 <= n)%Z -> (0 <= i <= n - 1)%Z ->
  BetterAgent._th cfg i n
  = Ok (Num (Fin (threshold_formula (_e cfg) i n))).
Proof.
  intros He Hn Hi. unfold BetterAgent._th, py_truediv.
  destruct (Z.eqb_spec (n - 1) 0) as [H0 | _]; [lia |].
  apply py_pow_real_power; [assumption |].
  apply round_fraction_range; assumption.
Qed.

Lemma th_first_round cfg (n : Z) :
  0 < _e cfg -> (2 <= n)%Z -> BetterAgent._th cfg 0 n = Ok (Num (Fin 1)).
Proof.
  intros He Hn. rewrite th_inside_budget by (assumption || lia).
  unfold threshold_formula.
  replace (n - 0 - 1)%Z with (n - 1)%Z by lia.
  assert (Hd : 0 < IZR (n - 1)) by (apply IZR_lt; lia).
  unfold Rdiv. rewrite Rinv_r by lra. now rewrite real_power_one.
Qed.

Lemma th_last_round cfg (n : Z) :
  0 < _e cfg -> (2 <= n)%Z -> BetterAgent._th cfg (n - 1) n = Ok (Num (Fin 0)).
Proof.
  intros He Hn. rewrite th_inside_budget by (assumption || lia).
  unfold threshold_formula.
  replace (n - (n - 1) - 1)%Z with 0%Z by lia.
  unfold Rdiv. rewrite Rmult_0_l. now rewrite real_power_zero.
Qed.

(** With a budget of one round the division is by zero. *)
Lemma th_single_round cfg (i : Z) :
  BetterAgent._th cfg i 1 = Raise ZeroDivisionError.
Proof. reflexivity. Qed.


End Threshold.


(** ** Float comparisons *)

Ltac fl_decide :=
  repeat first
    [ progress simpl in *
    | progress unfold inf_times in *
    | match goal with
      | |- context [Rlt_dec ?a ?b] => destruct (Rlt_dec a b)
      | |- context [Rle_dec ?a ?b] => destruct (Rle_dec a b)
      | H : context [Rlt_dec ?a ?b] |- _ => destruct (Rlt_dec a b)
      | H : context [Rle_dec ?a ?b] |- _ => destruct (Rle_dec a b)
      end ];
  try reflexivity; try discriminate; try lra; try congruence.

Lemma fltb_Fin a b : fltb (Fin a) (Fin b) = true <-> (a < b)%R.
Proof. simpl. destruct (Rlt_dec a b); split; intros; (assumption || easy). Qed.

Lemma fleb_Fin a b : fleb (Fin a) (Fin b) = true <-> (a <= b)%R.
Proof. simpl. destruct (Rle_dec a b); split; intros; (assumption || easy). Qed.

Lemma fltb_trans x y z :
  fltb x y = true -> fltb y z = true -> fltb x z = true.
Proof. destruct x, y, z; simpl; intros; fl_decide. Qed.

Lemma fleb_trans x y z :
  fleb x y = true -> fleb y z = true -> fleb x z = true.
Proof. destruct x, y, z; simpl; intros; fl_decide. Qed.

Lemma fleb_refl x : x <> NaN -> fleb x x = true.
Proof. destruct x; intros; fl_decide. Qed.

(** The special values: [0.0 * (1 - inf)] is NaN, [5.0 * (1 - inf)] is
    [-inf], [inf * (1 + inf)] is [inf]; a NaN inside the list does not
    change [max] or [min]. *)
Example zero_times_minus_inf : fmul (Fin 0) (fsub (Fin 1) PInf) = NaN.
Proof. fl_decide. Qed.

Example five_times_minus_inf : fmul (Fin 5) (fsub (Fin 1) PInf) = NInf.
Proof. fl_decide. Qed.

Example inf_times_inf : fmul PInf (fadd (Fin 1) PInf) = PInf.
Proof. reflexivity. Qed.

Example max_list_skips_nan : max_list (Fin 10) [Fin 0; NaN; Fin 12] = Fin 12.
Proof. unfold max_list, max2, fgtb. fl_decide. Qed.

Example min_list_skips_nan : min_list (Fin 20) [PInf; NaN; Fin 12] = Fin 12.
Proof. unfold min_list, min2. fl_decide. Qed.

(** [max(up, old)] is not below [old], and [min(up, old)] not above it, as
    long as no NaN is involved. *)
Lemma max2_ge_old up old : old <> NaN -> fleb old (max2 (Fin up) old) = true.
Proof.
  unfold max2, fgtb. destruct old; intros; fl_decide.
Qed.

Lemma min2_le_old up old : old <> NaN -> fleb (min2 (Fin up) old) old = true.
Proof.
  unfold min2. destruct old; intros; fl_decide.
Qed.

Lemma max2_not_nan up old : old <> NaN -> max2 (Fin up) old <> NaN.
Proof. unfold max2. destruct (fgtb old (Fin up)); [easy | discriminate]. Qed.

Lemma min2_not_nan up old : old <> NaN -> min2 (Fin up) old <> NaN.
Proof. unfold min2. destruct (fltb old (Fin up)); [easy | discriminate]. Qed.

(** A positive slack, applied to a positive bound, moves strictly inside. *)
Lemma slack_below (mx : R) (slack : fl) :
  (0 < mx)%R -> fgtb slack (Fin 0) = true ->
  fltb (fmul (Fin mx) (fsub (Fin 1) slack)) (Fin mx) = true.
Proof.
  intros Hmx Hs. destruct slack; simpl in Hs; try discriminate.
  - destruct (Rlt_dec 0 r) as [Hr | ]; [| discriminate].
    simpl. destruct (Rlt_dec (mx * (1 + - r)) mx); [reflexivity | nra].
  - simpl. unfold inf_times. fl_decide.
Qed.

Lemma slack_above (mn : R) (slack : fl) :
  (0 < mn)%R -> fgtb slack (Fin 0) = true ->
  fltb (Fin mn) (fmul (Fin mn) (fadd (Fin 1) slack)) = true.
Proof.
  intros Hmn Hs. destruct slack; simpl in Hs; try discriminate.
  - destruct (Rlt_dec 0 r) as [Hr | ]; [| discriminate].
    simpl. destruct (Rlt_dec mn (mn * (1 + r))); [reflexivity | nra].
  - simpl. unfold inf_times. fl_decide.
Qed.

Lemma min2_below a b c : fltb a c = true -> fltb (min2 a b) c = true.
Proof.
  intros Ha. unfold min2. destruct (fltb b a) eqn:Hba; [| assumption].
  eapply fltb_trans; eassumption.
Qed.

Lemma max2_above a b c : fltb c a = true -> fltb c (max2 a b) = true.
Proof.
  intros Ha. unfold max2, fgtb. destruct (fltb a b) eqn:Hab; [| assumption].
  eapply fltb_trans; eassumption.
Qed.

(** A price that is exactly the target clears the acceptance test. *)
Lemma target_clears_selling (low t : fl) (p : R) :
  Fin p = fadd low t -> fgeb (fsub (Fin p) low) t = true.
Proof.
  destruct low, t; simpl; try discriminate.
  intros [= ->]. destruct (Rle_dec r0 (r + r0 + - r)); [reflexivity | lra].
Qed.

Lemma target_clears_buying (high t : fl) (p : R) :
  Fin p = fsub high t -> fgeb (fsub high (Fin p)) t = true.
Proof.
  destruct high, t; simpl; try discriminate.
  intros [= ->]. destruct (Rle_dec r0 (r + - (r + - r0))); [reflexivity | lra].
Qed.

(** ** Reads of the per-partner memories *)

Lemma dd_getitem_value d k (m : gmap string fl) :
  fst (dd_getitem d k m) = dd_value d m k.
Proof. unfold dd_getitem, dd_value. now destruct (m !! k). Qed.

Lemma dd_getitem_same d k (m : gmap string fl) k' :
  dd_value d (snd (dd_getitem d k m)) k' = dd_value d m k'.
Proof.
  unfold dd_getitem, dd_value. destruct (m !! k) eqn:Hk; [reflexivity |].
  simpl. destruct (decide (k = k')) as [<- | Hne].
  - now rewrite lookup_insert_eq, Hk.
  - now rewrite lookup_insert_ne.
Qed.

Lemma dd_value_insert d k v (m : gmap string fl) k' :
  dd_value d (<[k := v]> m) k' = if decide (k = k') then v else dd_value d m k'.
Proof.
  unfold dd_value. destruct (decide (k = k')) as [<- | Hne].
  - now rewrite lookup_insert_eq.
  - now rewrite lookup_insert_ne.
Qed.

Lemma dd_value_empty d k : dd_value d ∅ k = d.
Proof. unfold dd_value. now rewrite lookup_empty. Qed.

Lemma bind_ok {A B} (c : M A) (k : A -> M B) a x a' :
  c a = (Ok x, a') -> bind c k a = k x a'.
Proof. unfold bind. now intros ->. Qed.

Lemma bind_raise {A B} (c : M A) (k : A -> M B) a e a' :
  c a = (Raise e, a') -> bind c k a = (Raise e, a').
Proof. unfold bind. now intros ->. Qed.

Lemma bind_ret_state {A B} (c : M A) (f : A -> B) a :
  snd (bind c (fun x => ret (f x)) a) = snd (c a).
Proof. unfold bind. now destruct (c a) as [[x | e] a']. Qed.

Lemma read_opp_selling_run k a :
  read_opp_selling k a
  = (Ok (dd_value (Fin 0) (_best_opp_selling a) k),
     set_best_opp_selling (snd (dd_getitem (Fin 0) k (_best_opp_selling a))) a).
Proof.
  unfold read_opp_selling. rewrite <- dd_getitem_value.
  now destruct (dd_getitem (Fin 0) k (_best_opp_selling a)).
Qed.

Lemma read_opp_buying_run k a :
  read_opp_buying k a
  = (Ok (dd_value PInf (_best_opp_buying a) k),
     set_best_opp_buying (snd (dd_getitem PInf k (_best_opp_buying a))) a).
Proof.
  unfold read_opp_buying. rewrite <- dd_getitem_value.
  now destruct (dd_getitem PInf k (_best_opp_buying a)).
Qed.

Lemma read_opp_acc_selling_run k a :
  read_opp_acc_selling k a
  = (Ok (dd_value (Fin 0) (_best_opp_acc_selling a) k),
     set_best_opp_acc_selling
       (snd (dd_getitem (Fin 0) k (_best_opp_acc_selling a))) a).
Proof.
  unfold read_opp_acc_selling. rewrite <- dd_getitem_value.
  now destruct (dd_getitem (Fin 0) k (_best_opp_acc_selling a)).
Qed.

Lemma read_opp_acc_buying_run k a :
  read_opp_acc_buying k a
  = (Ok (dd_value PInf (_best_opp_acc_buying a) k),
     set_best_opp_acc_buying
       (snd (dd_getitem PInf k (_best_opp_acc_buying a))) a).
Proof.
  unfold read_opp_acc_buying. rewrite <- dd_getitem_value.
  now destruct (dd_getitem PInf k (_best_opp_acc_buying a)).
Qed.

(** ** Indistinguishable attribute states *)

Lemma same_memory_refl a : same_memory a a.
Proof. now constructor. Qed.

Lemma same_memory_trans a b c :
  same_memory a b -> same_memory b c -> same_memory a c.
Proof.
  intros [] []. constructor; try congruence; intros k;
    etransitivity; eauto.
Qed.

Lemma same_memory_sym a b : same_memory a b -> same_memory b a.
Proof. intros []. constructor; try congruence; intros k; symmetry; eauto. Qed.

Lemma touched_selling_same k a : same_memory a (touched_selling k a).
Proof.
  unfold touched_selling.
  rewrite read_opp_acc_selling_run, read_opp_selling_run. simpl.
  constructor; simpl; try reflexivity; intros k';
    now rewrite dd_getitem_same.
Qed.

Lemma touched_buying_same k a : same_memory a (touched_buying k a).
Proof.
  unfold touched_buying.
  rewrite read_opp_acc_buying_run, read_opp_buying_run. simpl.
  constructor; simpl; try reflexivity; intros k';
    now rewrite dd_getitem_same.
Qed.

(** ** The price range of [LearningAgent] *)

Section PriceRange.

Variables (cfg : Config) (w : World) (ami : AMI) (a : Agent).

Let mn : R := min_value (unit_price_issue ami).
Let mx : R := max_value (unit_price_issue ami).

Lemma price_range_selling :
  SimpleAgent._is_selling w ami = true ->
  LearningAgent._price_range cfg w ami a
  = (Ok (min2 (fmul (Fin mx) (fsub (Fin 1) (_range_slack cfg)))
           (max_list (Fin mn)
              [fmul (_best_selling a) (fsub (Fin 1) (_step_price_slack cfg));
               fmul (_best_acc_selling a) (fsub (Fin 1) (_acc_price_slack cfg));
               fmul (dd_value (Fin 0) (_best_opp_selling a) (buyer ami))
                    (fsub (Fin 1) (_opp_price_slack cfg));
               fmul (dd_value (Fin 0) (_best_opp_acc_selling a) (buyer ami))
                    (fsub (Fin 1) (_opp_acc_price_slack cfg))]),
         Fin mx),
     touched_selling (buyer ami) a).
Proof.
  intros Hsell. unfold LearningAgent._price_range, touched_selling.
  rewrite Hsell. unfold bind, read, ret.
  rewrite read_opp_selling_run, !read_opp_acc_selling_run. reflexivity.
Qed.

Lemma price_range_buying :
  SimpleAgent._is_selling w ami = false ->
  LearningAgent._price_range cfg w ami a
  = (Ok (Fin mn,
         max2 (fmul (Fin mn) (fadd (Fin 1) (_range_slack cfg)))
           (min_list (Fin mx)
              [fmul (_best_buying a) (fadd (Fin 1) (_step_price_slack cfg));
               fmul (_best_acc_buying a) (fadd (Fin 1) (_acc_price_slack cfg));
               fmul (dd_value PInf (_best_opp_buying a) (seller ami))
                    (fadd (Fin 1) (_opp_price_slack cfg));
               fmul (dd_value PInf (_best_opp_acc_buying a) (seller ami))
                    (fadd (Fin 1) (_opp_acc_price_slack cfg))])),
     touched_buying (seller ami) a).
Proof.
  intros Hsell. unfold LearningAgent._price_range, touched_buying.
  rewrite Hsell. unfold bind, read, ret.
  rewrite read_opp_buying_run, !read_opp_acc_buying_run. reflexivity.
Qed.

(** [_price_range] never raises, and the program cannot tell the attributes
    after it from those before. *)
Lemma price_range_returns :
  exists low high a',
    LearningAgent._price_range cfg w ami a = (Ok (low, high), a')
    /\ same_memory a a'.
Proof.
  destruct (SimpleAgent._is_selling w ami) eqn:Hsell.
  - do 3 eexists. split; [apply price_range_selling; assumption |].
    apply touched_selling_same.
  - do 3 eexists. split; [apply price_range_buying; assumption |].
    apply touched_buying_same.
Qed.

End PriceRange.

Section PriceRangeBand.

Variables (cfg : Config) (w : World) (ami : AMI) (a : Agent).

(** With exact real numbers a positive [range_slack] moves every positive
    bound: if [range_slack > 0] and the bound the slack is applied to is
    positive ([legal_max] on a sale, [legal_min] on a purchase), the interval
    [(low, high)] of [_price_range] has [low < high], whatever the price
    memories hold.  The floats of the machine round [1 - range_slack] and the
    product; the statement on binary64 follows below. *)
Lemma price_range_band_exact :
  (min_value (unit_price_issue ami) <= max_value (unit_price_issue ami))%R ->
  fgtb (_range_slack cfg) (Fin 0) = true ->
  (if SimpleAgent._is_selling w ami
   then 0 < max_value (unit_price_issue ami)
   else 0 < min_value (unit_price_issue ami))%R ->
  exists low high a',
    LearningAgent._price_range cfg w ami a = (Ok (low, high), a')
    /\ fltb low high = true.
Proof.
  intros _ Hslack Hpos.
  destruct (SimpleAgent._is_selling w ami) eqn:Hsell.
  - do 3 eexists. split; [apply price_range_selling; assumption |].
    apply min2_below. apply slack_below; assumption.
  - do 3 eexists. split; [apply price_range_buying; assumption |].
    apply max2_above. apply slack_above; assumption.
Qed.

End PriceRangeBand.

(** A sale at prices in [[10, 20]], default slacks, no memory yet. *)
Example price_range_band_exact_sale :
  exists low high a',
    LearningAgent._price_range default_config
      (one_negotiation 5 0 (sale_ami "P1" 10 20 11))
      (sale_ami "P1" 10 20 11) new_agent
    = (Ok (low, high), a')
    /\ fltb low high = true.
Proof.
  apply price_range_band_exact.
  - simpl. lra.
  - simpl. fl_decide.
  - simpl. lra.
Qed.

(** The slack is a factor, so it leaves no band at a bound that is zero: a
    sale with legal prices [(0, 0)] and fresh memories, and a purchase with
    legal prices [(0, 20)] after an opponent has offered the price [0], run
    through the class chain.  Both intervals are the single point [0]. *)
Example price_range_zero_bound :
  (min_value (unit_price_issue (sale_ami "P1" 0 0 11))
   <= max_value (unit_price_issue (sale_ami "P1" 0 0 11)))%R
  /\ (min_value (unit_price_issue (purchase_ami "P1" 0 20 11))
      <= max_value (unit_price_issue (purchase_ami "P1" 0 20 11)))%R
  /\ fgtb (_range_slack default_config) (Fin 0) = true
  /\ fst (LearningAgent._price_range default_config
            (one_negotiation 5 0 (sale_ami "P1" 0 0 11))
            (sale_ami "P1" 0 0 11) new_agent)
     = Ok (Fin 0, Fin 0)
  /\ fst (LearningAgent._price_range default_config
            (one_negotiation 5 0 (purchase_ami "P1" 0 20 11))
            (purchase_ami "P1" 0 20 11) (set_best_buying (Fin 0) new_agent))
     = Ok (Fin 0, Fin 0)
  /\ fltb (Fin 0) (Fin 0) = false.
Proof.
  split; [simpl; lra |]. split; [simpl; lra |].
  split; [simpl; fl_decide |]. split; [| split].
  - rewrite price_range_selling by reflexivity.
    simpl. rewrite !dd_value_empty.
    unfold max_list, max2, min2, fgtb. fl_decide.
    do 3 f_equal. lra.
  - rewrite price_range_buying by reflexivity.
    simpl. rewrite !dd_value_empty.
    unfold min_list, max2, min2, fgtb. fl_decide.
    do 3 f_equal. lra.
  - fl_decide.
Qed.

(** ** The band of [range_slack] on binary64 *)

(** [<] on binary64 is transitive; a comparison with NaN is false, the two
    zeros compare equal. *)
Lemma SFltb_trans (a b c : SpecFloat.spec_float) :
  SpecFloat.SFltb a b = true -> SpecFloat.SFltb b c = true ->
  SpecFloat.SFltb a c = true.
Proof.
  unfold SpecFloat.SFltb.
  destruct a as [sa | sa | | sa ma ea], b as [sb | sb | | sb mb eb],
           c as [sc | sc | | sc mc ec]; simpl;
    repeat match goal with s : bool |- _ => destruct s end; simpl;
    try discriminate; try reflexivity.
  - destruct (Z.compare_spec ea eb), (Z.compare_spec eb ec),
      (Z.compare_spec ea ec);
      try discriminate; try reflexivity; try lia; subst.
    all: rewrite <- ?Pos.compare_cont_antisym; simpl.
    all: rewrite ?Pos.compare_cont_spec; simpl.
    all: destruct (Pos.compare_spec ma mb), (Pos.compare_spec mb mc),
      (Pos.compare_spec ma mc);
      simpl; try discriminate; try reflexivity; try lia.
  - destruct (Z.compare_spec ea eb), (Z.compare_spec eb ec),
      (Z.compare_spec ea ec);
      try discriminate; try reflexivity; try lia; subst.
    all: rewrite ?Pos.compare_cont_spec; simpl.
    all: destruct (Pos.compare_spec ma mb), (Pos.compare_spec mb mc),
      (Pos.compare_spec ma mc);
      simpl; try discriminate; try reflexivity; try lia.
Qed.

Lemma b64_ltb_trans (a b c : float) :
  (a <? b)%float = true -> (b <? c)%float = true -> (a <? c)%float = true.
Proof. rewrite !FloatAxioms.ltb_spec. apply SFltb_trans. Qed.

(** [min(a, b)] returns [a] or a [b] below it, [max(a, b)] returns [a] or a
    [b] above it. *)
Lemma b64_min2_below (a b c : float) :
  (a <? c)%float = true -> (Binary64.min2 a b <? c)%float = true.
Proof.
  intros Ha. unfold Binary64.min2.
  destruct (b <? a)%float eqn:Hba; [| assumption].
  eapply b64_ltb_trans; eassumption.
Qed.

Lemma b64_max2_above (a b c : float) :
  (c <? a)%float = true -> (c <? Binary64.max2 a b)%float = true.
Proof.
  intros Ha. unfold Binary64.max2.
  destruct (a <? b)%float eqn:Hab; [| assumption].
  eapply b64_ltb_trans; eassumption.
Qed.

(** C3 (amended). On binary64, for every direction, every setting of the
    slacks and every content of the four price memories read for the partner
    (NaN and the infinities included): if the slack moves the bound it is
    applied to, that is the float [legal_max * (1 - range_slack)] is below
    [legal_max] on a sale and the float [legal_min * (1 + range_slack)] is
    above [legal_min] on a purchase, then the interval [(low, high)] returned
    by [_price_range] has [low < high]. *)
Theorem price_range_band (s : Binary64.Slacks) (is_selling : bool)
    (mn mx : float) (m : Binary64.Memories) :
  (if is_selling
   then mx * (1 - Binary64.range_slack s) <? mx
   else mn <? mn * (1 + Binary64.range_slack s))%float = true ->
  (fst (Binary64._price_range s is_selling mn mx m)
   <? snd (Binary64._price_range s is_selling mn mx m))%float = true.
Proof.
  intros H. unfold Binary64._price_range.
  destruct is_selling; cbn [fst snd].
  - apply b64_min2_below. exact H.
  - apply b64_max2_above. exact H.
Qed.

(** A sale at legal prices [(10, 20)] with the default slacks, after a buyer
    has offered the price [20]: [20 * (1 - 0.03)] is [19.4], the interval is
    [(19.4, 20)]. *)
Lemma price_range_band_witness :
  (20 * (1 - Binary64.range_slack Binary64.default_slacks) <? 20)%float = true
  /\ (fst (Binary64._price_range Binary64.default_slacks true 10 20
             (Binary64.mkMemories 20 0 20 0))
      <? snd (Binary64._price_range Binary64.default_slacks true 10 20
                (Binary64.mkMemories 20 0 20 0)))%float = true.
Proof.
  split; [vm_compute; reflexivity |].
  apply (price_range_band Binary64.default_slacks true 10 20
           (Binary64.mkMemories 20 0 20 0)).
  vm_compute. reflexivity.
Defined.

(** With the default [range_slack = 0.03] the slack moves every legal price
    that is an integer from [1] to [2000], in both directions. *)
Example default_slack_moves_integer_prices :
  forallb
    (fun k : nat =>
       let p := PrimFloat.of_uint63 (Uint63.of_Z (Z.of_nat k)) in
       ((p * (1 - Binary64.range_slack Binary64.default_slacks) <? p)
        && (p <? p * (1 + Binary64.range_slack Binary64.default_slacks)))%float)
    (seq 1 2000)
  = true.
Proof. vm_compute. reflexivity. Qed.

(** C3 (as stated) fails on binary64 although [legal_min <= legal_max] and
    [range_slack > 0].

    - The slack is a factor, so the band is empty at a zero bound: a sale with
      legal prices [(0, 0)] and fresh memories, and a purchase with legal
      prices [(0, 20)] after a seller has offered the price [0], both with
      the default slacks, give the interval [(0, 0)].
    - A small slack is absorbed: with [range_slack = 1e-17] the float
      [1 - range_slack] is [1.0], and a sale with legal prices [(10, 20)]
      after a buyer has offered the price [20] gives the interval
      [(20, 20)]. *)
Lemma price_range_band_counterexample :
  let tiny :=
    Binary64.mkSlacks infinity 0 0 0x1.999999999999ap-3
      0x1.70ef54646d497p-57 in
  let zero_sale :=
    Binary64._price_range Binary64.default_slacks true 0 0
      (Binary64.fresh_memories true) in
  let zero_purchase :=
    Binary64._price_range Binary64.default_slacks false 0 20
      (Binary64.mkMemories 0 infinity 0 infinity) in
  let absorbed :=
    Binary64._price_range tiny true 10 20 (Binary64.mkMemories 20 0 20 0) in
  ((0 <? Binary64.range_slack Binary64.default_slacks) = true
   /\ (0 <? Binary64.range_slack tiny) = true
   /\ (0 <=? 0) = true /\ (0 <=? 20) = true /\ (10 <=? 20) = true
   /\ zero_sale = (0, 0) /\ (fst zero_sale <? snd zero_sale) = false
   /\ zero_purchase = (0, 0)
   /\ (fst zero_purchase <? snd zero_purchase) = false
   /\ absorbed = (20, 20)
   /\ (fst absorbed <? snd absorbed) = false)%float.
Proof. vm_compute. repeat split; reflexivity. Qed.

(** ** Running [respond] and [propose] through the class chain *)

Section Calls.

Variables (cfg : Config) (w : World) (negotiator_id : string)
          (state_step : Z).

Lemma needed_run nid a :
  SimpleAgent._needed w nid a
  = (Ok (current_exogenous_input_quantity (awi w)
         + current_exogenous_output_quantity (awi w) - secured a), a).
Proof. reflexivity. Qed.

(** [SimpleAgent.respond]: the three outcomes, none of which touches the
    attributes. *)
Lemma simple_respond_end offer a needs :
  fst (SimpleAgent._needed w (Some negotiator_id) a) = Ok needs ->
  needs <= 0 ->
  SimpleAgent.respond w negotiator_id state_step offer a
  = (Ok END_NEGOTIATION, a).
Proof.
  intros [= <-] Hle. unfold SimpleAgent.respond, bind.
  rewrite needed_run. now rewrite (proj2 (Z.leb_le _ _) Hle).
Qed.

Lemma simple_respond_reject offer a needs :
  fst (SimpleAgent._needed w (Some negotiator_id) a) = Ok needs ->
  0 < needs -> needs < quantity offer ->
  SimpleAgent.respond w negotiator_id state_step offer a
  = (Ok REJECT_OFFER, a).
Proof.
  intros [= <-] Hpos Hq. unfold SimpleAgent.respond, bind.
  rewrite needed_run.
  rewrite (proj2 (Z.leb_gt _ _) Hpos), (proj2 (Z.leb_gt _ _) Hq).
  reflexivity.
Qed.

Lemma simple_respond_accept offer a needs :
  fst (SimpleAgent._needed w (Some negotiator_id) a) = Ok needs ->
  0 < needs -> quantity offer <= needs ->
  SimpleAgent.respond w negotiator_id state_step offer a
  = (Ok ACCEPT_OFFER, a).
Proof.
  intros [= <-] Hpos Hq. unfold SimpleAgent.respond, bind.
  rewrite needed_run.
  rewrite (proj2 (Z.leb_gt _ _) Hpos), (proj2 (Z.leb_le _ _) Hq).
  reflexivity.
Qed.

(** [BetterAgent.respond] hands on every answer of [SimpleAgent.respond]
    other than acceptance, without a look at the price. *)
Lemma better_respond_not_accepted pr offer a response :
  SimpleAgent.respond w negotiator_id state_step offer a = (Ok response, a) ->
  response <> ACCEPT_OFFER ->
  BetterAgent.respond pr cfg w negotiator_id state_step offer a
  = (Ok response, a).
Proof.
  intros Hs Hr. unfold BetterAgent.respond.
  rewrite (bind_ok _ _ _ _ _ Hs). now destruct response.
Qed.

Lemma better_respond_accepted pr offer a ami :
  SimpleAgent.respond w negotiator_id state_step offer a
  = (Ok ACCEPT_OFFER, a) ->
  get_ami w negotiator_id = Some ami ->
  BetterAgent.respond pr cfg w negotiator_id state_step offer a
  = match BetterAgent._is_good_price pr cfg w ami state_step
            (unit_price offer) a with
    | (Ok good, a') => (Ok (if good then ACCEPT_OFFER else REJECT_OFFER), a')
    | (Raise e, a') => (Raise e, a')
    end.
Proof.
  intros Hs Hami. unfold BetterAgent.respond.
  rewrite (bind_ok _ _ _ _ _ Hs). simpl.
  unfold the_ami. rewrite Hami. unfold bind at 1. unfold ret at 1.
  unfold bind.
  destruct (BetterAgent._is_good_price pr cfg w ami state_step
              (unit_price offer) a) as [[good | e] a']; reflexivity.
Qed.

(** The subclasses assign their memories after the parent's [respond] has
    returned; if it raised, nothing is assigned. *)
Lemma adaptive_respond_returns pr offer a ami response a1 :
  get_ami w negotiator_id = Some ami ->
  BetterAgent.respond pr cfg w negotiator_id state_step offer a
  = (Ok response, a1) ->
  AdaptiveAgent.respond pr cfg w negotiator_id state_step offer a
  = (Ok response, adaptive_assignment w ami offer a1).
Proof.
  intros Hami Hb. unfold AdaptiveAgent.respond.
  rewrite (bind_ok _ _ _ _ _ Hb).
  unfold the_ami. rewrite Hami. unfold adaptive_assignment.
  unfold bind at 1. unfold ret at 1.
  destruct (SimpleAgent._is_selling w ami); reflexivity.
Qed.

Lemma adaptive_respond_raises pr offer a e a1 :
  BetterAgent.respond pr cfg w negotiator_id state_step offer a
  = (Raise e, a1) ->
  AdaptiveAgent.respond pr cfg w negotiator_id state_step offer a
  = (Raise e, a1).
Proof. intros Hb. unfold AdaptiveAgent.respond. now apply bind_raise. Qed.

Lemma learning_respond_returns offer a ami response a1 :
  get_ami w negotiator_id = Some ami ->
  BetterAgent.respond (LearningAgent._price_range cfg) cfg w negotiator_id
    state_step offer a = (Ok response, a1) ->
  LearningAgent.respond cfg w negotiator_id state_step offer a
  = (Ok response,
     learning_assignment w ami offer (adaptive_assignment w ami offer a1)).
Proof.
  intros Hami Hb. unfold LearningAgent.respond.
  rewrite (bind_ok _ _ _ _ _
             (adaptive_respond_returns _ _ _ _ _ _ Hami Hb)).
  unfold the_ami. rewrite Hami. unfold learning_assignment.
  unfold bind at 1. unfold ret at 1.
  destruct (SimpleAgent._is_selling w ami); reflexivity.
Qed.

Lemma learning_respond_raises offer a e a1 :
  BetterAgent.respond (LearningAgent._price_range cfg) cfg w negotiator_id
    state_step offer a = (Raise e, a1) ->
  LearningAgent.respond cfg w negotiator_id state_step offer a
  = (Raise e, a1).
Proof.
  intros Hb. unfold LearningAgent.respond.
  apply bind_raise. now apply adaptive_respond_raises.
Qed.

(** [best_offer]: no offer without need, an offer with need. *)
Lemma best_offer_no_need a needs :
  fst (SimpleAgent._needed w (Some negotiator_id) a) = Ok needs ->
  needs <= 0 ->
  SimpleAgent.best_offer w negotiator_id a = (Ok None, a).
Proof.
  intros [= <-] Hle. unfold SimpleAgent.best_offer, bind.
  rewrite needed_run. now rewrite (proj2 (Z.leb_le _ _) Hle).
Qed.

Lemma best_offer_with_need a needs ami :
  fst (SimpleAgent._needed w (Some negotiator_id) a) = Ok needs ->
  0 < needs ->
  get_ami w negotiator_id = Some ami ->
  exists offer, SimpleAgent.best_offer w negotiator_id a = (Ok (Some offer), a).
Proof.
  intros [= <-] Hpos Hami. unfold SimpleAgent.best_offer, bind.
  rewrite needed_run. rewrite (proj2 (Z.leb_gt _ _) Hpos), Hami.
  eexists. reflexivity.
Qed.

End Calls.

(** ** The acceptance test and the proposal target *)

Section GoodPrice.

Variables (cfg : Config) (w : World) (ami : AMI) (state_step : Z).
Variable pr : BetterAgent.price_range_method.

Lemma is_good_price_run price a low high a' th :
  pr w ami a = (Ok (low, high), a') ->
  BetterAgent._th cfg state_step (n_steps ami) = Ok (Num th) ->
  BetterAgent._is_good_price pr cfg w ami state_step price a
  = (Ok (if SimpleAgent._is_selling w ami
         then fgeb (fsub (Fin price) low) (fmul th (fsub high low))
         else fgeb (fsub high (Fin price)) (fmul th (fsub high low))), a').
Proof.
  intros Hpr Hth. unfold BetterAgent._is_good_price.
  rewrite (bind_ok _ _ _ _ _ Hpr). unfold bind, lift. rewrite Hth.
  now destruct (SimpleAgent._is_selling w ami).
Qed.

Lemma is_good_price_raises price a r a' e :
  pr w ami a = (Ok r, a') ->
  BetterAgent._th cfg state_step (n_steps ami) = Raise e ->
  BetterAgent._is_good_price pr cfg w ami state_step price a = (Raise e, a').
Proof.
  intros Hpr Hth. unfold BetterAgent._is_good_price.
  rewrite (bind_ok _ _ _ _ _ Hpr). destruct r as [mn mx].
  unfold bind, lift. now rewrite Hth.
Qed.

Lemma find_good_price_run a low high a' th :
  pr w ami a = (Ok (low, high), a') ->
  BetterAgent._th cfg state_step (n_steps ami) = Ok (Num th) ->
  BetterAgent._find_good_price pr cfg w ami state_step a
  = (Ok (Num (if SimpleAgent._is_selling w ami
              then fadd low (fmul th (fsub high low))
              else fsub high (fmul th (fsub high low)))), a').
Proof.
  intros Hpr Hth. unfold BetterAgent._find_good_price.
  rewrite (bind_ok _ _ _ _ _ Hpr). unfold bind, lift. rewrite Hth.
  now destruct (SimpleAgent._is_selling w ami).
Qed.

Lemma find_good_price_raises a r a' e :
  pr w ami a = (Ok r, a') ->
  BetterAgent._th cfg state_step (n_steps ami) = Raise e ->
  BetterAgent._find_good_price pr cfg w ami state_step a = (Raise e, a').
Proof.
  intros Hpr Hth. unfold BetterAgent._find_good_price.
  rewrite (bind_ok _ _ _ _ _ Hpr). destruct r as [mn mx].
  unfold bind, lift. now rewrite Hth.
Qed.

(** Whatever [_find_good_price] returns or raises, the attributes after it
    are those after [self._price_range]. *)
Lemma find_good_price_state a r a' :
  pr w ami a = (Ok r, a') ->
  snd (BetterAgent._find_good_price pr cfg w ami state_step a) = a'.
Proof.
  intros Hpr. unfold BetterAgent._find_good_price.
  rewrite (bind_ok _ _ _ _ _ Hpr). destruct r as [mn mx].
  unfold bind, lift.
  destruct (BetterAgent._th cfg state_step (n_steps ami)); [| reflexivity].
  now destruct (SimpleAgent._is_selling w ami).
Qed.

End GoodPrice.

Section Consistency.

Variables (cfg : Config) (w : World) (negotiator_id : string) (ami : AMI)
          (state_step : Z) (offer : Outcome R) (a : Agent).

(** In exact arithmetic the acceptance test and the proposal target agree.
    With a positive remaining need, an incoming offer whose quantity is
    within the need and whose unit price is the proposal target of the same
    round over the same interval ([low + th * (high - low)] on a sale,
    [high - th * (high - low)] on a purchase) is the price [_find_good_price]
    would propose, and [respond] accepts it. *)
Lemma offer_at_target_accepted_exact (needs : Z) (low high th : fl) :
  get_ami w negotiator_id = Some ami ->
  fst (SimpleAgent._needed w (Some negotiator_id) a) = Ok needs ->
  0 < needs ->
  quantity offer <= needs ->
  fst (LearningAgent._price_range cfg w ami a) = Ok (low, high) ->
  BetterAgent._th cfg state_step (n_steps ami) = Ok (Num th) ->
  Fin (unit_price offer)
  = (if SimpleAgent._is_selling w ami
     then fadd low (fmul th (fsub high low))
     else fsub high (fmul th (fsub high low))) ->
  fst (BetterAgent._find_good_price (LearningAgent._price_range cfg)
         cfg w ami state_step a)
  = Ok (Num (Fin (unit_price offer)))
  /\ fst (LearningAgent.respond cfg w negotiator_id state_step offer a)
     = Ok ACCEPT_OFFER.
Proof.
  intros Hami Hneeds Hpos Hq Hrange Hth Hprice.
  destruct (price_range_returns cfg w ami a) as (low' & high' & a' & Hpr & _).
  rewrite Hpr in Hrange. simpl in Hrange. injection Hrange as -> ->.
  split.
  - rewrite (find_good_price_run _ _ _ _ _ _ _ _ _ _ Hpr Hth).
    simpl. now rewrite Hprice.
  - pose proof (simple_respond_accept w negotiator_id state_step
                  offer a needs Hneeds Hpos Hq) as Hs.
    pose proof (better_respond_accepted cfg w negotiator_id state_step
                  (LearningAgent._price_range cfg) offer a ami Hs Hami) as Hb.
    rewrite (is_good_price_run _ _ _ _ _ _ _ _ _ _ _ Hpr Hth) in Hb.
    rewrite (learning_respond_returns _ _ _ _ _ _ _ _ _ Hami Hb). cbn [fst].
    destruct (SimpleAgent._is_selling w ami).
    + now rewrite (target_clears_selling _ _ _ Hprice).
    + now rewrite (target_clears_buying _ _ _ Hprice).
Qed.

End Consistency.

(** A sale at prices in [[10, 20]], first of eleven rounds, need [5]: the
    target is [10 + 1.0 * (20 - 10) = 20], and an offer of [3] units at [20]
    is accepted. *)
Lemma offer_at_target_accepted_first_round :
  fst (LearningAgent.respond default_config
         (one_negotiation 5 0 (sale_ami "P1" 10 20 11)) "n1" 0
         (mkOutcome 3 0 20%R) new_agent)
  = Ok ACCEPT_OFFER.
Proof.
  refine (proj2 (offer_at_target_accepted_exact default_config
            (one_negotiation 5 0 (sale_ami "P1" 10 20 11)) "n1"
            (sale_ami "P1" 10 20 11) 0 (mkOutcome 3 0 20%R) new_agent
            5 (Fin 10) (Fin 20) (Fin 1) _ _ _ _ _ _ _)).
  - reflexivity.
  - reflexivity.
  - lia.
  - simpl. lia.
  - rewrite price_range_selling by reflexivity.
    simpl. rewrite !dd_value_empty.
    unfold max_list, max2, min2, fgtb. fl_decide.
  - apply th_first_round; [simpl; lra | simpl; lia].
  - simpl. f_equal. lra.
Qed.

(** C4 at failing inputs, on binary64. The negotiation has legal prices
    [(10, 20)], the slacks are the defaults and the memories those after
    [init()]: the interval of [_price_range] is [(10, 20)].
    - A sale in round [1] of [4] with exponent [1.0]: the threshold is
      [2 / 3], the target [16.666666666666664]; the test compares
      [6.666666666666664] with [6.666666666666666] and rejects the target.
    - A sale in round [4] of [6] with the default exponent [0.2]: the target
      [17.247796636776954] is rejected.
    - A purchase in round [2] of [4] with exponent [1.0]: the threshold is
      [1 / 3], the target [16.666666666666668] is rejected. *)
Theorem target_rejected_on_binary64 :
  let sale :=
    Binary64._price_range Binary64.default_slacks true 10 20
      (Binary64.fresh_memories true) in
  let purchase :=
    Binary64._price_range Binary64.default_slacks false 10 20
      (Binary64.fresh_memories false) in
  sale = (10, 20)%float
  /\ purchase = (10, 20)%float
  /\ Binary64.respond_on_price true sale (2 / 3)
       (Binary64._find_good_price true sale (2 / 3)) = REJECT_OFFER
  /\ Binary64.respond_on_price true sale Binary64.th_default_4_of_6
       (Binary64._find_good_price true sale Binary64.th_default_4_of_6)
     = REJECT_OFFER
  /\ Binary64.respond_on_price false purchase (1 / 3)
       (Binary64._find_good_price false purchase (1 / 3)) = REJECT_OFFER.
Proof. repeat split; vm_compute; reflexivity. Qed.

(** ** No remaining need *)

Section NoNeed.

Variables (cfg : Config) (w : World) (negotiator_id : string)
          (state_step : Z) (a : Agent).

(** C7. Whenever the remaining need is [<= 0] (zero or negative), [propose]
    returns no offer and [respond] returns [END_NEGOTIATION] for every
    incoming offer. The check comes before any price computation: whatever
    [_price_range] is in force (also one that raises or assigns), [propose]
    and [BetterAgent.respond] return with the attributes untouched, and no
    threshold is computed (a budget of one round raises nothing). *)
Theorem no_need_ends_negotiation (needs : Z) :
  fst (SimpleAgent._needed w (Some negotiator_id) a) = Ok needs ->
  needs <= 0 ->
  (forall pr,
     BetterAgent.propose pr cfg w negotiator_id state_step a = (Ok None, a))
  /\ (forall pr offer,
        BetterAgent.respond pr cfg w negotiator_id state_step offer a
        = (Ok END_NEGOTIATION, a))
  /\ LearningAgent.propose cfg w negotiator_id state_step a = (Ok None, a)
  /\ (forall ami offer,
        get_ami w negotiator_id = Some ami ->
        fst (LearningAgent.respond cfg w negotiator_id state_step offer a)
        = Ok END_NEGOTIATION).
Proof.
  intros Hneeds Hle.
  assert (Hp : forall pr,
    BetterAgent.propose pr cfg w negotiator_id state_step a = (Ok None, a)).
  { intros pr. unfold BetterAgent.propose, SimpleAgent.propose.
    now rewrite (bind_ok _ _ _ _ _
                   (best_offer_no_need w negotiator_id a needs Hneeds Hle)). }
  assert (Hr : forall pr offer,
    BetterAgent.respond pr cfg w negotiator_id state_step offer a
    = (Ok END_NEGOTIATION, a)).
  { intros pr offer. apply better_respond_not_accepted; [| discriminate].
    eapply simple_respond_end; eassumption. }
  repeat split.
  - exact Hp.
  - exact Hr.
  - apply Hp.
  - intros ami offer Hami.
    now rewrite (learning_respond_returns _ _ _ _ _ _ _ _ _ Hami (Hr _ offer)).
Qed.

End NoNeed.

(** After an agreement on [8] units against a need of [5] the remaining need
    is [-3]; the next offer ends the negotiation. *)
Lemma no_need_ends_negotiation_witness :
  fst (SimpleAgent._needed (one_negotiation 5 0 (sale_ami "P1" 10 20 11))
         (Some "n1"%string)
         (run default_config
            [EvSuccess (one_negotiation 5 0 (sale_ami "P1" 10 20 11))
               (mkContract (mkOutcome 8 0 15%R) "P1" "me")
               (sale_ami "P1" 10 20 11)]
            new_agent))
  = Ok (-3)
  /\ -3 <= 0
  /\ fst (LearningAgent.respond default_config
            (one_negotiation 5 0 (sale_ami "P1" 10 20 11)) "n1" 4
            (mkOutcome 2 0 20%R)
            (run default_config
               [EvSuccess (one_negotiation 5 0 (sale_ami "P1" 10 20 11))
                  (mkContract (mkOutcome 8 0 15%R) "P1" "me")
                  (sale_ami "P1" 10 20 11)]
               new_agent))
     = Ok END_NEGOTIATION.
Proof.
  assert (Hneeds :
    fst (SimpleAgent._needed (one_negotiation 5 0 (sale_ami "P1" 10 20 11))
           (Some "n1"%string)
           (run default_config
              [EvSuccess (one_negotiation 5 0 (sale_ami "P1" 10 20 11))
                 (mkContract (mkOutcome 8 0 15%R) "P1" "me")
                 (sale_ami "P1" 10 20 11)]
              new_agent))
    = Ok (-3)) by reflexivity.
  assert (Hle : -3 <= 0) by lia.
  split; [exact Hneeds |]. split; [exact Hle |].
  exact (proj2 (proj2 (proj2
           (no_need_ends_negotiation default_config _ "n1" 4 _ (-3)
              Hneeds Hle)))
           (sale_ami "P1" 10 20 11) (mkOutcome 2 0 20%R) eq_refl).
Defined.

(** ** A budget of one round *)

Section SingleRound.

Variables (cfg : Config) (w : World) (negotiator_id : string) (ami : AMI)
          (state_step : Z) (a : Agent).

(** C8 (amended). When [total_rounds] is [1] and the remaining need is
    positive, [propose] raises [ZeroDivisionError], and so does [respond] on
    every offer whose quantity is within the need; the error reaches the
    caller and the stored memory (secured quantity, within-period and
    cross-period best prices) is as it was before the call. *)
Theorem single_round_raises (needs : Z) :
  get_ami w negotiator_id = Some ami ->
  n_steps ami = 1 ->
  fst (SimpleAgent._needed w (Some negotiator_id) a) = Ok needs ->
  0 < needs ->
  (exists a',
     LearningAgent.propose cfg w negotiator_id state_step a
     = (Raise ZeroDivisionError, a')
     /\ same_memory a a')
  /\ (forall offer,
        quantity offer <= needs ->
        exists a',
          LearningAgent.respond cfg w negotiator_id state_step offer a
          = (Raise ZeroDivisionError, a')
          /\ same_memory a a').
Proof.
  intros Hami Hn Hneeds Hpos.
  destruct (price_range_returns cfg w ami a) as (low & high & a' & Hpr & Hsame).
  assert (Hth : BetterAgent._th cfg state_step (n_steps ami)
                = Raise ZeroDivisionError)
    by (rewrite Hn; apply th_single_round).
  split.
  - exists a'. split; [| assumption].
    destruct (best_offer_with_need w negotiator_id a needs ami
                Hneeds Hpos Hami) as [o Ho].
    unfold LearningAgent.propose, BetterAgent.propose, SimpleAgent.propose.
    rewrite (bind_ok _ _ _ _ _ Ho).
    unfold the_ami. rewrite Hami. unfold bind at 1. unfold ret at 1.
    apply bind_raise.
    eapply find_good_price_raises; eassumption.
  - intros offer Hq. exists a'. split; [| assumption].
    apply learning_respond_raises.
    rewrite (better_respond_accepted cfg w negotiator_id state_step _ offer a
               ami (simple_respond_accept w negotiator_id state_step
                      offer a needs Hneeds Hpos Hq) Hami).
    now rewrite (is_good_price_raises cfg w ami state_step _ _ _ _ _ _ Hpr Hth).
Qed.

End SingleRound.

(** A sale with a budget of one round and a need of [5]. *)
Lemma single_round_raises_witness :
  fst (LearningAgent.propose default_config
         (one_negotiation 5 0 (sale_ami "P1" 10 20 1)) "n1" 0 new_agent)
  = Raise ZeroDivisionError
  /\ fst (LearningAgent.respond default_config
            (one_negotiation 5 0 (sale_ami "P1" 10 20 1)) "n1" 0
            (mkOutcome 3 0 15%R) new_agent)
     = Raise ZeroDivisionError.
Proof.
  destruct (single_round_raises default_config
              (one_negotiation 5 0 (sale_ami "P1" 10 20 1)) "n1"
              (sale_ami "P1" 10 20 1) 0 new_agent 5
              eq_refl eq_refl eq_refl eq_refl) as [[a1 [Hp _]] Hr].
  split.
  - now rewrite Hp.
  - destruct (Hr (mkOutcome 3 0 15%R)) as [a2 [H2 _]]; [simpl; lia |].
    now rewrite H2.
Defined.

(** With a budget of zero rounds the quotient is [(-1) / (-1)]: no error. *)
Lemma th_zero_rounds :
  exists t, BetterAgent._th default_config 0 0 = Ok (Num (Fin t)).
Proof.
  unfold BetterAgent._th, py_truediv, py_pow. simpl.
  destruct (Req_dec_T 0.2 0) as [H | _]; [lra |].
  change (0 - 0 - 1) with (-1). change (0 - 1) with (-1).
  destruct (Rlt_dec 0 (-1 / -1)) as [_ | H]; [| lra].
  eexists. reflexivity.
Qed.

(** C8 (as stated) fails in two ways. With [total_rounds = 1] and no need,
    [propose] returns no offer and [respond] returns [END_NEGOTIATION] (values,
    not errors), and [respond] has stored the offered price [15] in
    [_best_selling]. With [total_rounds = 0] and a need of [5], nothing is
    divided by zero: [propose] returns an offer and [respond] a response. *)
Lemma single_round_raises_counterexample :
  n_steps (sale_ami "P1" 10 20 1) <= 1
  /\ LearningAgent.propose default_config
       (one_negotiation 0 0 (sale_ami "P1" 10 20 1)) "n1" 0 new_agent
     = (Ok None, new_agent)
  /\ fst (LearningAgent.respond default_config
            (one_negotiation 0 0 (sale_ami "P1" 10 20 1)) "n1" 0
            (mkOutcome 3 0 15%R) new_agent)
     = Ok END_NEGOTIATION
  /\ _best_selling new_agent = Fin 0
  /\ _best_selling
       (snd (LearningAgent.respond default_config
               (one_negotiation 0 0 (sale_ami "P1" 10 20 1)) "n1" 0
               (mkOutcome 3 0 15%R) new_agent))
     = Fin 15
  /\ n_steps (sale_ami "P1" 10 20 0) <= 1
  /\ (exists o,
        fst (LearningAgent.propose default_config
               (one_negotiation 5 0 (sale_ami "P1" 10 20 0)) "n1" 0 new_agent)
        = Ok (Some o))
  /\ (exists r,
        fst (LearningAgent.respond default_config
               (one_negotiation 5 0 (sale_ami "P1" 10 20 0)) "n1" 0
               (mkOutcome 3 0 15%R) new_agent)
        = Ok r).
Proof.
  split; [simpl; lia |]. split; [reflexivity |].
  assert (Hr : LearningAgent.respond default_config
                 (one_negotiation 0 0 (sale_ami "P1" 10 20 1)) "n1" 0
                 (mkOutcome 3 0 15%R) new_agent
               = (Ok END_NEGOTIATION,
                  learning_assignment
                    (one_negotiation 0 0 (sale_ami "P1" 10 20 1))
                    (sale_ami "P1" 10 20 1) (mkOutcome 3 0 15%R)
                    (adaptive_assignment
                       (one_negotiation 0 0 (sale_ami "P1" 10 20 1))
                       (sale_ami "P1" 10 20 1) (mkOutcome 3 0 15%R)
                       new_agent))).
  { apply learning_respond_returns; [reflexivity |].
    apply better_respond_not_accepted; [| discriminate].
    apply (simple_respond_end _ _ _ _ _ 0); [reflexivity | lia]. }
  rewrite Hr. split; [reflexivity |]. split; [reflexivity |]. split.
  { simpl. unfold max2, fgtb. fl_decide. }
  split; [simpl; lia |].
  destruct th_zero_rounds as [t Ht].
  destruct (price_range_returns default_config
              (one_negotiation 5 0 (sale_ami "P1" 10 20 0))
              (sale_ami "P1" 10 20 0) new_agent)
    as (low & high & a' & Hpr & _).
  split.
  - eexists.
    unfold LearningAgent.propose, BetterAgent.propose, SimpleAgent.propose.
    rewrite (bind_ok _ _ _ (Some (mkOutcome 5 0 20%R)) new_agent)
      by reflexivity.
    unfold the_ami. cbn [get_ami one_negotiation String.eqb Ascii.eqb
                         Bool.eqb].
    unfold bind at 1. unfold ret at 1.
    rewrite (bind_ok _ _ _ _ _
               (find_good_price_run default_config _ _ 0 _ _ _ _ _ _ Hpr Ht)).
    reflexivity.
  - pose proof (better_respond_accepted default_config
                  (one_negotiation 5 0 (sale_ami "P1" 10 20 0)) "n1" 0
                  (LearningAgent._price_range default_config)
                  (mkOutcome 3 0 15%R) new_agent (sale_ami "P1" 10 20 0)
                  eq_refl eq_refl) as Hb.
    rewrite (is_good_price_run default_config _ _ 0 _ _ _ _ _ _ _ Hpr Ht)
      in Hb.
    eexists.
    rewrite (learning_respond_returns default_config
               (one_negotiation 5 0 (sale_ami "P1" 10 20 0)) "n1" 0 _ _
               (sale_ami "P1" 10 20 0) _ _ eq_refl Hb).
    reflexivity.
Qed.

(** ** Frames: what a method body leaves alone *)

Section Frame.

Variable R : Agent -> Agent -> Prop.
Hypothesis R_refl : forall a, R a a.
Hypothesis R_trans : forall a b c, R a b -> R b c -> R a c.

Lemma preserves_ret {A} (x : A) : preserves R (ret x).
Proof. intros a. apply R_refl. Qed.

Lemma preserves_raise {A} e : preserves R (@raise A e).
Proof. intros a. apply R_refl. Qed.

Lemma preserves_read {A} (f : Agent -> A) : preserves R (read f).
Proof. intros a. apply R_refl. Qed.

Lemma preserves_lift {A} (o : outcome A) : preserves R (lift o).
Proof. intros a. apply R_refl. Qed.

Lemma preserves_modify f : (forall a, R a (f a)) -> preserves R (modify f).
Proof. intros Hf a. apply Hf. Qed.

Lemma preserves_bind {A B} (c : M A) (k : A -> M B) :
  preserves R c -> (forall x, preserves R (k x)) -> preserves R (bind c k).
Proof.
  intros Hc Hk a. unfold bind. specialize (Hc a).
  destruct (c a) as [[x | e] a1]; simpl in *.
  - eapply R_trans; [exact Hc | apply Hk].
  - exact Hc.
Qed.

Lemma preserves_the_ami w negotiator_id :
  preserves R (the_ami w negotiator_id).
Proof.
  unfold the_ami. destruct (get_ami w negotiator_id).
  - apply preserves_ret.
  - apply preserves_raise.
Qed.

Lemma preserves_best_offer w negotiator_id :
  preserves R (SimpleAgent.best_offer w negotiator_id).
Proof.
  unfold SimpleAgent.best_offer. apply preserves_bind.
  - apply preserves_read.
  - intros needs. destruct (Z.leb needs 0); [apply preserves_ret |].
    destruct (get_ami w negotiator_id); apply preserves_ret.
Qed.

Lemma preserves_simple_respond w negotiator_id state_step offer :
  preserves R (SimpleAgent.respond w negotiator_id state_step offer).
Proof.
  unfold SimpleAgent.respond. apply preserves_bind.
  - apply preserves_read.
  - intros needs. destruct (Z.leb needs 0); apply preserves_ret.
Qed.

Lemma preserves_is_good_price pr cfg w ami state_step price :
  preserves R (pr w ami) ->
  preserves R (BetterAgent._is_good_price pr cfg w ami state_step price).
Proof.
  intros Hpr. unfold BetterAgent._is_good_price.
  apply preserves_bind; [exact Hpr |]. intros [mn mx].
  apply preserves_bind; [apply preserves_lift |]. intros [th |].
  - destruct (SimpleAgent._is_selling w ami); apply preserves_ret.
  - apply preserves_raise.
Qed.

Lemma preserves_find_good_price pr cfg w ami state_step :
  preserves R (pr w ami) ->
  preserves R (BetterAgent._find_good_price pr cfg w ami state_step).
Proof.
  intros Hpr. unfold BetterAgent._find_good_price.
  apply preserves_bind; [exact Hpr |]. intros [mn mx].
  apply preserves_bind; [apply preserves_lift |]. intros th.
  destruct (SimpleAgent._is_selling w ami); apply preserves_ret.
Qed.

Lemma preserves_better_propose pr cfg w negotiator_id state_step :
  (forall ami, preserves R (pr w ami)) ->
  preserves R (BetterAgent.propose pr cfg w negotiator_id state_step).
Proof.
  intros Hpr. unfold BetterAgent.propose, SimpleAgent.propose.
  apply preserves_bind; [apply preserves_best_offer |].
  intros [offer |]; [| apply preserves_ret].
  apply preserves_bind; [apply preserves_the_ami |]. intros ami.
  apply preserves_bind; [apply preserves_find_good_price, Hpr |].
  intros p. apply preserves_ret.
Qed.

Lemma preserves_better_respond pr cfg w negotiator_id state_step offer :
  (forall ami, preserves R (pr w ami)) ->
  preserves R (BetterAgent.respond pr cfg w negotiator_id state_step offer).
Proof.
  intros Hpr. unfold BetterAgent.respond.
  apply preserves_bind; [apply preserves_simple_respond |]. intros response.
  destruct (negb (ResponseType_eqb response ACCEPT_OFFER));
    [apply preserves_ret |].
  apply preserves_bind; [apply preserves_the_ami |]. intros ami.
  apply preserves_bind; [apply preserves_is_good_price, Hpr |].
  intros good. apply preserves_ret.
Qed.

End Frame.

Lemma price_range_same_memory cfg w ami :
  preserves same_memory (LearningAgent._price_range cfg w ami).
Proof.
  intros a.
  destruct (price_range_returns cfg w ami a) as (low & high & a' & -> & Hs).
  exact Hs.
Qed.

Lemma propose_same_memory cfg w negotiator_id state_step :
  preserves same_memory
    (LearningAgent.propose cfg w negotiator_id state_step).
Proof.
  apply preserves_better_propose.
  - apply same_memory_refl.
  - apply same_memory_trans.
  - intros ami. apply price_range_same_memory.
Qed.

(** C9. [propose] only reads: after every call (one that returns an offer, one
    that returns none, one that raises) the secured quantity and every
    best-price memory, within-period and cross-period, global and per
    partner, are as before, the per-partner memories being observed as
    mappings that give their seed ([0.0] for sales, [inf] for purchases)
    to a partner without an entry. *)
Theorem propose_reads_only cfg w negotiator_id state_step a :
  let a' := snd (LearningAgent.propose cfg w negotiator_id state_step a) in
  secured a = secured a'
  /\ _best_selling a = _best_selling a'
  /\ _best_buying a = _best_buying a'
  /\ _best_acc_selling a = _best_acc_selling a'
  /\ _best_acc_buying a = _best_acc_buying a'
  /\ (forall partner,
        dd_value (Fin 0) (_best_opp_selling a) partner
        = dd_value (Fin 0) (_best_opp_selling a') partner)
  /\ (forall partner,
        dd_value PInf (_best_opp_buying a) partner
        = dd_value PInf (_best_opp_buying a') partner)
  /\ (forall partner,
        dd_value (Fin 0) (_best_opp_acc_selling a) partner
        = dd_value (Fin 0) (_best_opp_acc_selling a') partner)
  /\ (forall partner,
        dd_value PInf (_best_opp_acc_buying a) partner
        = dd_value PInf (_best_opp_acc_buying a') partner).
Proof.
  intros a'.
  destruct (propose_same_memory cfg w negotiator_id state_step a).
  repeat split; assumption.
Qed.

(** What [propose] does change: the [defaultdict]s gain the partner as a key,
    with the seed as its value. *)
Example propose_stores_seed :
  _best_opp_selling new_agent !! "P1"%string = None
  /\ _best_opp_selling
       (snd (LearningAgent.propose default_config
               (one_negotiation 5 0 (sale_ami "P1" 10 20 11)) "n1" 0
               new_agent)) !! "P1"%string
     = Some (Fin 0).
Proof.
  split; [reflexivity |].
  unfold LearningAgent.propose, BetterAgent.propose, SimpleAgent.propose.
  rewrite (bind_ok _ _ _ (Some (mkOutcome 5 0 20%R)) new_agent) by reflexivity.
  unfold the_ami.
  cbn [get_ami one_negotiation String.eqb Ascii.eqb Bool.eqb].
  unfold bind at 1. unfold ret at 1.
  rewrite bind_ret_state.
  rewrite (find_good_price_state default_config _ _ 0 _ _ _ _
             (price_range_selling default_config
                (one_negotiation 5 0 (sale_ami "P1" 10 20 11))
                (sale_ami "P1" 10 20 11) new_agent eq_refl)).
  reflexivity.
Qed.

(** ** The cross-period memory over the agent's life *)

Lemma same_accepted_refl a : same_accepted a a.
Proof. now constructor. Qed.

Lemma same_accepted_trans a b c :
  same_accepted a b -> same_accepted b c -> same_accepted a c.
Proof.
  intros [] []. constructor; try congruence; intros k; etransitivity; eauto.
Qed.

Lemma same_memory_accepted a a' : same_memory a a' -> same_accepted a a'.
Proof. intros []. now constructor. Qed.

(** [respond] does not assign the cross-period memory. *)
Lemma respond_same_accepted cfg w negotiator_id state_step offer :
  preserves same_accepted
    (LearningAgent.respond cfg w negotiator_id state_step offer).
Proof.
  pose proof same_accepted_refl as Hrefl.
  pose proof same_accepted_trans as Htrans.
  assert (Hassign : forall ami,
    preserves same_accepted
      (if SimpleAgent._is_selling w ami
       then modify (fun a =>
              set_best_selling
                (max2 (Fin (unit_price offer)) (_best_selling a)) a)
       else modify (fun a =>
              set_best_buying
                (min2 (Fin (unit_price offer)) (_best_buying a)) a))).
  { intros ami. destruct (SimpleAgent._is_selling w ami);
      apply preserves_modify; intros a; now constructor. }
  assert (Hadaptive :
    preserves same_accepted
      (AdaptiveAgent.respond (LearningAgent._price_range cfg) cfg w
         negotiator_id state_step offer)).
  { unfold AdaptiveAgent.respond.
    apply preserves_bind; [assumption | |].
    - apply preserves_better_respond; try assumption.
      intros ami a. apply same_memory_accepted, price_range_same_memory.
    - intros response. apply preserves_bind; [assumption | |].
      + now apply preserves_the_ami.
      + intros ami. apply preserves_bind; [assumption | apply Hassign |].
        intros _. now apply preserves_ret. }
  unfold LearningAgent.respond.
  apply preserves_bind; [assumption | exact Hadaptive |].
  intros response. apply preserves_bind; [assumption | |].
  - now apply preserves_the_ami.
  - intros ami. apply preserves_bind; [assumption | |].
    + destruct (SimpleAgent._is_selling w ami);
        apply preserves_modify; intros a; now constructor.
    + intros _. now apply preserves_ret.
Qed.

Lemma step_same_accepted : preserves same_accepted LearningAgent.step.
Proof. intros a. now constructor. Qed.

(** The attributes after the success callback, on a sale and on a purchase. *)
Lemma success_selling w contract mechanism a :
  SimpleAgent._is_selling w mechanism = true ->
  let up := Fin (unit_price (agreement contract)) in
  let a' := snd (LearningAgent.on_negotiation_success w contract mechanism a) in
  _best_acc_selling a' = max2 up (_best_acc_selling a)
  /\ _best_acc_buying a' = _best_acc_buying a
  /\ (forall k,
        dd_value (Fin 0) (_best_opp_acc_selling a') k
        = if decide (contract_buyer contract = k)
          then max2 up (dd_value (Fin 0) (_best_opp_acc_selling a) k)
          else dd_value (Fin 0) (_best_opp_acc_selling a) k)
  /\ (forall k,
        dd_value PInf (_best_opp_acc_buying a') k
        = dd_value PInf (_best_opp_acc_buying a) k).
Proof.
  intros Hsell up a'. subst a'.
  unfold LearningAgent.on_negotiation_success. rewrite Hsell.
  unfold SimpleAgent.on_negotiation_success, bind, modify.
  rewrite read_opp_acc_selling_run. cbn [snd fst].
  repeat split.
  intros k. cbn [_best_opp_acc_selling set_best_opp_acc_selling].
  rewrite dd_value_insert.
  destruct (decide (contract_buyer contract = k)) as [<- | Hne].
  - reflexivity.
  - now rewrite dd_getitem_same.
Qed.

Lemma success_buying w contract mechanism a :
  SimpleAgent._is_selling w mechanism = false ->
  let up := Fin (unit_price (agreement contract)) in
  let a' := snd (LearningAgent.on_negotiation_success w contract mechanism a) in
  _best_acc_buying a' = min2 up (_best_acc_buying a)
  /\ _best_acc_selling a' = _best_acc_selling a
  /\ (forall k,
        dd_value PInf (_best_opp_acc_buying a') k
        = if decide (contract_seller contract = k)
          then min2 up (dd_value PInf (_best_opp_acc_buying a) k)
          else dd_value PInf (_best_opp_acc_buying a) k)
  /\ (forall k,
        dd_value (Fin 0) (_best_opp_acc_selling a') k
        = dd_value (Fin 0) (_best_opp_acc_selling a) k).
Proof.
  intros Hsell up a'. subst a'.
  unfold LearningAgent.on_negotiation_success. rewrite Hsell.
  unfold SimpleAgent.on_negotiation_success, bind, modify.
  rewrite read_opp_acc_buying_run. cbn [snd fst].
  repeat split.
  intros k. cbn [_best_opp_acc_buying set_best_opp_acc_buying].
  rewrite dd_value_insert.
  destruct (decide (contract_seller contract = k)) as [<- | Hne].
  - reflexivity.
  - now rewrite dd_getitem_same.
Qed.

Lemma unchanged_tightened a a' :
  accepted_numbers a -> same_accepted a a' ->
  accepted_numbers a' /\ tightened a a'.
Proof.
  intros [Hs Hb Hos Hob] [Es Eb Eos Eob]. split.
  - constructor; try congruence; intros k;
      rewrite <- ?Eos, <- ?Eob; auto.
  - constructor.
    + rewrite <- Es. now apply fleb_refl.
    + intros k. rewrite <- Eos. now apply fleb_refl.
    + rewrite <- Eb. now apply fleb_refl.
    + intros k. rewrite <- Eob. now apply fleb_refl.
Qed.

Lemma tightened_trans a b c : tightened a b -> tightened b c -> tightened a c.
Proof.
  intros [] []. constructor; try intros k; eapply fleb_trans; eauto.
Qed.

Lemma success_tightened w contract mechanism a :
  accepted_numbers a ->
  let a' := snd (LearningAgent.on_negotiation_success w contract mechanism a) in
  accepted_numbers a' /\ tightened a a'.
Proof.
  intros [Hs Hb Hos Hob] a'. subst a'.
  destruct (SimpleAgent._is_selling w mechanism) eqn:Hsell.
  - destruct (success_selling w contract mechanism a Hsell)
      as (Es & Eb & Eos & Eob).
    split; constructor.
    + rewrite Es. now apply max2_not_nan.
    + now rewrite Eb.
    + intros k. rewrite Eos.
      destruct (decide (contract_buyer contract = k));
        [apply max2_not_nan |]; apply Hos.
    + intros k. rewrite Eob. apply Hob.
    + rewrite Es. now apply max2_ge_old.
    + intros k. rewrite Eos.
      destruct (decide (contract_buyer contract = k));
        [apply max2_ge_old | apply fleb_refl]; apply Hos.
    + rewrite Eb. now apply fleb_refl.
    + intros k. rewrite Eob. apply fleb_refl, Hob.
  - destruct (success_buying w contract mechanism a Hsell)
      as (Eb & Es & Eob & Eos).
    split; constructor.
    + now rewrite Es.
    + rewrite Eb. now apply min2_not_nan.
    + intros k. rewrite Eos. apply Hos.
    + intros k. rewrite Eob.
      destruct (decide (contract_seller contract = k));
        [apply min2_not_nan |]; apply Hob.
    + rewrite Es. now apply fleb_refl.
    + intros k. rewrite Eos. apply fleb_refl, Hos.
    + rewrite Eb. now apply min2_le_old.
    + intros k. rewrite Eob.
      destruct (decide (contract_seller contract = k));
        [apply min2_le_old | apply fleb_refl]; apply Hob.
Qed.

Lemma after_tightened cfg ev a :
  accepted_numbers a ->
  accepted_numbers (after cfg ev a) /\ tightened a (after cfg ev a).
Proof.
  intros Ha. destruct ev as [| w c m | w nid st offer | w nid st]; simpl.
  - apply unchanged_tightened; [assumption | apply step_same_accepted].
  - now apply success_tightened.
  - apply unchanged_tightened; [assumption | apply respond_same_accepted].
  - apply unchanged_tightened; [assumption |].
    apply same_memory_accepted, propose_same_memory.
Qed.

Lemma run_tightened cfg evs a :
  accepted_numbers a ->
  accepted_numbers (run cfg evs a) /\ tightened a (run cfg evs a).
Proof.
  revert a. induction evs as [| ev evs IH]; intros a Ha.
  - simpl. apply unchanged_tightened; [assumption | apply same_accepted_refl].
  - destruct (after_tightened cfg ev a Ha) as [Ha1 Ht1].
    destruct (IH _ Ha1) as [Ha2 Ht2].
    split; [exact Ha2 |]. eapply tightened_trans; eassumption.
Qed.

Lemma new_agent_numbers : accepted_numbers new_agent.
Proof.
  constructor; simpl; try discriminate; intros k;
    rewrite dd_value_empty; discriminate.
Qed.

(** [init()] assigns every attribute: whatever was there before, the result
    is [new_agent]. *)
Lemma init_new_agent a : snd (LearningAgent.init a) = new_agent.
Proof. reflexivity. Qed.

(** C5. Take any two moments of the agent's life after [init()], the second
    reached from the first by any sequence of period boundaries, success
    callbacks, responses and proposals. Between them [_best_acc_selling] and
    every [_best_opp_acc_selling[partner]] have not decreased, and
    [_best_acc_buying] and every [_best_opp_acc_buying[partner]] have not
    increased: the period boundary does not reset them. *)
Theorem accepted_price_memory_monotone cfg (earlier later : list event) :
  let a1 := run cfg earlier new_agent in
  let a2 := run cfg later a1 in
  fleb (_best_acc_selling a1) (_best_acc_selling a2) = true
  /\ (forall partner,
        fleb (dd_value (Fin 0) (_best_opp_acc_selling a1) partner)
             (dd_value (Fin 0) (_best_opp_acc_selling a2) partner) = true)
  /\ fleb (_best_acc_buying a2) (_best_acc_buying a1) = true
  /\ (forall partner,
        fleb (dd_value PInf (_best_opp_acc_buying a2) partner)
             (dd_value PInf (_best_opp_acc_buying a1) partner) = true).
Proof.
  intros a1 a2.
  destruct (run_tightened cfg earlier new_agent new_agent_numbers) as [H1 _].
  destruct (run_tightened cfg later a1 H1) as [_ []].
  repeat split; assumption.
Qed.

(** ** The within-period memory of a partner's offers *)

Lemma better_respond_same_memory cfg w negotiator_id state_step offer :
  preserves same_memory
    (BetterAgent.respond (LearningAgent._price_range cfg) cfg w
       negotiator_id state_step offer).
Proof.
  apply preserves_better_respond.
  - apply same_memory_refl.
  - apply same_memory_trans.
  - intros ami. apply price_range_same_memory.
Qed.

(** What [respond] stores for the partner on a sale whenever it returns: the
    maximum of the offered price and [_best_selling], the best price of the
    period over all partners. The partner's own previous entry is not read. *)
Lemma respond_stores_best_of_period cfg w negotiator_id state_step offer a
    ami response a' :
  get_ami w negotiator_id = Some ami ->
  SimpleAgent._is_selling w ami = true ->
  LearningAgent.respond cfg w negotiator_id state_step offer a
  = (Ok response, a') ->
  dd_value (Fin 0) (_best_opp_selling a') (buyer ami)
  = max2 (Fin (unit_price offer))
         (max2 (Fin (unit_price offer)) (_best_selling a)).
Proof.
  intros Hami Hsell Hrun.
  pose proof (better_respond_same_memory cfg w negotiator_id state_step
                offer a) as Hsame.
  destruct (BetterAgent.respond (LearningAgent._price_range cfg) cfg w
              negotiator_id state_step offer a) as [[r | e] a1] eqn:Hb.
  - rewrite (learning_respond_returns _ _ _ _ _ _ _ _ _ Hami Hb) in Hrun.
    injection Hrun as _ <-.
    unfold learning_assignment, adaptive_assignment. rewrite Hsell.
    cbn [_best_opp_selling set_best_opp_selling _best_selling
         set_best_selling].
    rewrite dd_value_insert, decide_True by reflexivity.
    simpl in Hsame. now rewrite (same_best_selling _ _ Hsame).
  - rewrite (learning_respond_raises _ _ _ _ _ _ _ _ Hb) in Hrun.
    discriminate.
Qed.

(** C1 at a failing input. A fresh period with two sales and a need of [5].
    Partner [P2] offers [8] units at [20] (rejected: more than the need), then
    partner [P1] offers [8] units at [18]. Before [P1]'s offer its entry reads
    [0.0], so the claimed value is [max(18, 0.0) = 18]; the code stores [20],
    the price offered by [P2]. *)
Theorem respond_opp_memory_at_two_partners :
  let w := two_sales 5 0 in
  let a1 := snd (LearningAgent.respond default_config w "n2" 0
                   (mkOutcome 8 0 20%R) new_agent) in
  let a2 := snd (LearningAgent.respond default_config w "n1" 0
                   (mkOutcome 8 0 18%R) a1) in
  fst (LearningAgent.respond default_config w "n1" 0
         (mkOutcome 8 0 18%R) a1) = Ok REJECT_OFFER
  /\ dd_value (Fin 0) (_best_opp_selling a1) "P1" = Fin 0
  /\ max2 (Fin 18) (dd_value (Fin 0) (_best_opp_selling a1) "P1") = Fin 18
  /\ dd_value (Fin 0) (_best_opp_selling a2) "P1" = Fin 20
  /\ Fin 20 <> Fin 18.
Proof.
  intros w a1 a2.
  assert (H1 : LearningAgent.respond default_config w "n2" 0
                 (mkOutcome 8 0 20%R) new_agent
               = (Ok REJECT_OFFER,
                  learning_assignment w (sale_ami "P2" 10 20 11)
                    (mkOutcome 8 0 20%R)
                    (adaptive_assignment w (sale_ami "P2" 10 20 11)
                       (mkOutcome 8 0 20%R) new_agent))).
  { apply learning_respond_returns; [reflexivity |].
    apply better_respond_not_accepted; [| discriminate].
    apply (simple_respond_reject _ _ _ _ _ 5); [reflexivity | lia | simpl; lia]. }
  assert (Hbest : _best_selling a1 = Fin 20).
  { subst a1. rewrite H1. simpl. unfold max2, fgtb. fl_decide. }
  assert (Hopp : dd_value (Fin 0) (_best_opp_selling a1) "P1" = Fin 0).
  { subst a1. rewrite H1. simpl.
    rewrite dd_value_insert, decide_False by discriminate.
    apply dd_value_empty. }
  assert (H2 : LearningAgent.respond default_config w "n1" 0
                 (mkOutcome 8 0 18%R) a1
               = (Ok REJECT_OFFER,
                  learning_assignment w (sale_ami "P1" 10 20 11)
                    (mkOutcome 8 0 18%R)
                    (adaptive_assignment w (sale_ami "P1" 10 20 11)
                       (mkOutcome 8 0 18%R) a1))).
  { apply learning_respond_returns; [reflexivity |].
    apply better_respond_not_accepted; [| discriminate].
    apply (simple_respond_reject _ _ _ _ _ 5); [| lia | simpl; lia].
    subst a1. rewrite H1. reflexivity. }
  split; [now rewrite H2 |]. split; [exact Hopp |]. split.
  { rewrite Hopp. unfold max2, fgtb. fl_decide. }
  split.
  - assert (Hrun : LearningAgent.respond default_config w "n1" 0
                     (mkOutcome 8 0 18%R) a1 = (Ok REJECT_OFFER, a2))
      by (subst a2; rewrite H2; reflexivity).
    pose proof (respond_stores_best_of_period default_config w "n1" 0
                  (mkOutcome 8 0 18%R) a1 (sale_ami "P1" 10 20 11)
                  REJECT_OFFER a2 eq_refl eq_refl Hrun) as Hst.
    cbn [buyer sale_ami unit_price] in Hst.
    rewrite Hst, Hbest. unfold max2, fgtb. fl_decide.
  - intros [= H]. lra.
Qed.

(** ** The need at period start *)

(** C6 (amended). At period start, before any agreement of the period, the
    remaining need is the sum of the exogenous input quantity and the
    exogenous output quantity, the same for every negotiation, whether a
    sale or a purchase. *)
Theorem needed_at_period_start w negotiator_id a :
  fst (SimpleAgent._needed w negotiator_id (snd (LearningAgent.step a)))
  = Ok (current_exogenous_input_quantity (awi w)
        + current_exogenous_output_quantity (awi w)).
Proof. rewrite needed_run. simpl. now rewrite Z.sub_0_r. Qed.

(** C6 (as stated) fails for an agent with an exogenous input of [10] and no
    exogenous output: on a sale the remaining need at period start is [10],
    not the output quantity [0]; and for an agent with an exogenous output
    of [7] and no input, on a purchase it is [7], not the input quantity
    [0]. *)
Lemma needed_at_period_start_counterexample :
  SimpleAgent._is_selling (one_negotiation 10 0 (sale_ami "P1" 10 20 11))
    (sale_ami "P1" 10 20 11) = true
  /\ fst (SimpleAgent._needed (one_negotiation 10 0 (sale_ami "P1" 10 20 11))
            (Some "n1"%string) (snd (LearningAgent.step new_agent)))
     = Ok 10
  /\ current_exogenous_output_quantity
       (awi (one_negotiation 10 0 (sale_ami "P1" 10 20 11))) = 0
  /\ SimpleAgent._is_selling (one_negotiation 0 7 (purchase_ami "P1" 10 20 11))
       (purchase_ami "P1" 10 20 11) = false
  /\ fst (SimpleAgent._needed
            (one_negotiation 0 7 (purchase_ami "P1" 10 20 11))
            (Some "n1"%string) (snd (LearningAgent.step new_agent)))
     = Ok 7
  /\ current_exogenous_input_quantity
       (awi (one_negotiation 0 7 (purchase_ami "P1" 10 20 11))) = 0.
Proof. repeat split. Qed.

(** ** The reputation filter *)

Lemma py_slice_from_last {A} (n : nat) (l : list A) :
  (0 < n)%nat -> E3BIUagent.py_slice_from (- Z.of_nat n) l = last_n n l.
Proof.
  intros Hn. unfold E3BIUagent.py_slice_from, last_n.
  destruct (Z.ltb_spec (- Z.of_nat n) 0) as [_ | H]; [| lia].
  f_equal. lia.
Qed.

Section Reputation.

Variables Negotiator Issues Mechanism : Type.
Variable super_respond_to_negotiation_request :
  string -> Issues -> E3BIUagent.Annotation -> Mechanism
  -> outcome (option Negotiator).
Variables (w : E3BIUagent.World) (initiator : string) (issues : Issues)
          (annotation : E3BIUagent.Annotation) (mechanism : Mechanism).

(** C10. [respond_to_negotiation_request] returns [None] whenever the breach
    levels of the last 25 reports of the counterpart sum to more than zero;
    and for a counterpart without reports the breach test is false, for
    every number of steps. *)
Theorem breaching_partner_declined :
  (forall reports,
     E3BIUagent.reports_of_agent w (counterpart annotation) = Some reports ->
     (0 < E3BIUagent.py_sum (last_n 25 (breach_levels_of reports)))%R ->
     E3BIUagent.respond_to_negotiation_request Negotiator Issues Mechanism
       super_respond_to_negotiation_request w initiator issues annotation
       mechanism
     = Ok None)
  /\ (E3BIUagent.reports_of_agent w (counterpart annotation) = None ->
      forall nsteps,
        E3BIUagent.is_breached_last_n_steps w (counterpart annotation) nsteps
        = false).
Proof.
  split.
  - intros reports Hreports Hsum.
    unfold E3BIUagent.respond_to_negotiation_request.
    fold (counterpart annotation).
    unfold E3BIUagent.is_breached_last_n_steps. rewrite Hreports.
    fold (breach_levels_of reports).
    pose proof (py_slice_from_last 25 (breach_levels_of reports)) as Hlast.
    change (- Z.of_nat 25) with (Z.opp 25) in Hlast.
    rewrite Hlast by lia.
    destruct (Rlt_dec 0 (E3BIUagent.py_sum (last_n 25 (breach_levels_of reports))));
      [reflexivity | contradiction].
  - intros Hnone nsteps.
    unfold E3BIUagent.is_breached_last_n_steps. now rewrite Hnone.
Qed.

End Reputation.

(** [B1], whose last report has a breach level of [0.5], asks to buy: the
    request is declined although the parent class would accept it. *)
Lemma breaching_partner_declined_witness :
  E3BIUagent.respond_to_negotiation_request unit unit unit
    (fun _ _ _ _ => Ok (Some tt)) breach_world "B1" tt
    (E3BIUagent.mkAnnotation "B1" "me" true) tt
  = Ok None.
Proof.
  refine (proj1 (breaching_partner_declined unit unit unit
                   (fun _ _ _ _ => Ok (Some tt)) breach_world "B1" tt
                   (E3BIUagent.mkAnnotation "B1" "me" true) tt)
            [(0, E3BIUagent.mkReport 0); (1, E3BIUagent.mkReport 0.5)] _ _).
  - reflexivity.
  - unfold E3BIUagent.py_sum. simpl. lra.
Defined.

(** * Further properties of the agents *)

(** ** Inversions of [respond] and [propose] *)

Section Inversions.

Variables (cfg : Config) (w : World) (negotiator_id : string)
          (state_step : Z).

(** [SimpleAgent.respond] accepts only a quantity within a positive need. *)
Lemma simple_respond_accept_inv offer a a1 :
  SimpleAgent.respond w negotiator_id state_step offer a
  = (Ok ACCEPT_OFFER, a1) ->
  a1 = a
  /\ 0 < current_exogenous_input_quantity (awi w)
         + current_exogenous_output_quantity (awi w) - secured a
  /\ quantity offer
     <= current_exogenous_input_quantity (awi w)
        + current_exogenous_output_quantity (awi w) - secured a.
Proof.
  unfold SimpleAgent.respond, bind. rewrite needed_run.
  destruct (Z.leb_spec
              (current_exogenous_input_quantity (awi w)
               + current_exogenous_output_quantity (awi w) - secured a) 0);
    [discriminate |].
  destruct (Z.leb_spec (quantity offer)
              (current_exogenous_input_quantity (awi w)
               + current_exogenous_output_quantity (awi w) - secured a));
    [| discriminate].
  intros [= <-]. repeat split; lia.
Qed.

Lemma simple_respond_state offer a :
  snd (SimpleAgent.respond w negotiator_id state_step offer a) = a.
Proof.
  unfold SimpleAgent.respond, bind. rewrite needed_run.
  now destruct (Z.leb _ 0).
Qed.

Lemma simple_respond_ok offer a :
  exists r, SimpleAgent.respond w negotiator_id state_step offer a = (Ok r, a).
Proof.
  unfold SimpleAgent.respond, bind. rewrite needed_run.
  destruct (Z.leb _ 0); eexists; reflexivity.
Qed.

(** [BetterAgent.respond] accepts only what [SimpleAgent.respond] accepts and
    the price test passes. *)
Lemma better_respond_accept_inv pr offer a a1 :
  BetterAgent.respond pr cfg w negotiator_id state_step offer a
  = (Ok ACCEPT_OFFER, a1) ->
  SimpleAgent.respond w negotiator_id state_step offer a
  = (Ok ACCEPT_OFFER, a)
  /\ exists ami,
       get_ami w negotiator_id = Some ami
       /\ BetterAgent._is_good_price pr cfg w ami state_step
            (unit_price offer) a = (Ok true, a1).
Proof.
  intros Hb. destruct (simple_respond_ok offer a) as [r Hs].
  unfold BetterAgent.respond in Hb. rewrite (bind_ok _ _ _ _ _ Hs) in Hb.
  destruct r; simpl in Hb; try discriminate.
  split; [exact Hs |].
  unfold the_ami in Hb. destruct (get_ami w negotiator_id) as [ami |];
    [| discriminate].
  exists ami. split; [reflexivity |].
  unfold bind at 1 in Hb. unfold ret at 1 in Hb. unfold bind in Hb.
  destruct (BetterAgent._is_good_price pr cfg w ami state_step
              (unit_price offer) a) as [[[|] | e] a2];
    try discriminate.
  now injection Hb as <-.
Qed.

(** The two outcomes of [LearningAgent.respond] on an existing negotiation:
    the parent returned and both memories were assigned, or the parent
    raised and nothing was assigned. *)
Lemma learning_respond_cases offer a ami :
  get_ami w negotiator_id = Some ami ->
  (exists r a1,
     BetterAgent.respond (LearningAgent._price_range cfg) cfg w
       negotiator_id state_step offer a = (Ok r, a1)
     /\ same_memory a a1
     /\ LearningAgent.respond cfg w negotiator_id state_step offer a
        = (Ok r, learning_assignment w ami offer
                   (adaptive_assignment w ami offer a1)))
  \/ (exists e a1,
        same_memory a a1
        /\ LearningAgent.respond cfg w negotiator_id state_step offer a
           = (Raise e, a1)).
Proof.
  intros Hami.
  pose proof (better_respond_same_memory cfg w negotiator_id state_step
                offer a) as Hsame.
  destruct (BetterAgent.respond (LearningAgent._price_range cfg) cfg w
              negotiator_id state_step offer a) as [[r | e] a1] eqn:Hb.
  - left. exists r, a1. split; [reflexivity |]. split; [exact Hsame |].
    now apply learning_respond_returns.
  - right. exists e, a1. split; [assumption |].
    now apply learning_respond_raises.
Qed.

Lemma learning_respond_accept_inv offer a :
  fst (LearningAgent.respond cfg w negotiator_id state_step offer a)
  = Ok ACCEPT_OFFER ->
  exists ami a1,
    get_ami w negotiator_id = Some ami
    /\ SimpleAgent.respond w negotiator_id state_step offer a
       = (Ok ACCEPT_OFFER, a)
    /\ BetterAgent._is_good_price (LearningAgent._price_range cfg) cfg w ami
         state_step (unit_price offer) a = (Ok true, a1).
Proof.
  intros Hr.
  destruct (get_ami w negotiator_id) as [ami |] eqn:Hami.
  - destruct (learning_respond_cases offer a ami Hami)
      as [(r & a1 & Hb & _ & Hl) | (e & a1 & _ & Hl)];
      rewrite Hl in Hr; simpl in Hr; [| discriminate].
    injection Hr as ->.
    destruct (better_respond_accept_inv _ _ _ _ Hb) as (Hs & ami' & Hami' & Hg).
    rewrite Hami in Hami'. injection Hami' as <-.
    exists ami, a1. repeat split; assumption.
  - exfalso.
    unfold LearningAgent.respond, AdaptiveAgent.respond, the_ami in Hr.
    rewrite Hami in Hr. unfold bind, raise in Hr.
    destruct (BetterAgent.respond (LearningAgent._price_range cfg) cfg w
                negotiator_id state_step offer a) as [[r | e] a1];
      simpl in Hr; discriminate.
Qed.

End Inversions.

(** ** What [respond] accepts and what it leaves alone *)

(** X1. [respond] never accepts more than is needed: whenever it answers
    [ACCEPT_OFFER], the remaining need is positive and the offered quantity
    is within it. *)
Theorem accept_within_need cfg w negotiator_id state_step offer a :
  fst (LearningAgent.respond cfg w negotiator_id state_step offer a)
  = Ok ACCEPT_OFFER ->
  exists needs,
    fst (SimpleAgent._needed w (Some negotiator_id) a) = Ok needs
    /\ 0 < needs
    /\ quantity offer <= needs.
Proof.
  intros Hr.
  destruct (learning_respond_accept_inv cfg w negotiator_id state_step
              offer a Hr) as (ami & a1 & _ & Hs & _).
  destruct (simple_respond_accept_inv w negotiator_id state_step offer a a Hs)
    as (_ & Hpos & Hq).
  eexists. rewrite needed_run. cbn [fst]. repeat split; assumption.
Qed.

Lemma accept_within_need_witness :
  exists needs,
    fst (SimpleAgent._needed (one_negotiation 5 0 (sale_ami "P1" 10 20 11))
           (Some "n1"%string) new_agent) = Ok needs
    /\ 0 < needs
    /\ quantity (mkOutcome 3 0 20%R) <= needs.
Proof.
  exact (accept_within_need default_config
           (one_negotiation 5 0 (sale_ami "P1" 10 20 11)) "n1" 0
           (mkOutcome 3 0 20%R) new_agent
           offer_at_target_accepted_first_round).
Defined.

(** X2. On an existing negotiation [respond] assigns only the within-period
    memory of the negotiation's own direction, and of the per-partner
    entries only the partner's: the secured quantity, the cross-period
    memory, the other direction's memories and the entries of all other
    partners read as before, whether [respond] returns or raises. *)
Theorem respond_leaves_rest_alone cfg w negotiator_id state_step offer a ami :
  get_ami w negotiator_id = Some ami ->
  respond_frame (SimpleAgent._is_selling w ami)
    (if SimpleAgent._is_selling w ami then buyer ami else seller ami)
    a (snd (LearningAgent.respond cfg w negotiator_id state_step offer a)).
Proof.
  intros Hami.
  destruct (learning_respond_cases cfg w negotiator_id state_step offer a
              ami Hami)
    as [(r & a1 & _ & Hsame & ->) | (e & a1 & Hsame & ->)]; cbn [snd].
  - unfold learning_assignment, adaptive_assignment.
    destruct Hsame as [Hsec Hbs Hbb Has Hab Hos Hob Hoas Hoab].
    destruct (SimpleAgent._is_selling w ami); constructor; simpl;
      try assumption; try (now constructor); intros k; try apply Hob;
      try apply Hos; intros Hk;
      rewrite dd_value_insert, decide_False by congruence;
      auto.
  - destruct Hsame as [Hsec Hbs Hbb Has Hab Hos Hob Hoas Hoab].
    destruct (SimpleAgent._is_selling w ami); constructor;
      try assumption; try (now constructor); auto.
Qed.

Lemma respond_leaves_rest_alone_witness :
  respond_frame true "P1" new_agent
    (snd (LearningAgent.respond default_config
            (one_negotiation 5 0 (sale_ami "P1" 10 20 11)) "n1" 0
            (mkOutcome 3 0 20%R) new_agent)).
Proof.
  exact (respond_leaves_rest_alone default_config
           (one_negotiation 5 0 (sale_ami "P1" 10 20 11)) "n1" 0
           (mkOutcome 3 0 20%R) new_agent (sale_ami "P1" 10 20 11) eq_refl).
Defined.

(** ** The secured quantity along a trace *)

Lemma learning_respond_preserves (R : Agent -> Agent -> Prop)
    cfg w negotiator_id state_step offer :
  (forall a, R a a) ->
  (forall a b c, R a b -> R b c -> R a c) ->
  (forall a a', same_memory a a' -> R a a') ->
  (forall v a, R a (set_best_selling v a)) ->
  (forall v a, R a (set_best_buying v a)) ->
  (forall m a, R a (set_best_opp_selling m a)) ->
  (forall m a, R a (set_best_opp_buying m a)) ->
  preserves R (LearningAgent.respond cfg w negotiator_id state_step offer).
Proof.
  intros Hrefl Htrans Hsame Hs Hb Hos Hob.
  unfold LearningAgent.respond, AdaptiveAgent.respond.
  apply preserves_bind; [assumption | |].
  - apply preserves_bind; [assumption | |].
    + apply preserves_better_respond; try assumption.
      intros ami a. apply Hsame, price_range_same_memory.
    + intros response. apply preserves_bind; [assumption | |].
      * now apply preserves_the_ami.
      * intros ami. apply preserves_bind; [assumption | |].
        -- destruct (SimpleAgent._is_selling w ami);
             apply preserves_modify; intros a; auto.
        -- intros _. now apply preserves_ret.
  - intros response. apply preserves_bind; [assumption | |].
    + now apply preserves_the_ami.
    + intros ami. apply preserves_bind; [assumption | |].
      * destruct (SimpleAgent._is_selling w ami);
          apply preserves_modify; intros a; auto.
      * intros _. now apply preserves_ret.
Qed.

Lemma respond_secured cfg w negotiator_id state_step offer a :
  secured (snd (LearningAgent.respond cfg w negotiator_id state_step offer a))
  = secured a.
Proof.
  symmetry.
  apply (learning_respond_preserves (fun a a' => secured a = secured a'));
    try reflexivity.
  - intros x y z. congruence.
  - intros x y []. assumption.
Qed.

Lemma success_secured w contract mechanism a :
  secured (snd (LearningAgent.on_negotiation_success w contract mechanism a))
  = secured a + quantity (agreement contract).
Proof.
  unfold LearningAgent.on_negotiation_success,
    SimpleAgent.on_negotiation_success, bind, modify.
  destruct (SimpleAgent._is_selling w mechanism).
  - rewrite read_opp_acc_selling_run. reflexivity.
  - rewrite read_opp_acc_buying_run. reflexivity.
Qed.

(** X3. Along any trace of calls the secured quantity is the sum of the
    agreed quantities since the last [step()]: every agreement adds its
    quantity, of a sale or of a purchase, without a cap; [respond] and
    [propose] do not change it, also when they raise. *)
Theorem secured_follows_agreements cfg evs a :
  secured (run cfg evs a) = secured_tally evs (secured a).
Proof.
  revert a. induction evs as [| ev evs IH]; intros a; [reflexivity |].
  unfold run, secured_tally in *. cbn [fold_left]. rewrite IH. f_equal.
  destruct ev as [| w c m | w nid st offer | w nid st]; cbn [after].
  - reflexivity.
  - apply success_secured.
  - apply respond_secured.
  - symmetry. apply (same_secured _ _ (propose_same_memory cfg w nid st a)).
Qed.

(** ** The offer that [propose] builds *)

Section Propose.

Variables (cfg : Config) (w : World) (negotiator_id : string)
          (state_step : Z).
Variable pr : BetterAgent.price_range_method.

Lemma best_offer_run a :
  SimpleAgent.best_offer w negotiator_id a
  = (Ok (if Z.leb (current_exogenous_input_quantity (awi w)
                   + current_exogenous_output_quantity (awi w)
                   - secured a) 0
         then None
         else
           match get_ami w negotiator_id with
           | None => None
           | Some ami =>
               Some {| quantity :=
                         Z.max (Z.min (current_exogenous_input_quantity (awi w)
                                       + current_exogenous_output_quantity
                                           (awi w)
                                       - secured a)
                                      (max_value (quantity_issue ami)))
                               (min_value (quantity_issue ami));
                       time := current_step (awi w);
                       unit_price :=
                         if SimpleAgent._is_selling w ami
                         then max_value (unit_price_issue ami)
                         else min_value (unit_price_issue ami) |}
           end), a).
Proof.
  unfold SimpleAgent.best_offer, bind. rewrite needed_run.
  destruct (Z.leb _ 0); [reflexivity |].
  now destruct (get_ami w negotiator_id).
Qed.

(** [propose] on a negotiation with need, an interval and a threshold. *)
Lemma propose_returns a ami low high a' th :
  get_ami w negotiator_id = Some ami ->
  0 < current_exogenous_input_quantity (awi w)
      + current_exogenous_output_quantity (awi w) - secured a ->
  pr w ami a = (Ok (low, high), a') ->
  BetterAgent._th cfg state_step (n_steps ami) = Ok (Num th) ->
  BetterAgent.propose pr cfg w negotiator_id state_step a
  = (Ok (Some
       {| quantity :=
            Z.max (Z.min (current_exogenous_input_quantity (awi w)
                          + current_exogenous_output_quantity (awi w)
                          - secured a)
                         (max_value (quantity_issue ami)))
                  (min_value (quantity_issue ami));
          time := current_step (awi w);
          unit_price :=
            Num (if SimpleAgent._is_selling w ami
                 then fadd low (fmul th (fsub high low))
                 else fsub high (fmul th (fsub high low))) |}), a').
Proof.
  intros Hami Hpos Hpr Hth.
  unfold BetterAgent.propose, SimpleAgent.propose.
  rewrite (bind_ok _ _ _ _ _ (best_offer_run a)).
  rewrite (proj2 (Z.leb_gt _ _) Hpos), Hami.
  unfold the_ami. rewrite Hami. unfold bind at 1. unfold ret at 1.
  rewrite (bind_ok _ _ _ _ _ (find_good_price_run cfg w ami state_step pr
                                 a low high a' th Hpr Hth)).
  reflexivity.
Qed.

(** X4. Whenever [propose] returns an offer, the negotiation exists, the
    remaining need is positive, the delivery time is the current step and
    the quantity is the need cut to the legal quantities,
    [max(min(need, q_max), q_min)]: inside [[q_min, q_max]] when that range
    is not empty, and never above the need unless the need is below
    [q_min]. This holds whichever [_price_range] is in force. *)
Theorem propose_offer_shape a o :
  fst (BetterAgent.propose pr cfg w negotiator_id state_step a) = Ok (Some o) ->
  exists ami needs,
    get_ami w negotiator_id = Some ami
    /\ fst (SimpleAgent._needed w (Some negotiator_id) a) = Ok needs
    /\ 0 < needs
    /\ time o = current_step (awi w)
    /\ quantity o
       = Z.max (Z.min needs (max_value (quantity_issue ami)))
               (min_value (quantity_issue ami))
    /\ (min_value (quantity_issue ami) <= max_value (quantity_issue ami) ->
        min_value (quantity_issue ami) <= quantity o
        <= max_value (quantity_issue ami))
    /\ (min_value (quantity_issue ami) <= needs -> quantity o <= needs).
Proof.
  unfold BetterAgent.propose, SimpleAgent.propose.
  rewrite (bind_ok _ _ _ _ _ (best_offer_run a)).
  destruct (Z.leb_spec
              (current_exogenous_input_quantity (awi w)
               + current_exogenous_output_quantity (awi w) - secured a) 0)
    as [Hle | Hpos].
  { discriminate. }
  destruct (get_ami w negotiator_id) as [ami |] eqn:Hami.
  2: { discriminate. }
  unfold the_ami. rewrite Hami. unfold bind at 1. unfold ret at 1.
  unfold bind.
  destruct (BetterAgent._find_good_price pr cfg w ami state_step a)
    as [[p | e] a1]; simpl; [| discriminate].
  intros [= <-]. exists ami. eexists. split; [reflexivity |].
  cbn [fst quantity time].
  split; [reflexivity |]. split; [assumption |].
  split; [reflexivity |]. split; [reflexivity |]. split; intros; lia.
Qed.

End Propose.

Lemma propose_first_round_example :
  fst (BetterAgent.propose (LearningAgent._price_range default_config)
         default_config (one_negotiation 5 0 (sale_ami "P1" 10 20 11))
         "n1" 0 new_agent)
  = Ok (Some {| quantity := 5; time := 0;
                unit_price :=
                  Num (fadd (Fin 10)
                         (fmul (Fin 1) (fsub (Fin 20) (Fin 10)))) |}).
Proof.
  assert (Hpr : exists a',
    LearningAgent._price_range default_config
      (one_negotiation 5 0 (sale_ami "P1" 10 20 11))
      (sale_ami "P1" 10 20 11) new_agent = (Ok (Fin 10, Fin 20), a')).
  { eexists. rewrite price_range_selling by reflexivity.
    f_equal. f_equal. simpl. rewrite !dd_value_empty.
    unfold max_list, max2, min2, fgtb. fl_decide. }
  destruct Hpr as [a' Hpr].
  rewrite (propose_returns default_config
             (one_negotiation 5 0 (sale_ami "P1" 10 20 11)) "n1" 0 _
             new_agent (sale_ami "P1" 10 20 11) (Fin 10) (Fin 20) a' (Fin 1)
             eq_refl eq_refl Hpr).
  - reflexivity.
  - apply th_first_round; [simpl; lra | simpl; lia].
Qed.

Lemma propose_offer_shape_witness :
  exists ami needs,
    get_ami (one_negotiation 5 0 (sale_ami "P1" 10 20 11)) "n1" = Some ami
    /\ fst (SimpleAgent._needed (one_negotiation 5 0 (sale_ami "P1" 10 20 11))
              (Some "n1"%string) new_agent) = Ok needs
    /\ 0 < needs
    /\ 0 = current_step (awi (one_negotiation 5 0 (sale_ami "P1" 10 20 11)))
    /\ 5 = Z.max (Z.min needs (max_value (quantity_issue ami)))
                 (min_value (quantity_issue ami))
    /\ (min_value (quantity_issue ami) <= max_value (quantity_issue ami) ->
        min_value (quantity_issue ami) <= 5 <= max_value (quantity_issue ami))
    /\ (min_value (quantity_issue ami) <= needs -> 5 <= needs).
Proof.
  exact (propose_offer_shape default_config _ "n1" 0 _ new_agent _
           propose_first_round_example).
Defined.

(** ** The memories along a trace of calls *)

Lemma learning_respond_state cfg w negotiator_id state_step offer a :
  exists a1,
    same_memory a a1
    /\ (snd (LearningAgent.respond cfg w negotiator_id state_step offer a) = a1
        \/ exists ami,
             get_ami w negotiator_id = Some ami
             /\ snd (LearningAgent.respond cfg w negotiator_id state_step
                       offer a)
                = learning_assignment w ami offer
                    (adaptive_assignment w ami offer a1)).
Proof.
  destruct (get_ami w negotiator_id) as [ami |] eqn:Hami.
  - destruct (learning_respond_cases cfg w negotiator_id state_step offer a
                ami Hami)
      as [(r & a1 & _ & Hsame & ->) | (e & a1 & Hsame & ->)];
      exists a1; (split; [exact Hsame |]).
    + right. exists ami. split; reflexivity.
    + left. reflexivity.
  - pose proof (better_respond_same_memory cfg w negotiator_id state_step
                  offer a) as Hsame.
    exists (snd (BetterAgent.respond (LearningAgent._price_range cfg) cfg w
                   negotiator_id state_step offer a)).
    split; [exact Hsame |]. left.
    unfold LearningAgent.respond, AdaptiveAgent.respond, the_ami.
    rewrite Hami. unfold bind, raise.
    now destruct (BetterAgent.respond (LearningAgent._price_range cfg) cfg w
                    negotiator_id state_step offer a) as [[r | e] a1].
Qed.

Lemma success_best_of_period w contract mechanism a :
  _best_selling
    (snd (LearningAgent.on_negotiation_success w contract mechanism a))
  = _best_selling a
  /\ _best_buying
       (snd (LearningAgent.on_negotiation_success w contract mechanism a))
     = _best_buying a.
Proof.
  unfold LearningAgent.on_negotiation_success,
    SimpleAgent.on_negotiation_success, bind, modify.
  destruct (SimpleAgent._is_selling w mechanism).
  - rewrite read_opp_acc_selling_run. split; reflexivity.
  - rewrite read_opp_acc_buying_run. split; reflexivity.
Qed.

Lemma after_best_of_period cfg ev a :
  _best_selling a <> NaN -> _best_buying a <> NaN ->
  _best_selling (after cfg ev a) <> NaN
  /\ _best_buying (after cfg ev a) <> NaN
  /\ (is_step ev = false ->
      fleb (_best_selling a) (_best_selling (after cfg ev a)) = true
      /\ fleb (_best_buying (after cfg ev a)) (_best_buying a) = true).
Proof.
  intros Hs Hb.
  destruct ev as [| w c m | w nid st offer | w nid st]; cbn [after is_step].
  - repeat split; try discriminate.
  - destruct (success_best_of_period w c m a) as [-> ->].
    repeat split; try assumption; now apply fleb_refl.
  - destruct (learning_respond_state cfg w nid st offer a)
      as (a1 & Hsame & [-> | (ami & _ & ->)]).
    + rewrite <- (same_best_selling _ _ Hsame), <- (same_best_buying _ _ Hsame).
      repeat split; try assumption; now apply fleb_refl.
    + unfold learning_assignment, adaptive_assignment.
      destruct (SimpleAgent._is_selling w ami); simpl;
        rewrite <- ?(same_best_selling _ _ Hsame),
                <- ?(same_best_buying _ _ Hsame);
        repeat split; try assumption;
        try (now apply fleb_refl);
        try (now apply max2_not_nan); try (now apply min2_not_nan);
        try (now apply max2_ge_old); try (now apply min2_le_old).
  - pose proof (propose_same_memory cfg w nid st a) as Hsame.
    rewrite <- (same_best_selling _ _ Hsame), <- (same_best_buying _ _ Hsame).
    repeat split; try assumption; now apply fleb_refl.
Qed.

Lemma run_best_of_period_numbers cfg evs a :
  _best_selling a <> NaN -> _best_buying a <> NaN ->
  _best_selling (run cfg evs a) <> NaN /\ _best_buying (run cfg evs a) <> NaN.
Proof.
  revert a. induction evs as [| ev evs IH]; intros a Hs Hb; [now split |].
  destruct (after_best_of_period cfg ev a Hs Hb) as (Hs1 & Hb1 & _).
  exact (IH _ Hs1 Hb1).
Qed.

Lemma run_best_of_period cfg evs a :
  _best_selling a <> NaN -> _best_buying a <> NaN ->
  forallb (fun ev => negb (is_step ev)) evs = true ->
  fleb (_best_selling a) (_best_selling (run cfg evs a)) = true
  /\ fleb (_best_buying (run cfg evs a)) (_best_buying a) = true.
Proof.
  revert a. induction evs as [| ev evs IH]; intros a Hs Hb Hno.
  - split; now apply fleb_refl.
  - cbn [forallb] in Hno. apply andb_prop in Hno as [Hev Hrest].
    apply negb_true_iff in Hev.
    destruct (after_best_of_period cfg ev a Hs Hb) as (Hs1 & Hb1 & Hmono).
    destruct (Hmono Hev) as [H1 H2].
    destruct (IH _ Hs1 Hb1 Hrest) as [H3 H4].
    split; eapply fleb_trans; eassumption.
Qed.

(** X5. Within a period the best prices offered to the agent only tighten:
    between two moments after [init()] with no [step()] in between,
    [_best_selling] has not decreased and [_best_buying] has not increased,
    whatever responses, proposals and agreements lie between them. *)
Theorem best_of_period_monotone cfg (earlier later : list event) :
  forallb (fun ev => negb (is_step ev)) later = true ->
  let a1 := run cfg earlier new_agent in
  let a2 := run cfg later a1 in
  fleb (_best_selling a1) (_best_selling a2) = true
  /\ fleb (_best_buying a2) (_best_buying a1) = true.
Proof.
  intros Hno a1 a2.
  destruct (run_best_of_period_numbers cfg earlier new_agent) as [Hs Hb];
    try discriminate.
  now apply run_best_of_period.
Qed.

Lemma best_of_period_monotone_witness :
  fleb (_best_selling new_agent)
    (_best_selling
       (run default_config
          [EvRespond (two_sales 5 0) "n2" 0 (mkOutcome 8 0 20%R);
           EvPropose (two_sales 5 0) "n1" 1]
          new_agent)) = true.
Proof.
  exact (proj1 (best_of_period_monotone default_config []
                  [EvRespond (two_sales 5 0) "n2" 0 (mkOutcome 8 0 20%R);
                   EvPropose (two_sales 5 0) "n1" 1]
                  eq_refl)).
Defined.

Lemma after_accepted_entry cfg ev a partner :
  (is_sale_to partner ev = false ->
   dd_value (Fin 0) (_best_opp_acc_selling (after cfg ev a)) partner
   = dd_value (Fin 0) (_best_opp_acc_selling a) partner)
  /\ (is_purchase_from partner ev = false ->
      dd_value PInf (_best_opp_acc_buying (after cfg ev a)) partner
      = dd_value PInf (_best_opp_acc_buying a) partner).
Proof.
  assert (Hsame : forall a', same_accepted a a' ->
    dd_value (Fin 0) (_best_opp_acc_selling a') partner
    = dd_value (Fin 0) (_best_opp_acc_selling a) partner
    /\ dd_value PInf (_best_opp_acc_buying a') partner
       = dd_value PInf (_best_opp_acc_buying a) partner).
  { intros a' []. split; symmetry; auto. }
  destruct ev as [| w c m | w nid st offer | w nid st];
    cbn [after is_sale_to is_purchase_from].
  - destruct (Hsame _ (step_same_accepted a)). now split.
  - destruct (SimpleAgent._is_selling w m) eqn:Hsell; cbn [andb negb].
    + destruct (success_selling w c m a Hsell) as (_ & _ & Eos & Eob).
      split; intros H.
      * rewrite Eos. apply String.eqb_neq in H.
        now rewrite decide_False.
      * apply Eob.
    + destruct (success_buying w c m a Hsell) as (_ & _ & Eob & Eos).
      split; intros H.
      * apply Eos.
      * rewrite Eob. apply String.eqb_neq in H.
        now rewrite decide_False.
  - destruct (Hsame _ (respond_same_accepted cfg w nid st offer a)).
    now split.
  - destruct (Hsame _ (same_memory_accepted _ _
                         (propose_same_memory cfg w nid st a))).
    now split.
Qed.

(** X6. The cross-period entry of a partner changes only through an
    agreement with that partner in that direction: over a trace without a
    sale agreed with [partner], [_best_opp_acc_selling[partner]] reads as
    before, and over a trace without a purchase agreed with [partner] so
    does [_best_opp_acc_buying[partner]]. *)
Theorem accepted_entry_of_other_partners cfg evs a partner :
  (forallb (fun ev => negb (is_sale_to partner ev)) evs = true ->
   dd_value (Fin 0) (_best_opp_acc_selling (run cfg evs a)) partner
   = dd_value (Fin 0) (_best_opp_acc_selling a) partner)
  /\ (forallb (fun ev => negb (is_purchase_from partner ev)) evs = true ->
      dd_value PInf (_best_opp_acc_buying (run cfg evs a)) partner
      = dd_value PInf (_best_opp_acc_buying a) partner).
Proof.
  revert a. induction evs as [| ev evs IH]; intros a; [now split |].
  destruct (IH (after cfg ev a)) as [IHs IHb].
  destruct (after_accepted_entry cfg ev a partner) as [Hs Hb].
  split; intros Hno; cbn [forallb] in Hno;
    apply andb_prop in Hno as [Hev Hrest]; apply negb_true_iff in Hev.
  - change (run cfg (ev :: evs) a) with (run cfg evs (after cfg ev a)).
    rewrite (IHs Hrest). now apply Hs.
  - change (run cfg (ev :: evs) a) with (run cfg evs (after cfg ev a)).
    rewrite (IHb Hrest). now apply Hb.
Qed.

Lemma accepted_entry_of_other_partners_witness :
  dd_value (Fin 0)
    (_best_opp_acc_selling
       (run default_config
          [EvSuccess (two_sales 5 0)
             (mkContract (mkOutcome 3 0 15%R) "P2" "me")
             (sale_ami "P2" 10 20 11);
           EvStep]
          new_agent)) "P1"
  = dd_value (Fin 0) (_best_opp_acc_selling new_agent) "P1".
Proof.
  exact (proj1 (accepted_entry_of_other_partners default_config
                  [EvSuccess (two_sales 5 0)
                     (mkContract (mkOutcome 3 0 15%R) "P2" "me")
                     (sale_ami "P2" 10 20 11);
                   EvStep]
                  new_agent "P1") eq_refl).
Defined.

Lemma max2_mono up x y :
  x <> NaN -> y <> NaN -> fleb x y = true ->
  fleb (max2 (Fin up) x) (max2 (Fin up) y) = true.
Proof.
  unfold max2, fgtb. destruct x, y; intros; fl_decide.
Qed.

Lemma min2_mono up x y :
  x <> NaN -> y <> NaN -> fleb x y = true ->
  fleb (min2 (Fin up) x) (min2 (Fin up) y) = true.
Proof.
  unfold min2. destruct x, y; intros; fl_decide.
Qed.

(** The agent-wide accepted price bounds every partner's. *)
Lemma after_accepted_bound cfg ev a :
  accepted_numbers a ->
  (forall k, fleb (dd_value (Fin 0) (_best_opp_acc_selling a) k)
                  (_best_acc_selling a) = true) ->
  (forall k, fleb (_best_acc_buying a)
                  (dd_value PInf (_best_opp_acc_buying a) k) = true) ->
  (forall k, fleb (dd_value (Fin 0) (_best_opp_acc_selling (after cfg ev a)) k)
                  (_best_acc_selling (after cfg ev a)) = true)
  /\ (forall k, fleb (_best_acc_buying (after cfg ev a))
                     (dd_value PInf (_best_opp_acc_buying (after cfg ev a)) k)
                = true).
Proof.
  intros [Ns Nb Nos Nob] Hs Hb.
  assert (Hsame : forall a', same_accepted a a' ->
    (forall k, fleb (dd_value (Fin 0) (_best_opp_acc_selling a') k)
                    (_best_acc_selling a') = true)
    /\ (forall k, fleb (_best_acc_buying a')
                       (dd_value PInf (_best_opp_acc_buying a') k) = true)).
  { intros a' [Es Eb Eos Eob]. split; intros k.
    - rewrite <- Es, <- Eos. apply Hs.
    - rewrite <- Eb, <- Eob. apply Hb. }
  destruct ev as [| w c m | w nid st offer | w nid st]; cbn [after].
  - apply Hsame, step_same_accepted.
  - destruct (SimpleAgent._is_selling w m) eqn:Hsell.
    + destruct (success_selling w c m a Hsell) as (Es & Eb & Eos & Eob).
      split; intros k.
      * rewrite Es, Eos. destruct (decide (contract_buyer c = k)).
        -- apply max2_mono; auto.
        -- eapply fleb_trans; [apply Hs | now apply max2_ge_old].
      * rewrite Eb, Eob. apply Hb.
    + destruct (success_buying w c m a Hsell) as (Eb & Es & Eob & Eos).
      split; intros k.
      * rewrite Es, Eos. apply Hs.
      * rewrite Eb, Eob. destruct (decide (contract_seller c = k)).
        -- apply min2_mono; auto.
        -- eapply fleb_trans; [now apply min2_le_old | apply Hb].
  - apply Hsame, respond_same_accepted.
  - apply Hsame, same_memory_accepted, propose_same_memory.
Qed.

(** X7. At every moment after [init()] the agent-wide accepted prices bound
    the per-partner ones: [_best_opp_acc_selling[partner] <=
    _best_acc_selling] and [_best_acc_buying <=
    _best_opp_acc_buying[partner]] for every partner. *)
Theorem accepted_price_bounds_partners cfg (evs : list event) partner :
  let a := run cfg evs new_agent in
  fleb (dd_value (Fin 0) (_best_opp_acc_selling a) partner)
       (_best_acc_selling a) = true
  /\ fleb (_best_acc_buying a)
          (dd_value PInf (_best_opp_acc_buying a) partner) = true.
Proof.
  intros a. subst a.
  assert (H : forall evs a,
    accepted_numbers a ->
    (forall k, fleb (dd_value (Fin 0) (_best_opp_acc_selling a) k)
                    (_best_acc_selling a) = true) ->
    (forall k, fleb (_best_acc_buying a)
                    (dd_value PInf (_best_opp_acc_buying a) k) = true) ->
    (forall k, fleb (dd_value (Fin 0)
                       (_best_opp_acc_selling (run cfg evs a)) k)
                    (_best_acc_selling (run cfg evs a)) = true)
    /\ (forall k, fleb (_best_acc_buying (run cfg evs a))
                       (dd_value PInf
                          (_best_opp_acc_buying (run cfg evs a)) k) = true)).
  { clear evs. induction evs as [| ev evs IH]; intros a Hn Hs Hb;
      [now split |].
    destruct (after_accepted_bound cfg ev a Hn Hs Hb) as [Hs1 Hb1].
    destruct (after_tightened cfg ev a Hn) as [Hn1 _].
    exact (IH _ Hn1 Hs1 Hb1). }
  destruct (H evs new_agent new_agent_numbers) as [Hs Hb].
  - intros k. simpl. rewrite dd_value_empty. fl_decide.
  - intros k. simpl. now rewrite dd_value_empty.
  - split; [apply Hs | apply Hb].
Qed.

(** ** The interval against the legal prices *)

Lemma fleb_fltb_trans x y z :
  fleb x y = true -> fltb y z = true -> fleb x z = true.
Proof. destruct x, y, z; intros; fl_decide. Qed.

Lemma fltb_fleb x y : fltb x y = true -> fleb x y = true.
Proof. destruct x, y; intros; fl_decide. Qed.

Lemma max_list_above x l c :
  fleb c x = true -> fleb c (max_list x l) = true.
Proof.
  unfold max_list. revert x. induction l as [| y l IH]; intros x Hx;
    [exact Hx |].
  cbn [fold_left]. apply IH. unfold max2, fgtb.
  destruct (fltb x y) eqn:Hxy; [| exact Hx].
  eapply fleb_fltb_trans; eassumption.
Qed.

Lemma min_list_below x l c :
  fleb x c = true -> fleb (min_list x l) c = true.
Proof.
  unfold min_list. revert x. induction l as [| y l IH]; intros x Hx;
    [exact Hx |].
  cbn [fold_left]. apply IH. unfold min2.
  destruct (fltb y x) eqn:Hyx; [| exact Hx].
  eapply fleb_trans; [apply fltb_fleb; eassumption | exact Hx].
Qed.

Lemma min2_between (c a d : R) b :
  (c <= a)%R -> fleb (Fin c) b = true -> (a <= d)%R ->
  exists low, min2 (Fin a) b = Fin low /\ (c <= low)%R /\ (low <= d)%R.
Proof.
  intros Hca Hcb Had. unfold min2.
  destruct (fltb b (Fin a)) eqn:Hba.
  - destruct b as [b | | |]; simpl in Hba, Hcb; try discriminate.
    exists b. split; [reflexivity |].
    destruct (Rlt_dec b a); [| discriminate].
    destruct (Rle_dec c b); [lra | discriminate].
  - exists a. split; [reflexivity | lra].
Qed.

Lemma max2_between (c a d : R) b :
  (a <= d)%R -> fleb b (Fin d) = true -> (c <= a)%R ->
  exists high, max2 (Fin a) b = Fin high /\ (c <= high)%R /\ (high <= d)%R.
Proof.
  intros Had Hbd Hca. unfold max2, fgtb.
  destruct (fltb (Fin a) b) eqn:Hab.
  - destruct b as [b | | |]; simpl in Hab, Hbd; try discriminate.
    exists b. split; [reflexivity |].
    destruct (Rlt_dec a b); [| discriminate].
    destruct (Rle_dec b d); [lra | discriminate].
  - exists a. split; [reflexivity | lra].
Qed.

Section LegalPrices.

Variables (cfg : Config) (w : World) (ami : AMI) (a : Agent) (r : R).

Let mn : R := min_value (unit_price_issue ami).
Let mx : R := max_value (unit_price_issue ami).

(** The condition under which the slack band fits between the legal prices:
    [legal_min <= legal_max * (1 - range_slack)] on a sale,
    [legal_min * (1 + range_slack) <= legal_max] on a purchase. *)
Lemma price_range_legal_interval :
  _range_slack cfg = Fin r ->
  (0 <= r)%R ->
  (if SimpleAgent._is_selling w ami
   then 0 <= mx /\ mn <= mx * (1 - r)
   else 0 <= mn /\ mn * (1 + r) <= mx)%R ->
  exists low high a',
    LearningAgent._price_range cfg w ami a = (Ok (Fin low, Fin high), a')
    /\ (mn <= low)%R /\ (low <= high)%R /\ (high <= mx)%R.
Proof.
  intros Hrs Hr Hfit.
  destruct (SimpleAgent._is_selling w ami) eqn:Hsell.
  - destruct Hfit as [Hmx Hmn].
    rewrite price_range_selling by assumption. fold mn mx. rewrite Hrs.
    destruct (min2_between mn (mx * (1 + - r)) mx
                (max_list (Fin mn)
                   [fmul (_best_selling a)
                      (fsub (Fin 1) (_step_price_slack cfg));
                    fmul (_best_acc_selling a)
                      (fsub (Fin 1) (_acc_price_slack cfg));
                    fmul (dd_value (Fin 0) (_best_opp_selling a) (buyer ami))
                      (fsub (Fin 1) (_opp_price_slack cfg));
                    fmul (dd_value (Fin 0) (_best_opp_acc_selling a)
                            (buyer ami))
                      (fsub (Fin 1) (_opp_acc_price_slack cfg))]))
      as (low & Hlow & Hge & Hle).
    + lra.
    + apply max_list_above. apply fleb_Fin. lra.
    + nra.
    + exists low, mx. eexists. split.
      * f_equal. f_equal. rewrite <- Hlow. reflexivity.
      * lra.
  - destruct Hfit as [Hmn Hmx].
    rewrite price_range_buying by assumption. fold mn mx. rewrite Hrs.
    destruct (max2_between mn (mn * (1 + r)) mx
                (min_list (Fin mx)
                   [fmul (_best_buying a)
                      (fadd (Fin 1) (_step_price_slack cfg));
                    fmul (_best_acc_buying a)
                      (fadd (Fin 1) (_acc_price_slack cfg));
                    fmul (dd_value PInf (_best_opp_buying a) (seller ami))
                      (fadd (Fin 1) (_opp_price_slack cfg));
                    fmul (dd_value PInf (_best_opp_acc_buying a) (seller ami))
                      (fadd (Fin 1) (_opp_acc_price_slack cfg))]))
      as (high & Hhigh & Hge & Hle).
    + lra.
    + apply min_list_below. apply fleb_Fin. lra.
    + nra.
    + exists mn, high. eexists. split.
      * f_equal. f_equal. rewrite <- Hhigh. reflexivity.
      * lra.
Qed.

(** X8. If the slack band fits between the legal prices
    ([legal_min <= legal_max * (1 - range_slack)] on a sale with
    [legal_max >= 0], [legal_min * (1 + range_slack) <= legal_max] on a
    purchase with [legal_min >= 0], for a finite [range_slack >= 0]), the
    interval of [_price_range] lies within the legal prices,
    [legal_min <= low <= high <= legal_max], whatever the memories hold. *)
Theorem price_range_within_legal :
  _range_slack cfg = Fin r ->
  (0 <= r)%R ->
  (if SimpleAgent._is_selling w ami
   then 0 <= mx /\ mn <= mx * (1 - r)
   else 0 <= mn /\ mn * (1 + r) <= mx)%R ->
  exists low high a',
    LearningAgent._price_range cfg w ami a = (Ok (Fin low, Fin high), a')
    /\ (min_value (unit_price_issue ami) <= low)%R
    /\ (low <= high)%R
    /\ (high <= max_value (unit_price_issue ami))%R.
Proof. exact price_range_legal_interval. Qed.

End LegalPrices.

Lemma price_range_within_legal_witness :
  exists low high a',
    LearningAgent._price_range default_config
      (one_negotiation 5 0 (sale_ami "P1" 10 20 11))
      (sale_ami "P1" 10 20 11) new_agent
    = (Ok (Fin low, Fin high), a')
    /\ (10 <= low)%R /\ (low <= high)%R /\ (high <= 20)%R.
Proof.
  apply (price_range_within_legal default_config
           (one_negotiation 5 0 (sale_ami "P1" 10 20 11))
           (sale_ami "P1" 10 20 11) new_agent 0.03).
  - reflexivity.
  - lra.
  - simpl. lra.
Defined.

(** Without that condition the interval leaves the legal prices: with legal
    prices [(10, 10)] on a sale the lower end is [10 * (1 - 0.03) = 9.7]. *)
Example price_range_below_legal_min :
  fst (LearningAgent._price_range default_config
         (one_negotiation 5 0 (sale_ami "P1" 10 10 11))
         (sale_ami "P1" 10 10 11) new_agent)
  = Ok (Fin 9.7, Fin 10).
Proof.
  rewrite price_range_selling by reflexivity.
  simpl. rewrite !dd_value_empty.
  unfold max_list, max2, min2, fgtb. fl_decide.
  do 3 f_equal. lra.
Qed.

(** ** Proposals and acceptances against the interval *)

Lemma threshold_formula_range e (i n : Z) :
  (0 < e)%R -> 2 <= n -> 0 <= i <= n - 1 ->
  (0 <= threshold_formula e i n <= 1)%R.
Proof.
  intros He Hn Hi. unfold threshold_formula. split.
  - apply real_power_nonneg.
  - rewrite <- (real_power_one e). apply real_power_mono; [assumption |].
    apply round_fraction_range; assumption.
Qed.

Lemma th_in_unit_interval cfg (i n : Z) :
  (0 < _e cfg)%R -> 2 <= n -> 0 <= i <= n - 1 ->
  exists t, BetterAgent._th cfg i n = Ok (Num (Fin t)) /\ (0 <= t <= 1)%R.
Proof.
  intros He Hn Hi. eexists. split.
  - apply th_inside_budget; assumption.
  - apply threshold_formula_range; assumption.
Qed.

(** What a passed or failed price test says about the interval and the
    threshold. *)
Lemma is_good_price_inv pr cfg w ami state_step price a good a1 :
  BetterAgent._is_good_price pr cfg w ami state_step price a = (Ok good, a1) ->
  exists low high th,
    pr w ami a = (Ok (low, high), a1)
    /\ BetterAgent._th cfg state_step (n_steps ami) = Ok (Num th)
    /\ good = if SimpleAgent._is_selling w ami
              then fgeb (fsub (Fin price) low) (fmul th (fsub high low))
              else fgeb (fsub high (Fin price)) (fmul th (fsub high low)).
Proof.
  unfold BetterAgent._is_good_price, bind, lift.
  destruct (pr w ami a) as [[[low high] | e] a2]; [| discriminate].
  destruct (BetterAgent._th cfg state_step (n_steps ami)) as [[th |] | e];
    try discriminate.
  destruct (SimpleAgent._is_selling w ami); intros [= <- <-];
    exists low, high, th; repeat split.
Qed.

(** [respond] once the quantity is within the need: the answer is the price
    test. *)
Lemma learning_respond_on_price cfg w negotiator_id state_step offer a ami
    needs low high a1 th :
  get_ami w negotiator_id = Some ami ->
  fst (SimpleAgent._needed w (Some negotiator_id) a) = Ok needs ->
  0 < needs -> quantity offer <= needs ->
  LearningAgent._price_range cfg w ami a = (Ok (low, high), a1) ->
  BetterAgent._th cfg state_step (n_steps ami) = Ok (Num th) ->
  fst (LearningAgent.respond cfg w negotiator_id state_step offer a)
  = Ok (if (if SimpleAgent._is_selling w ami
            then fgeb (fsub (Fin (unit_price offer)) low)
                      (fmul th (fsub high low))
            else fgeb (fsub high (Fin (unit_price offer)))
                      (fmul th (fsub high low)))
        then ACCEPT_OFFER else REJECT_OFFER).
Proof.
  intros Hami Hneeds Hpos Hq Hpr Hth.
  pose proof (better_respond_accepted cfg w negotiator_id state_step
                (LearningAgent._price_range cfg) offer a ami
                (simple_respond_accept w negotiator_id state_step offer a
                   needs Hneeds Hpos Hq) Hami) as Hb.
  rewrite (is_good_price_run _ _ _ _ _ _ _ _ _ _ _ Hpr Hth) in Hb.
  now rewrite (learning_respond_returns _ _ _ _ _ _ _ _ _ Hami Hb).
Qed.

Section Rounds.

Variables (cfg : Config) (w : World) (negotiator_id : string) (ami : AMI)
          (a : Agent).

Let mn : R := min_value (unit_price_issue ami).
Let mx : R := max_value (unit_price_issue ami).

(** X9. In exact arithmetic every proposal is a legal price: with a positive
    need, a round inside a budget of at least two rounds, a positive
    exponent and a slack band that fits between the legal prices, [propose]
    returns an offer whose unit price lies in [[legal_min, legal_max]]. *)
Theorem proposal_within_legal_prices (state_step : Z) (needs : Z) (r : R) :
  get_ami w negotiator_id = Some ami ->
  fst (SimpleAgent._needed w (Some negotiator_id) a) = Ok needs ->
  0 < needs ->
  (0 < _e cfg)%R ->
  2 <= n_steps ami ->
  0 <= state_step <= n_steps ami - 1 ->
  _range_slack cfg = Fin r ->
  (0 <= r)%R ->
  (if SimpleAgent._is_selling w ami
   then 0 <= mx /\ mn <= mx * (1 - r)
   else 0 <= mn /\ mn * (1 + r) <= mx)%R ->
  exists o p,
    fst (LearningAgent.propose cfg w negotiator_id state_step a) = Ok (Some o)
    /\ unit_price o = Num (Fin p)
    /\ (min_value (unit_price_issue ami) <= p
        <= max_value (unit_price_issue ami))%R.
Proof.
  intros Hami Hneeds Hpos He Hn Hstep Hrs Hr Hfit.
  destruct (price_range_legal_interval cfg w ami a r Hrs Hr Hfit)
    as (low & high & a' & Hpr & Hlow & Hlh & Hhigh).
  destruct (th_in_unit_interval cfg state_step (n_steps ami) He Hn Hstep)
    as (t & Hth & Ht).
  rewrite needed_run in Hneeds. injection Hneeds as <-.
  unfold LearningAgent.propose.
  rewrite (propose_returns cfg w negotiator_id state_step _ a ami
             (Fin low) (Fin high) a' (Fin t) Hami Hpos Hpr Hth).
  cbn [fst]. fold mn mx in Hlow, Hhigh.
  destruct (SimpleAgent._is_selling w ami); eexists; eexists;
    (split; [reflexivity |]); cbn [unit_price]; simpl;
    (split; [reflexivity | fold mn mx; nra]).
Qed.

(** X10. In exact arithmetic the target of the first round is the end of the
    interval that favours the agent and the target of the last round the
    end that favours the partner: on a sale [high] then [low], on a purchase
    [low] then [high] (for a finite interval, a positive exponent and a
    budget of at least two rounds; whichever [_price_range] is in force). *)
Theorem targets_of_first_and_last_round pr (low high : R) a' :
  pr w ami a = (Ok (Fin low, Fin high), a') ->
  (0 < _e cfg)%R ->
  2 <= n_steps ami ->
  fst (BetterAgent._find_good_price pr cfg w ami 0 a)
  = Ok (Num (Fin (if SimpleAgent._is_selling w ami then high else low)))
  /\ fst (BetterAgent._find_good_price pr cfg w ami (n_steps ami - 1) a)
     = Ok (Num (Fin (if SimpleAgent._is_selling w ami then low else high))).
Proof.
  intros Hpr He Hn. split.
  - rewrite (find_good_price_run cfg w ami 0 pr a _ _ _ _ Hpr
               (th_first_round cfg _ He Hn)).
    cbn [fst]. destruct (SimpleAgent._is_selling w ami); simpl;
      do 3 f_equal; lra.
  - rewrite (find_good_price_run cfg w ami _ pr a _ _ _ _ Hpr
               (th_last_round cfg _ He Hn)).
    cbn [fst]. destruct (SimpleAgent._is_selling w ami); simpl;
      do 3 f_equal; lra.
Qed.

End Rounds.

Lemma proposal_within_legal_prices_witness :
  exists o p,
    fst (LearningAgent.propose default_config
           (one_negotiation 5 0 (sale_ami "P1" 10 20 11)) "n1" 5 new_agent)
    = Ok (Some o)
    /\ unit_price o = Num (Fin p)
    /\ (10 <= p <= 20)%R.
Proof.
  apply (proposal_within_legal_prices default_config
           (one_negotiation 5 0 (sale_ami "P1" 10 20 11)) "n1"
           (sale_ami "P1" 10 20 11) new_agent 5 5 0.03).
  - reflexivity.
  - reflexivity.
  - lia.
  - simpl. lra.
  - simpl. lia.
  - simpl. lia.
  - reflexivity.
  - lra.
  - simpl. lra.
Defined.

Lemma price_range_fresh_sale :
  exists a',
    LearningAgent._price_range default_config
      (one_negotiation 5 0 (sale_ami "P1" 10 20 11))
      (sale_ami "P1" 10 20 11) new_agent
    = (Ok (Fin 10, Fin 20), a').
Proof.
  eexists. rewrite price_range_selling by reflexivity.
  f_equal. f_equal. simpl. rewrite !dd_value_empty.
  unfold max_list, max2, min2, fgtb. fl_decide.
Qed.

Lemma targets_of_first_and_last_round_witness :
  fst (BetterAgent._find_good_price
         (LearningAgent._price_range default_config) default_config
         (one_negotiation 5 0 (sale_ami "P1" 10 20 11))
         (sale_ami "P1" 10 20 11) 0 new_agent)
  = Ok (Num (Fin 20))
  /\ fst (BetterAgent._find_good_price
            (LearningAgent._price_range default_config) default_config
            (one_negotiation 5 0 (sale_ami "P1" 10 20 11))
            (sale_ami "P1" 10 20 11) 10 new_agent)
     = Ok (Num (Fin 10)).
Proof.
  destruct price_range_fresh_sale as [a' Hpr].
  apply (targets_of_first_and_last_round default_config
           (one_negotiation 5 0 (sale_ami "P1" 10 20 11))
           (sale_ami "P1" 10 20 11) new_agent
           (LearningAgent._price_range default_config) 10 20 a' Hpr).
  - simpl. lra.
  - simpl. lia.
Defined.

Lemma price_test_monotone_selling low t (p p' : R) :
  (p <= p')%R ->
  fgeb (fsub (Fin p) low) t = true -> fgeb (fsub (Fin p') low) t = true.
Proof. unfold fgeb. destruct low, t; intros; fl_decide. Qed.

Lemma price_test_monotone_buying high t (p p' : R) :
  (p' <= p)%R ->
  fgeb (fsub high (Fin p)) t = true -> fgeb (fsub high (Fin p')) t = true.
Proof. unfold fgeb. destruct high, t; intros; fl_decide. Qed.

Section Acceptance.

Variables (cfg : Config) (w : World) (negotiator_id : string) (ami : AMI)
          (state_step : Z) (a : Agent).

(** X11. Acceptance is monotone in the price: if [respond] accepts an offer
    on a sale it accepts every offer of the same quantity at a higher or
    equal price in the same state, and on a purchase at a lower or equal
    price. *)
Theorem acceptance_monotone_in_price (offer better : Outcome R) :
  get_ami w negotiator_id = Some ami ->
  fst (LearningAgent.respond cfg w negotiator_id state_step offer a)
  = Ok ACCEPT_OFFER ->
  quantity better = quantity offer ->
  (if SimpleAgent._is_selling w ami
   then unit_price offer <= unit_price better
   else unit_price better <= unit_price offer)%R ->
  fst (LearningAgent.respond cfg w negotiator_id state_step better a)
  = Ok ACCEPT_OFFER.
Proof.
  intros Hami Hacc Hq Hp.
  destruct (learning_respond_accept_inv cfg w negotiator_id state_step
              offer a Hacc) as (ami' & a1 & Hami' & Hs & Hg).
  rewrite Hami in Hami'. injection Hami' as <-.
  destruct (simple_respond_accept_inv w negotiator_id state_step offer a a Hs)
    as (_ & Hpos & Hle).
  destruct (is_good_price_inv _ _ _ _ _ _ _ _ _ Hg)
    as (low & high & th & Hpr & Hth & Hgood).
  rewrite (learning_respond_on_price cfg w negotiator_id state_step better a
             ami _ low high a1 th Hami (f_equal fst (needed_run w _ a))
             Hpos ltac:(rewrite Hq; exact Hle) Hpr Hth).
  destruct (SimpleAgent._is_selling w ami).
  - now rewrite (price_test_monotone_selling _ _ _ _ Hp (eq_sym Hgood)).
  - now rewrite (price_test_monotone_buying _ _ _ _ Hp (eq_sym Hgood)).
Qed.

(** X12. In exact arithmetic [respond] never accepts a price on the wrong
    side of the interval: for a round inside the budget, a positive exponent
    and an interval [low <= high], an accepted sale has a price [>= low] and
    an accepted purchase a price [<= high]. *)
Theorem accepted_price_inside_interval (offer : Outcome R) (low high : R) :
  get_ami w negotiator_id = Some ami ->
  fst (LearningAgent.respond cfg w negotiator_id state_step offer a)
  = Ok ACCEPT_OFFER ->
  fst (LearningAgent._price_range cfg w ami a) = Ok (Fin low, Fin high) ->
  (low <= high)%R ->
  (0 < _e cfg)%R ->
  2 <= n_steps ami ->
  0 <= state_step <= n_steps ami - 1 ->
  (if SimpleAgent._is_selling w ami
   then low <= unit_price offer
   else unit_price offer <= high)%R.
Proof.
  intros Hami Hacc Hrange Hlh He Hn Hstep.
  destruct (learning_respond_accept_inv cfg w negotiator_id state_step
              offer a Hacc) as (ami' & a1 & Hami' & Hs & Hg).
  rewrite Hami in Hami'. injection Hami' as <-.
  destruct (is_good_price_inv _ _ _ _ _ _ _ _ _ Hg)
    as (low' & high' & th & Hpr & Hth & Hgood).
  rewrite Hpr in Hrange. cbn [fst] in Hrange. injection Hrange as -> ->.
  destruct (th_in_unit_interval cfg state_step (n_steps ami) He Hn Hstep)
    as (t & Hth' & Ht).
  rewrite Hth in Hth'. injection Hth' as ->.
  destruct (SimpleAgent._is_selling w ami); symmetry in Hgood;
    unfold fgeb in Hgood; simpl in Hgood;
    match type of Hgood with
    | (if Rle_dec ?x ?y then _ else _) = _ =>
        destruct (Rle_dec x y); [nra | discriminate]
    end.
Qed.

(** X13. In exact arithmetic, with the quantity within a positive need and a
    finite interval: in the first round [respond] accepts exactly the prices
    that reach the end of the interval that favours the agent ([>= high] on
    a sale, [<= low] on a purchase), and in the last round exactly those
    that reach the other end ([>= low] on a sale, [<= high] on a
    purchase). *)
Theorem acceptance_in_first_and_last_round (offer : Outcome R) (needs : Z)
    (low high : R) :
  get_ami w negotiator_id = Some ami ->
  fst (SimpleAgent._needed w (Some negotiator_id) a) = Ok needs ->
  0 < needs -> quantity offer <= needs ->
  fst (LearningAgent._price_range cfg w ami a) = Ok (Fin low, Fin high) ->
  (0 < _e cfg)%R ->
  2 <= n_steps ami ->
  (fst (LearningAgent.respond cfg w negotiator_id 0 offer a) = Ok ACCEPT_OFFER
   <-> if SimpleAgent._is_selling w ami
       then (high <= unit_price offer)%R
       else (unit_price offer <= low)%R)
  /\ (fst (LearningAgent.respond cfg w negotiator_id (n_steps ami - 1) offer a)
      = Ok ACCEPT_OFFER
      <-> if SimpleAgent._is_selling w ami
          then (low <= unit_price offer)%R
          else (unit_price offer <= high)%R).
Proof.
  intros Hami Hneeds Hpos Hq Hrange He Hn.
  destruct (price_range_returns cfg w ami a) as (l & h & a1 & Hpr & _).
  rewrite Hpr in Hrange. cbn [fst] in Hrange. injection Hrange as -> ->.
  rewrite (learning_respond_on_price cfg w negotiator_id 0 offer a ami needs
             _ _ a1 _ Hami Hneeds Hpos Hq Hpr (th_first_round cfg _ He Hn)).
  rewrite (learning_respond_on_price cfg w negotiator_id _ offer a ami needs
             _ _ a1 _ Hami Hneeds Hpos Hq Hpr (th_last_round cfg _ He Hn)).
  unfold fgeb.
  destruct (SimpleAgent._is_selling w ami); simpl; split;
    match goal with
    | |- context [Rle_dec ?x ?y] =>
        destruct (Rle_dec x y); split; intros H;
          first [reflexivity | discriminate | lra | exfalso; lra]
    end.
Qed.

End Acceptance.

Lemma acceptance_monotone_in_price_witness :
  fst (LearningAgent.respond default_config
         (one_negotiation 5 0 (sale_ami "P1" 10 20 11)) "n1" 0
         (mkOutcome 3 0 25%R) new_agent)
  = Ok ACCEPT_OFFER.
Proof.
  apply (acceptance_monotone_in_price default_config
           (one_negotiation 5 0 (sale_ami "P1" 10 20 11)) "n1"
           (sale_ami "P1" 10 20 11) 0 new_agent
           (mkOutcome 3 0 20%R) (mkOutcome 3 0 25%R)).
  - reflexivity.
  - exact offer_at_target_accepted_first_round.
  - reflexivity.
  - simpl. lra.
Defined.

Lemma accepted_price_inside_interval_witness : (10 <= 20)%R.
Proof.
  destruct price_range_fresh_sale as [a' Hpr].
  apply (accepted_price_inside_interval default_config
           (one_negotiation 5 0 (sale_ami "P1" 10 20 11)) "n1"
           (sale_ami "P1" 10 20 11) 0 new_agent
           (mkOutcome 3 0 20%R) 10 20).
  - reflexivity.
  - exact offer_at_target_accepted_first_round.
  - now rewrite Hpr.
  - lra.
  - simpl. lra.
  - simpl. lia.
  - simpl. lia.
Defined.

Lemma acceptance_in_first_and_last_round_witness :
  fst (LearningAgent.respond default_config
         (one_negotiation 5 0 (sale_ami "P1" 10 20 11)) "n1" 10
         (mkOutcome 3 0 12%R) new_agent)
  = Ok ACCEPT_OFFER.
Proof.
  destruct price_range_fresh_sale as [a' Hpr].
  apply (proj2 (acceptance_in_first_and_last_round default_config
                  (one_negotiation 5 0 (sale_ami "P1" 10 20 11)) "n1"
                  (sale_ami "P1" 10 20 11) new_agent
                  (mkOutcome 3 0 12%R) 5 10 20
                  eq_refl eq_refl eq_refl ltac:(simpl; lia)
                  ltac:(now rewrite Hpr) ltac:(simpl; lra)
                  ltac:(simpl; lia))).
  simpl. lra.
Defined.

(** ** [AdaptiveAgent]: the best price seen limits what is accepted *)

Lemma adaptive_price_range_run w ami a :
  AdaptiveAgent._price_range w ami a
  = (Ok (if SimpleAgent._is_selling w ami
         then (max2 (Fin (min_value (unit_price_issue ami))) (_best_selling a),
               Fin (max_value (unit_price_issue ami)))
         else (Fin (min_value (unit_price_issue ami)),
               min2 (Fin (max_value (unit_price_issue ami))) (_best_buying a))),
     a).
Proof.
  unfold AdaptiveAgent._price_range, BetterAgent._price_range, bind, ret, read.
  now destruct (SimpleAgent._is_selling w ami).
Qed.

Lemma adaptive_respond_accept_inv pr cfg w negotiator_id state_step offer a :
  fst (AdaptiveAgent.respond pr cfg w negotiator_id state_step offer a)
  = Ok ACCEPT_OFFER ->
  exists ami a1,
    get_ami w negotiator_id = Some ami
    /\ SimpleAgent.respond w negotiator_id state_step offer a
       = (Ok ACCEPT_OFFER, a)
    /\ BetterAgent._is_good_price pr cfg w ami state_step (unit_price offer) a
       = (Ok true, a1).
Proof.
  intros Hr. unfold AdaptiveAgent.respond in Hr.
  destruct (BetterAgent.respond pr cfg w negotiator_id state_step offer a)
    as [[r | e] a1] eqn:Hb.
  - rewrite (bind_ok _ _ _ _ _ Hb) in Hr.
    unfold the_ami in Hr.
    destruct (get_ami w negotiator_id) as [ami |] eqn:Hami;
      [| discriminate].
    unfold bind at 1 in Hr. unfold ret at 1 in Hr.
    assert (r = ACCEPT_OFFER) as ->.
    { destruct (SimpleAgent._is_selling w ami); simpl in Hr;
        now injection Hr. }
    destruct (better_respond_accept_inv cfg w negotiator_id state_step pr
                offer a a1 Hb) as (Hs & ami' & Hami' & Hg).
    rewrite Hami in Hami'. injection Hami' as <-.
    exists ami, a1. repeat split; assumption.
  - rewrite (bind_raise _ _ _ _ _ Hb) in Hr. discriminate.
Qed.

Section Adaptive.

Variables (cfg : Config) (w : World) (negotiator_id : string) (ami : AMI)
          (state_step : Z) (offer : Outcome R) (a : Agent).

Let mn : R := min_value (unit_price_issue ami).
Let mx : R := max_value (unit_price_issue ami).

(** X14. In exact arithmetic an [AdaptiveAgent] never accepts a price worse
    than the best it has been offered in the period: for a round inside the
    budget, a positive exponent, legal prices [legal_min <= legal_max] and a
    best price seen within them, an accepted sale has a price that is at
    least [legal_min] and at least [_best_selling], and an accepted purchase
    a price that is at most [legal_max] and at most [_best_buying]. *)
Theorem adaptive_accepts_no_worse_than_seen :
  get_ami w negotiator_id = Some ami ->
  fst (AdaptiveAgent.respond AdaptiveAgent._price_range cfg w negotiator_id
         state_step offer a) = Ok ACCEPT_OFFER ->
  (0 < _e cfg)%R ->
  2 <= n_steps ami ->
  0 <= state_step <= n_steps ami - 1 ->
  (mn <= mx)%R ->
  (if SimpleAgent._is_selling w ami
   then fleb (_best_selling a) (Fin mx) = true
   else fleb (Fin mn) (_best_buying a) = true) ->
  if SimpleAgent._is_selling w ami
  then (mn <= unit_price offer)%R
       /\ fleb (_best_selling a) (Fin (unit_price offer)) = true
  else (unit_price offer <= mx)%R
       /\ fleb (Fin (unit_price offer)) (_best_buying a) = true.
Proof.
  intros Hami Hacc He Hn Hstep Hlegal Hseen.
  destruct (adaptive_respond_accept_inv _ _ _ _ _ _ _ Hacc)
    as (ami' & a1 & Hami' & _ & Hg).
  rewrite Hami in Hami'. injection Hami' as <-.
  destruct (is_good_price_inv _ _ _ _ _ _ _ _ _ Hg)
    as (low & high & th & Hpr & Hth & Hgood).
  rewrite adaptive_price_range_run in Hpr.
  destruct (th_in_unit_interval cfg state_step (n_steps ami) He Hn Hstep)
    as (t & Hth' & Ht).
  rewrite Hth in Hth'. injection Hth' as ->.
  fold mn mx in Hpr.
  destruct (SimpleAgent._is_selling w ami); injection Hpr as <- <- _;
    symmetry in Hgood; unfold fgeb in Hgood.
  - destruct (max2_between mn mn mx (_best_selling a))
      as (l & Hl & Hge & Hle); [assumption | assumption | lra |].
    assert (Hbest : fleb (_best_selling a) (Fin l) = true).
    { rewrite <- Hl. apply max2_ge_old.
      intros E. rewrite E in Hseen. discriminate. }
    rewrite Hl in Hgood. simpl in Hgood.
    match type of Hgood with
    | (if Rle_dec ?x ?y then _ else _) = _ =>
        destruct (Rle_dec x y) as [Hxy |]; [| discriminate]
    end.
    assert (Hp : (l <= unit_price offer)%R) by nra.
    split; [lra |].
    eapply fleb_trans; [exact Hbest | now apply fleb_Fin].
  - destruct (min2_between mn mx mx (_best_buying a))
      as (h & Hh & Hge & Hle); [assumption | assumption | lra |].
    assert (Hbest : fleb (Fin h) (_best_buying a) = true).
    { rewrite <- Hh. apply min2_le_old.
      intros E. rewrite E in Hseen. discriminate. }
    rewrite Hh in Hgood. simpl in Hgood.
    match type of Hgood with
    | (if Rle_dec ?x ?y then _ else _) = _ =>
        destruct (Rle_dec x y) as [Hxy |]; [| discriminate]
    end.
    assert (Hp : (unit_price offer <= h)%R) by nra.
    split; [lra |].
    eapply fleb_trans; [apply fleb_Fin; exact Hp | exact Hbest].
Qed.

End Adaptive.

Lemma adaptive_accepts_first_round :
  fst (AdaptiveAgent.respond AdaptiveAgent._price_range default_config
         (one_negotiation 5 0 (sale_ami "P1" 10 20 11)) "n1" 0
         (mkOutcome 3 0 20%R) new_agent)
  = Ok ACCEPT_OFFER.
Proof.
  assert (Hpr : AdaptiveAgent._price_range
                  (one_negotiation 5 0 (sale_ami "P1" 10 20 11))
                  (sale_ami "P1" 10 20 11) new_agent
                = (Ok (Fin 10, Fin 20), new_agent)).
  { rewrite adaptive_price_range_run. simpl. unfold max2, fgtb. fl_decide. }
  pose proof (better_respond_accepted default_config
                (one_negotiation 5 0 (sale_ami "P1" 10 20 11)) "n1" 0
                AdaptiveAgent._price_range (mkOutcome 3 0 20%R) new_agent
                (sale_ami "P1" 10 20 11) eq_refl eq_refl) as Hb.
  rewrite (is_good_price_run default_config _ _ 0 AdaptiveAgent._price_range
             _ new_agent _ _ new_agent (Fin 1) Hpr) in Hb.
  2: { apply th_first_round; [simpl; lra | simpl; lia]. }
  rewrite (adaptive_respond_returns default_config
             (one_negotiation 5 0 (sale_ami "P1" 10 20 11)) "n1" 0 _ _ _
             (sale_ami "P1" 10 20 11) _ _ eq_refl Hb).
  cbn [fst]. simpl. unfold fgeb. fl_decide.
Qed.

Lemma adaptive_accepts_no_worse_than_seen_witness :
  (10 <= 20)%R /\ fleb (_best_selling new_agent) (Fin 20) = true.
Proof.
  apply (adaptive_accepts_no_worse_than_seen default_config
           (one_negotiation 5 0 (sale_ami "P1" 10 20 11)) "n1"
           (sale_ami "P1" 10 20 11) 0 (mkOutcome 3 0 20%R) new_agent).
  - reflexivity.
  - exact adaptive_accepts_first_round.
  - simpl. lra.
  - simpl. lia.
  - simpl. lia.
  - simpl. lra.
  - simpl. fl_decide.
Defined.

(** * Further properties of the reputation filter *)

(** ** Sums of breach levels *)

Lemma fold_left_Rplus (l : list R) (acc : R) :
  fold_left Rplus l acc = (acc + fold_left Rplus l 0)%R.
Proof.
  revert acc. induction l as [| x l IH]; intros acc; cbn [fold_left].
  - lra.
  - rewrite IH, (IH (0 + x)%R). lra.
Qed.

Lemma py_sum_cons x l :
  E3BIUagent.py_sum (x :: l) = (x + E3BIUagent.py_sum l)%R.
Proof.
  unfold E3BIUagent.py_sum. cbn [fold_left]. rewrite fold_left_Rplus. lra.
Qed.

Lemma py_sum_nonneg l :
  Forall (fun x => 0 <= x)%R l -> (0 <= E3BIUagent.py_sum l)%R.
Proof.
  induction 1 as [| x l Hx _ IH].
  - unfold E3BIUagent.py_sum. simpl. lra.
  - rewrite py_sum_cons. lra.
Qed.

Lemma py_sum_positive_iff l :
  Forall (fun x => 0 <= x)%R l ->
  (0 < E3BIUagent.py_sum l)%R <-> exists x, In x l /\ (0 < x)%R.
Proof.
  induction 1 as [| x l Hx Hl IH].
  - unfold E3BIUagent.py_sum. simpl. split; [lra | intros (x & [] & _)].
  - rewrite py_sum_cons. split.
    + intros Hsum. destruct (Rlt_dec 0 x) as [Hpos | Hzero].
      * exists x. split; [now left | assumption].
      * destruct (proj1 IH) as (y & Hy & Hypos); [lra |].
        exists y. split; [now right | assumption].
    + intros (y & [<- | Hy] & Hypos).
      * pose proof (py_sum_nonneg l Hl). lra.
      * pose proof (proj2 IH (ex_intro _ y (conj Hy Hypos))). lra.
Qed.

Lemma skipn_In {A} (n : nat) (l : list A) x : In x (skipn n l) -> In x l.
Proof.
  intros Hx. rewrite <- (firstn_skipn n l). apply in_or_app. now right.
Qed.

Lemma last_n_In {A} (n m : nat) (l : list A) x :
  (n <= m)%nat -> In x (last_n n l) -> In x (last_n m l).
Proof.
  unfold last_n. intros Hnm Hx.
  replace (length l - n)%nat
    with ((length l - n - (length l - m)) + (length l - m))%nat in Hx by lia.
  rewrite <- skipn_skipn in Hx.
  eapply skipn_In. exact Hx.
Qed.

Lemma last_n_nonneg (n : nat) (l : list R) :
  Forall (fun x => 0 <= x)%R l -> Forall (fun x => 0 <= x)%R (last_n n l).
Proof.
  intros Hl. apply List.Forall_forall. intros x Hx.
  apply (proj1 (List.Forall_forall _ _) Hl). unfold last_n in Hx.
  eapply skipn_In. exact Hx.
Qed.

Lemma is_breached_last w agent_id reports (n : Z) :
  E3BIUagent.reports_of_agent w agent_id = Some reports ->
  0 < n ->
  E3BIUagent.is_breached_last_n_steps w agent_id n
  = if Rlt_dec 0 (E3BIUagent.py_sum
                    (last_n (Z.to_nat n) (breach_levels_of reports)))
    then true else false.
Proof.
  intros Hreports Hn. unfold E3BIUagent.is_breached_last_n_steps.
  rewrite Hreports. fold (breach_levels_of reports).
  rewrite <- (py_slice_from_last (Z.to_nat n)) by lia.
  now rewrite Z2Nat.id by lia.
Qed.

Section BreachWindow.

Variables (w : E3BIUagent.World) (agent_id : string)
          (reports : list (Z * E3BIUagent.FinancialReport)).

Hypothesis Hreports : E3BIUagent.reports_of_agent w agent_id = Some reports.
Hypothesis Hlevels : Forall (fun x => 0 <= x)%R (breach_levels_of reports).

Lemma is_breached_iff (n : Z) :
  0 < n ->
  E3BIUagent.is_breached_last_n_steps w agent_id n = true
  <-> exists x,
        In x (last_n (Z.to_nat n) (breach_levels_of reports)) /\ (0 < x)%R.
Proof.
  intros Hn. rewrite (is_breached_last w agent_id reports n Hreports Hn).
  rewrite <- py_sum_positive_iff by (apply last_n_nonneg; exact Hlevels).
  destruct (Rlt_dec 0 _); split; (easy || intros; exfalso; auto).
Qed.

(** X15. With breach levels that are not negative, the breach test over the
    last [n > 0] reports is true exactly when one of the last [n] reports
    has a positive breach level. *)
Theorem breached_iff_positive_report (n : Z) :
  0 < n ->
  E3BIUagent.is_breached_last_n_steps w agent_id n = true
  <-> exists x,
        In x (last_n (Z.to_nat n) (breach_levels_of reports)) /\ (0 < x)%R.
Proof. exact (is_breached_iff n). Qed.

(** X16. With breach levels that are not negative, a longer window catches
    whatever a shorter one catches: a partner breached over the last [n]
    reports is breached over the last [m >= n]. So every partner that
    [start_negotiations] leaves out (window 20) is also declined by
    [respond_to_negotiation_request] (window 25). *)
Theorem breach_window_inclusion (n m : Z) :
  0 < n -> n <= m ->
  E3BIUagent.is_breached_last_n_steps w agent_id n = true ->
  E3BIUagent.is_breached_last_n_steps w agent_id m = true.
Proof.
  intros Hn Hnm Hb.
  apply is_breached_iff; [lia |].
  apply is_breached_iff in Hb as (x & Hx & Hpos); [| assumption].
  exists x. split; [| assumption].
  eapply last_n_In; [| exact Hx]. lia.
Qed.

End BreachWindow.

Lemma breach_world_levels :
  Forall (fun x => 0 <= x)%R
    (breach_levels_of [(0, E3BIUagent.mkReport 0); (1, E3BIUagent.mkReport 0.5)]).
Proof. repeat constructor; simpl; lra. Qed.

Lemma breached_iff_positive_report_witness :
  E3BIUagent.is_breached_last_n_steps breach_world "B1" 20 = true.
Proof.
  apply (proj2 (breached_iff_positive_report breach_world "B1"
                  [(0, E3BIUagent.mkReport 0); (1, E3BIUagent.mkReport 0.5)]
                  eq_refl breach_world_levels 20 ltac:(lia))).
  exists 0.5%R. split; [simpl; auto | lra].
Defined.

Lemma breach_window_inclusion_witness :
  E3BIUagent.is_breached_last_n_steps breach_world "B1" 25 = true.
Proof.
  apply (breach_window_inclusion breach_world "B1"
           [(0, E3BIUagent.mkReport 0); (1, E3BIUagent.mkReport 0.5)]
           eq_refl breach_world_levels 20 25); [lia | lia |].
  apply (is_breached_iff breach_world "B1" _ eq_refl breach_world_levels 20);
    [lia |].
  exists 0.5%R. split; [simpl; auto | lra].
Defined.

(** ** Partner types *)

Lemma any_of_my_type_true w names :
  E3BIUagent.any_of_my_type w names = Ok true
  <-> exists before name rest,
        names = before ++ name :: rest
        /\ E3BIUagent.get_agent_type w name = Ok (E3BIUagent.type_name w)
        /\ Forall (fun x => exists t, E3BIUagent.get_agent_type w x = Ok t)
             before.
Proof.
  induction names as [| n names IH]; cbn [E3BIUagent.any_of_my_type].
  - split; [discriminate |].
    intros (before & name & rest & H & _). now destruct before.
  - unfold E3BIUagent.obind.
    destruct (E3BIUagent.get_agent_type w n) as [t | e] eqn:Ht.
    + destruct (String.eqb_spec t (E3BIUagent.type_name w)) as [-> | Hne].
      * split; [| reflexivity]. intros _.
        exists [], n, names. repeat split; [assumption | constructor].
      * rewrite IH. split.
        -- intros (before & name & rest & -> & Hname & Hbefore).
           exists (n :: before), name, rest. repeat split; try assumption.
           constructor; [now exists t | assumption].
        -- intros (before & name & rest & Heq & Hname & Hbefore).
           destruct before as [| b before]; simpl in Heq;
             injection Heq as <- ->.
           ++ rewrite Ht in Hname. now injection Hname.
           ++ exists before, name, rest. repeat split; try assumption.
              now inversion Hbefore.
    + split; [discriminate |].
      intros (before & name & rest & Heq & Hname & Hbefore).
      destruct before as [| b before]; simpl in Heq; injection Heq as <- ->.
      * rewrite Ht in Hname. discriminate.
      * inversion Hbefore as [| ? ? [t' Ht'] _]. rewrite Ht in Ht'.
        discriminate.
Qed.

(** X17. [is_agent_unique] answers [True] exactly when, going through the
    consumers (for [is_buy]) or the suppliers (otherwise) in order, a partner
    of the agent's own type is reached before any partner whose type lookup
    fails. *)
Theorem agent_unique_iff_same_type_partner w (is_buy : bool) :
  E3BIUagent.is_agent_unique w is_buy = Ok true
  <-> exists before name rest,
        (if is_buy then E3BIUagent.my_consumers w
         else E3BIUagent.my_suppliers w)
        = before ++ name :: rest
        /\ E3BIUagent.get_agent_type w name = Ok (E3BIUagent.type_name w)
        /\ Forall (fun x => exists t, E3BIUagent.get_agent_type w x = Ok t)
             before.
Proof.
  unfold E3BIUagent.is_agent_unique.
  destruct is_buy; apply any_of_my_type_true.
Qed.

Section Acceptance49.

Variables Negotiator Issues Mechanism : Type.
Variable super_respond_to_negotiation_request :
  string -> Issues -> E3BIUagent.Annotation -> Mechanism
  -> outcome (option Negotiator).
Variables (w : E3BIUagent.World) (initiator : string) (issues : Issues)
          (annotation : E3BIUagent.Annotation) (mechanism : Mechanism).

(** X18. Whenever [respond_to_negotiation_request] returns a negotiator, it
    is the one the parent class returned, the counterpart is not breached
    over its last 25 reports, and either no partner of the agent's own type
    was found on that side or the counterpart is of the agent's own type. *)
Theorem accepted_request_conditions (negotiator : Negotiator) :
  E3BIUagent.respond_to_negotiation_request Negotiator Issues Mechanism
    super_respond_to_negotiation_request w initiator issues annotation
    mechanism
  = Ok (Some negotiator) ->
  super_respond_to_negotiation_request initiator issues annotation mechanism
  = Ok (Some negotiator)
  /\ E3BIUagent.is_breached_last_n_steps w (counterpart annotation) 25 = false
  /\ (E3BIUagent.is_agent_unique w (E3BIUagent.is_buy annotation) = Ok false
      \/ E3BIUagent.get_agent_type w (counterpart annotation)
         = Ok (E3BIUagent.type_name w)).
Proof.
  unfold E3BIUagent.respond_to_negotiation_request.
  fold (counterpart annotation).
  destruct (E3BIUagent.is_breached_last_n_steps w (counterpart annotation) 25);
    [discriminate |].
  unfold E3BIUagent.obind.
  destruct (E3BIUagent.is_agent_unique w (E3BIUagent.is_buy annotation))
    as [[|] | e]; try discriminate.
  - destruct (E3BIUagent.get_agent_type w (counterpart annotation))
      as [t | e]; [| discriminate].
    destruct (String.eqb_spec t (E3BIUagent.type_name w)) as [-> | Hne];
      simpl; [| discriminate].
    intros H. repeat split; auto.
  - intros H. repeat split; auto.
Qed.

End Acceptance49.

(** [C1], of the agent's own type and without reports, asks to buy. *)
Lemma accepted_request_conditions_witness :
  (fun _ _ _ _ => Ok (Some tt)) "C1"%string tt
    (E3BIUagent.mkAnnotation "C1" "me" true) tt
  = Ok (Some tt)
  /\ E3BIUagent.is_breached_last_n_steps type_world
       (counterpart (E3BIUagent.mkAnnotation "C1" "me" true)) 25 = false
  /\ (E3BIUagent.is_agent_unique type_world true = Ok false
      \/ E3BIUagent.get_agent_type type_world
           (counterpart (E3BIUagent.mkAnnotation "C1" "me" true))
         = Ok (E3BIUagent.type_name type_world)).
Proof.
  apply (accepted_request_conditions unit unit unit
           (fun _ _ _ _ => Ok (Some tt)) type_world "C1" tt
           (E3BIUagent.mkAnnotation "C1" "me" true) tt tt).
  vm_compute. reflexivity.
Defined.

(** ** [start_negotiations] *)

Lemma not_breached_spec w partners :
  Forall (fun p => In p partners
                   /\ E3BIUagent.is_breached_last_n_steps w p 20 = false)
    (E3BIUagent.not_breached w partners).
Proof.
  apply List.Forall_forall. intros p Hp.
  unfold E3BIUagent.not_breached in Hp. apply filter_In in Hp as [Hin Hb].
  split; [assumption |]. now apply negb_true_iff.
Qed.

Lemma of_my_type_spec w partners kept :
  E3BIUagent.of_my_type w partners = Ok kept ->
  Forall (fun p => In p partners
                   /\ E3BIUagent.get_agent_type w p
                      = Ok (E3BIUagent.type_name w))
    kept.
Proof.
  revert kept. induction partners as [| p partners IH]; intros kept;
    cbn [E3BIUagent.of_my_type].
  - intros [= <-]. constructor.
  - unfold E3BIUagent.obind.
    destruct (E3BIUagent.get_agent_type w p) as [t | e] eqn:Ht;
      [| discriminate].
    destruct (E3BIUagent.of_my_type w partners) as [kept' | e];
      [| discriminate].
    specialize (IH kept' eq_refl).
    assert (Hrest : Forall (fun q => In q (p :: partners)
                                     /\ E3BIUagent.get_agent_type w q
                                        = Ok (E3BIUagent.type_name w)) kept').
    { eapply List.Forall_impl; [| exact IH]. intros q [Hq Hty].
      split; [now right | assumption]. }
    destruct (String.eqb_spec t (E3BIUagent.type_name w)) as [-> | Hne];
      intros [= <-]; [| exact Hrest].
    constructor; [| exact Hrest]. split; [now left | assumption].
Qed.

Section StartNegotiations.

Variable Started : Type.
Variable _trange : Z -> bool -> outcome (Z * Z).
Variable _urange : Z -> bool -> Z * Z -> outcome (Z * Z).
Variable super_start_negotiations :
  Z -> bool -> Z -> Z * Z -> Z * Z -> Z * Z -> list string -> outcome Started.
Variables (w : E3BIUagent.World) (c : E3BIUagent.Clock)
          (product quantity unit_price step : Z)
          (partners : option (list string)).

Let is_seller : bool := Z.eqb product (E3BIUagent.my_output_product c).
Let candidates : list string :=
  match partners with
  | Some partners => partners
  | None => if is_seller then E3BIUagent.my_consumers w
            else E3BIUagent.my_suppliers w
  end.

(** X19. Whenever [start_negotiations] hands negotiations to the parent
    class, the quantity and the unit price are at least [1], the step is
    after the current one, the time range is not empty, the quantity range
    is [(1, quantity)], and every partner handed on is one of the candidates
    (the given partners, or by default the consumers of a seller and the
    suppliers of a buyer) that is not breached over its last 20 reports and,
    if a partner of the agent's own type exists on that side, is of the
    agent's own type. *)
Theorem started_negotiations_conditions (result : Started) :
  E3BIUagent.start_negotiations Started _trange _urange
    super_start_negotiations w c product quantity unit_price step partners
  = Ok (Some result) ->
  1 <= quantity
  /\ 1 <= unit_price
  /\ E3BIUagent.current_step c < step
  /\ exists t_val u_val handed,
       _trange step is_seller = Ok t_val
       /\ _urange step is_seller t_val = Ok u_val
       /\ fst t_val <= snd t_val
       /\ super_start_negotiations product is_seller step (1, quantity)
            u_val t_val handed = Ok result
       /\ Forall (fun p =>
                    In p candidates
                    /\ E3BIUagent.is_breached_last_n_steps w p 20 = false)
            handed
       /\ (E3BIUagent.is_agent_unique w is_seller = Ok true ->
           Forall (fun p => E3BIUagent.get_agent_type w p
                            = Ok (E3BIUagent.type_name w))
             handed).
Proof.
  unfold E3BIUagent.start_negotiations. fold is_seller.
  destruct (Z.ltb_spec quantity 1); [discriminate |].
  destruct (Z.ltb_spec unit_price 1); [discriminate |].
  destruct (Z.ltb_spec step (E3BIUagent.current_step c + 1));
    [discriminate |].
  cbn [orb]. unfold E3BIUagent.obind.
  destruct (_trange step is_seller) as [t_val | e] eqn:Ht; [| discriminate].
  destruct (_urange step is_seller t_val) as [u_val | e] eqn:Hu;
    [| discriminate].
  destruct (Z.ltb_spec (snd t_val) (fst t_val)); [discriminate |].
  fold candidates.
  destruct (E3BIUagent.is_agent_unique w is_seller) as [unique | e];
    [| discriminate].
  pose proof (not_breached_spec w candidates) as Hnb.
  destruct unique.
  - destruct (E3BIUagent.of_my_type w (E3BIUagent.not_breached w candidates))
      as [handed | e] eqn:Hmy; [| discriminate].
    destruct (super_start_negotiations product is_seller step (1, quantity)
                u_val t_val handed) as [r | e] eqn:Hsuper; [| discriminate].
    intros [= <-].
    pose proof (of_my_type_spec w _ _ Hmy) as Hall.
    split; [lia |]. split; [lia |]. split; [lia |].
    exists t_val, u_val, handed.
    split; [reflexivity |]. split; [exact Hu |]. split; [assumption |].
    split; [exact Hsuper |]. split.
    + apply List.Forall_forall. intros p Hp.
      apply (proj1 (List.Forall_forall _ _) Hall) in Hp as [Hin _].
      exact (proj1 (List.Forall_forall _ _) Hnb p Hin).
    + intros _. eapply List.Forall_impl; [| exact Hall]. now intros p [_ Hp].
  - destruct (super_start_negotiations product is_seller step (1, quantity)
                u_val t_val (E3BIUagent.not_breached w candidates))
      as [r | e] eqn:Hsuper; [| discriminate].
    intros [= <-].
    split; [lia |]. split; [lia |]. split; [lia |].
    exists t_val, u_val, (E3BIUagent.not_breached w candidates).
    split; [reflexivity |]. split; [exact Hu |]. split; [assumption |].
    split; [exact Hsuper |]. split; [exact Hnb | discriminate].
Qed.

End StartNegotiations.

(** A seller at step [3] starts negotiations for step [4] with its
    consumers: of [C1] and [C2] only [C1], of the agent's own type, is
    handed on. *)
Lemma started_negotiations_example :
  E3BIUagent.start_negotiations (list string)
    (fun s _ => Ok (s, s + 2)) (fun _ _ _ => Ok (1, 10))
    (fun _ _ _ _ _ _ handed => Ok handed)
    type_world (E3BIUagent.mkClock 1 3) 1 5 7 4 None
  = Ok (Some ["C1"%string]).
Proof. vm_compute. reflexivity. Qed.

Lemma started_negotiations_conditions_witness :
  1 <= 5 /\ 1 <= 7 /\ 3 < 4.
Proof.
  destruct (started_negotiations_conditions (list string)
              (fun s _ => Ok (s, s + 2)) (fun _ _ _ => Ok (1, 10))
              (fun _ _ _ _ _ _ handed => Ok handed)
              type_world (E3BIUagent.mkClock 1 3) 1 5 7 4 None
              ["C1"%string] started_negotiations_example)
    as (Hq & Hu & Hs & _).
  repeat split; assumption.
Defined.

(** ** [target_quantities] *)

Lemma wrap_int64_small z :
  - 2 ^ 63 <= z < 2 ^ 63 -> E3BIUagent.wrap_int64 z = z.
Proof.
  intros Hz. unfold E3BIUagent.wrap_int64.
  rewrite Z.mod_small by lia. lia.
Qed.

Lemma py_slice_inside {A} (start stop : Z) (l : list A) :
  0 <= start <= stop -> stop <= Z.of_nat (length l) ->
  E3BIUagent.py_slice start stop l
  = firstn (Z.to_nat (stop - start)) (skipn (Z.to_nat start) l).
Proof.
  intros Hs Hl. unfold E3BIUagent.py_slice, E3BIUagent.py_index_clip.
  destruct (Z.ltb_spec start 0); [lia |].
  destruct (Z.ltb_spec stop 0); [lia |].
  now rewrite !Z.min_l by lia.
Qed.

Lemma np_subtract_elementwise (x y : list Z) :
  length x = length y ->
  Forall (fun v => 0 <= v < 2 ^ 62) x ->
  Forall (fun v => 0 <= v < 2 ^ 62) y ->
  exists l,
    E3BIUagent.np_subtract x y = E3BIUagent.NpArray l
    /\ length l = length x
    /\ forall i, (i < length x)%nat -> nth i l 0 = nth i x 0 - nth i y 0.
Proof.
  intros Hlen Hx Hy. unfold E3BIUagent.np_subtract.
  rewrite Hlen, Nat.eqb_refl. eexists. split; [reflexivity |]. split.
  - rewrite length_map, length_combine. lia.
  - intros i Hi.
    change 0 with (E3BIUagent.wrap_int64 (fst (0, 0) - snd (0, 0))) at 1.
    rewrite (map_nth (fun p => E3BIUagent.wrap_int64 (fst p - snd p))).
    rewrite combine_nth by assumption. cbn [fst snd].
    apply wrap_int64_small.
    assert (Hxi : 0 <= nth i x 0 < 2 ^ 62).
    { apply (proj1 (List.Forall_forall _ _) Hx). apply nth_In. lia. }
    assert (Hyi : 0 <= nth i y 0 < 2 ^ 62).
    { apply (proj1 (List.Forall_forall _ _) Hy). apply nth_In. lia. }
    lia.
Qed.

Lemma slice_values {A} (P : A -> Prop) n m (l : list A) :
  Forall P l -> Forall P (firstn n (skipn m l)).
Proof.
  intros Hl. apply List.Forall_forall. intros x Hx.
  apply (proj1 (List.Forall_forall _ _) Hl).
  apply (skipn_In m). rewrite <- (firstn_skipn n (skipn m l)).
  apply in_or_app. now left.
Qed.

Section TargetQuantities.

Variables (s : E3BIUagent.Strategy) (sell : bool) (first last : Z).

Let needed : list Z :=
  if sell then E3BIUagent.outputs_needed s else E3BIUagent.inputs_needed s.
Let secured : list Z :=
  if sell then E3BIUagent.outputs_secured s else E3BIUagent.inputs_secured s.

(** X20. For arrays of one length, a range of steps [0 <= first <= last]
    inside them and quantities in [[0, 2^62)], [target_quantities] returns
    an array with one item per step of the range, the item of step
    [first + i] being what is needed minus what is secured at that step (of
    the outputs when selling, of the inputs otherwise); it can be
    negative. *)
Theorem target_quantities_elementwise :
  length needed = length secured ->
  0 <= first <= last ->
  last <= Z.of_nat (length needed) ->
  Forall (fun v => 0 <= v < 2 ^ 62) needed ->
  Forall (fun v => 0 <= v < 2 ^ 62) secured ->
  exists l,
    E3BIUagent.target_quantities s (first, last) sell = E3BIUagent.NpArray l
    /\ Z.of_nat (length l) = last - first
    /\ forall i, (i < length l)%nat ->
         nth i l 0
         = nth (Z.to_nat first + i) needed 0
           - nth (Z.to_nat first + i) secured 0.
Proof.
  intros Hlen Hfl Hlast Hn Hs.
  assert (Hslice : length (firstn (Z.to_nat (last - first))
                             (skipn (Z.to_nat first) needed))
                   = Z.to_nat (last - first)).
  { rewrite length_firstn, length_skipn. lia. }
  assert (Hslice' : length (firstn (Z.to_nat (last - first))
                              (skipn (Z.to_nat first) secured))
                    = Z.to_nat (last - first)).
  { rewrite length_firstn, length_skipn. lia. }
  destruct (np_subtract_elementwise
              (firstn (Z.to_nat (last - first)) (skipn (Z.to_nat first) needed))
              (firstn (Z.to_nat (last - first))
                 (skipn (Z.to_nat first) secured)))
    as (l & Hl & Hlen_l & Hnth).
  - congruence.
  - now apply slice_values.
  - now apply slice_values.
  - exists l. split; [| split].
    + unfold E3BIUagent.target_quantities. cbn [fst snd].
      replace (if sell
               then (E3BIUagent.outputs_needed s, E3BIUagent.outputs_secured s)
               else (E3BIUagent.inputs_needed s, E3BIUagent.inputs_secured s))
        with (needed, secured) by (subst needed secured; now destruct sell).
      rewrite !py_slice_inside by lia. exact Hl.
    + rewrite Hlen_l, Hslice. lia.
    + intros i Hi. rewrite Hlen_l, Hslice in Hi.
      rewrite Hnth by (rewrite Hslice; exact Hi).
      rewrite !nth_firstn.
      destruct (Nat.ltb_spec i (Z.to_nat (last - first))); [| lia].
      now rewrite !nth_skipn.
Qed.

End TargetQuantities.

Lemma target_quantities_elementwise_witness :
  exists l,
    E3BIUagent.target_quantities
      (E3BIUagent.mkStrategy [5; 6; 7; 8] [1; 6; 9; 0] [] []) (1, 3) true
    = E3BIUagent.NpArray l
    /\ Z.of_nat (length l) = 3 - 1
    /\ forall i, (i < length l)%nat ->
         nth i l 0
         = nth (Z.to_nat 1 + i) [5; 6; 7; 8] 0
           - nth (Z.to_nat 1 + i) [1; 6; 9; 0] 0.
Proof.
  apply (target_quantities_elementwise
           (E3BIUagent.mkStrategy [5; 6; 7; 8] [1; 6; 9; 0] [] []) true 1 3).
  - reflexivity.
  - lia.
  - simpl. lia.
  - repeat constructor; lia.
  - repeat constructor; lia.
Defined.

(** ** Requests of the system agents *)

Lemma get_agent_type_system w name :
  name = "BUYER"%string \/ name = "SELLER"%string ->
  E3BIUagent.get_agent_type w name = Ok name.
Proof. intros [-> | ->]; reflexivity. Qed.

Section SystemAgents.

Variables Negotiator Issues Mechanism : Type.
Variable super_respond_to_negotiation_request :
  string -> Issues -> E3BIUagent.Annotation -> Mechanism
  -> outcome (option Negotiator).
Variables (w : E3BIUagent.World) (initiator : string) (issues : Issues)
          (annotation : E3BIUagent.Annotation) (mechanism : Mechanism).

(** X21. A request whose counterpart is one of the system agents ["BUYER"]
    and ["SELLER"] needs no lookup in the world: it is declined whenever a
    partner of the agent's own type is found on that side (and the agent's
    type is not that system name), whatever the parent class would
    answer. *)
Theorem system_agent_declined :
  counterpart annotation = "BUYER"%string
  \/ counterpart annotation = "SELLER"%string ->
  E3BIUagent.type_name w <> counterpart annotation ->
  E3BIUagent.is_agent_unique w (E3BIUagent.is_buy annotation) = Ok true ->
  E3BIUagent.respond_to_negotiation_request Negotiator Issues Mechanism
    super_respond_to_negotiation_request w initiator issues annotation
    mechanism
  = Ok None.
Proof.
  intros Hsys Hty Hunique.
  unfold E3BIUagent.respond_to_negotiation_request.
  fold (counterpart annotation).
  destruct (E3BIUagent.is_breached_last_n_steps w (counterpart annotation) 25);
    [reflexivity |].
  rewrite Hunique. cbn [E3BIUagent.obind].
  rewrite (get_agent_type_system w _ Hsys). cbn [E3BIUagent.obind].
  destruct (String.eqb_spec (counterpart annotation) (E3BIUagent.type_name w))
    as [Heq | _]; [congruence | reflexivity].
Qed.

End SystemAgents.

Lemma type_world_unique : E3BIUagent.is_agent_unique type_world true = Ok true.
Proof. vm_compute. reflexivity. Qed.

Lemma system_agent_declined_witness :
  E3BIUagent.respond_to_negotiation_request unit unit unit
    (fun _ _ _ _ => Ok (Some tt)) type_world "BUYER" tt
    (E3BIUagent.mkAnnotation "BUYER" "me" true) tt
  = Ok None.
Proof.
  apply (system_agent_declined unit unit unit (fun _ _ _ _ => Ok (Some tt))
           type_world "BUYER" tt (E3BIUagent.mkAnnotation "BUYER" "me" true)
           tt).
  - left. reflexivity.
  - discriminate.
  - exact type_world_unique.
Defined.
